(** * ADBTool: a Tkinter front-end over the adb command line

    Shallow embedding of [ADBTool.py] (the blocking variant) and of
    [ADBTool_multithread.py] (the threaded variant), and the properties
    of the command runner, the command formatters and the output
    formatters.

    Python text is modelled as a list of Unicode code points.  The string
    methods the program calls ([in], [startswith], [endswith], [replace],
    [strip], [splitlines], [lower], [join]) are written out; the only part
    of them that is a table of the Unicode character database rather than
    an algorithm, the lower-case mapping of the code points outside ASCII,
    is a parameter ([unicode_db]). *)

From Stdlib Require Import List Arith NArith ZArith Bool String Ascii Lia DecimalString.
Import ListNotations.

Local Open Scope N_scope.
Local Open Scope list_scope.

(* ================================================================== *)
(** * Python strings *)
(* ================================================================== *)

Module PyStr.

(** A [str] is a sequence of code points. *)
Definition str : Type := list N.

(** Decoder for the UTF-8 bytes of a literal of the source file:
    [need] continuation bytes are still expected for the code point
    accumulated in [acc]. *)
Fixpoint utf8_decode (need : nat) (acc : N) (bs : list N) : str :=
  match bs with
  | [] => []
  | b :: rest =>
      match need with
      | O =>
          if b <? 128 then b :: utf8_decode 0 0 rest
          else if b <? 224 then utf8_decode 1 (N.land b 31) rest
          else if b <? 240 then utf8_decode 2 (N.land b 15) rest
          else utf8_decode 3 (N.land b 7) rest
      | S O => (acc * 64 + N.land b 63) :: utf8_decode 0 0 rest
      | S k => utf8_decode k (acc * 64 + N.land b 63) rest
      end
  end.

(** [py "..."] is the Python literal with that text. *)
Definition py (s : string) : str :=
  utf8_decode 0 0 (map N_of_ascii (list_ascii_of_string s)).

(** The characters the literals of the program write with an escape. *)
Definition LF : str := [10].      (* "\n" *)
Definition TAB : str := [9].      (* "\t" *)
Definition DQ : str := [34].      (* the double quote *)
Definition BSL : str := [92].     (* the backslash *)

Fixpoint eqb (a b : str) : bool :=
  match a, b with
  | [], [] => true
  | x :: a', y :: b' => (x =? y) && eqb a' b'
  | _, _ => false
  end.

(** [not s]: the empty string and the empty list are falsy. *)
Definition is_empty (s : str) : bool :=
  match s with [] => true | _ => false end.

Definition is_empty_list (l : list str) : bool :=
  match l with [] => true | _ => false end.

(** [s.startswith(prefix)] *)
Fixpoint startswith (s prefix : str) : bool :=
  match prefix, s with
  | [], _ => true
  | p :: prefix', c :: s' => (c =? p) && startswith s' prefix'
  | _ :: _, [] => false
  end.

(** [s.endswith(suffix)] *)
Definition endswith (s suffix : str) : bool :=
  startswith (rev s) (rev suffix).

(** [needle in hay] *)
Fixpoint str_in (needle hay : str) : bool :=
  startswith hay needle ||
  match hay with
  | [] => false
  | _ :: hay' => str_in needle hay'
  end.

(** [s.replace(old, new)] for a non-empty [old]: the occurrences are
    found left to right and do not overlap; [skip] counts the code points
    of the occurrence just replaced that are still to be passed over. *)
Fixpoint replace_from (old new : str) (skip : nat) (s : str) : str :=
  match s with
  | [] => []
  | c :: rest =>
      match skip with
      | S k => replace_from old new k rest
      | O =>
          if startswith s old
          then new ++ replace_from old new (List.length old - 1) rest
          else c :: replace_from old new 0 rest
      end
  end.

(** [s.replace(old, new)]; an empty [old] matches before every code point
    and at the end. *)
Definition replace (s old new : str) : str :=
  match old with
  | [] => new ++ flat_map (fun c => c :: new) s
  | _ :: _ => replace_from old new 0 s
  end.

(** [sep.join(parts)] *)
Fixpoint join (sep : str) (parts : list str) : str :=
  match parts with
  | [] => []
  | [p] => p
  | p :: rest => p ++ sep ++ join sep rest
  end.

(** [Py_UNICODE_ISSPACE]: the code points [str.strip()] removes. *)
Definition isspace (c : N) : bool :=
  ((9 <=? c) && (c <=? 13)) || ((28 <=? c) && (c <=? 32)) ||
  (c =? 133) || (c =? 160) || (c =? 5760) ||
  ((8192 <=? c) && (c <=? 8202)) ||
  (c =? 8232) || (c =? 8233) || (c =? 8239) || (c =? 8287) || (c =? 12288).

Fixpoint lstrip (s : str) : str :=
  match s with
  | [] => []
  | c :: rest => if isspace c then lstrip rest else s
  end.

(** [s.strip()] *)
Definition strip (s : str) : str := rev (lstrip (rev (lstrip s))).

(** The line boundaries of [str.splitlines()]. *)
Definition is_linebreak (c : N) : bool :=
  ((10 <=? c) && (c <=? 13)) || ((28 <=? c) && (c <=? 30)) ||
  (c =? 133) || (c =? 8232) || (c =? 8233).

(** [cur] is the line being read, last code point first; [after_cr] says
    that the previous code point was a carriage return, so that a line
    feed coming now belongs to the same boundary. *)
Fixpoint splitlines_from (cur : str) (after_cr : bool) (s : str) : list str :=
  match s with
  | [] => if is_empty cur then [] else [rev cur]
  | c :: rest =>
      if (c =? 10) && after_cr then splitlines_from [] false rest
      else if is_linebreak c then rev cur :: splitlines_from [] (c =? 13) rest
      else splitlines_from (c :: cur) false rest
  end.

(** [s.splitlines()] *)
Definition splitlines (s : str) : list str := splitlines_from [] false s.

(** The part of the Unicode character database that [str.lower()] reads
    for the code points outside ASCII: the full lower-case mapping
    ([_PyUnicode_ToLowerFull]) and the final-sigma context test, given the
    code points before (nearest first) and after the capital sigma. *)
Record unicode_db : Type := {
  to_lower_full : N -> list N;
  final_sigma : str -> str -> bool
}.

Definition is_ascii_upper (c : N) : bool := (65 <=? c) && (c <=? 90).

(** Lower-casing of the code point [c] between [before] and [after]. *)
Definition lower_cp (db : unicode_db) (before : str) (c : N) (after : str) : str :=
  if c <? 128 then [if is_ascii_upper c then c + 32 else c]
  else if c =? 931 then [if final_sigma db before after then 962 else 963]
  else to_lower_full db c.

Fixpoint lower_from (db : unicode_db) (before s : str) : str :=
  match s with
  | [] => []
  | c :: rest => lower_cp db before c rest ++ lower_from db (c :: before) rest
  end.

(** [s.lower()] *)
Definition lower (db : unicode_db) (s : str) : str := lower_from db [] s.

(** [str(n)] for a non-negative integer. *)
Definition str_of_N (n : N) : str :=
  py (NilEmpty.string_of_uint (N.to_uint n)).

(** [x or ""] for a captured stream, which is [None] or a string. *)
Definition or_empty (x : option str) : str :=
  match x with
  | Some s => s
  | None => []
  end.

End PyStr.

Import PyStr.

(* ================================================================== *)
(** * The subprocess interface *)
(* ================================================================== *)

Module Subprocess.

(** The exceptions the calls of the program can raise; all of them are
    instances of [Exception]. *)
Inductive exn : Type :=
| TimeoutExpired (cmd : str) (timeout : N)
| OSError (msg : str)
| OtherException (msg : str)
| UnboundLocalError (msg : str).

(** [str(e)] *)
Definition str_of_exn (e : exn) : str :=
  match e with
  | TimeoutExpired cmd timeout =>
      py "Command '" ++ cmd ++ py "' timed out after " ++ str_of_N timeout ++ py " seconds"
  | OSError msg => msg
  | OtherException msg => msg
  | UnboundLocalError msg => msg
  end.

(** A value or a raised exception. *)
Definition result (A : Type) : Type := (exn + A)%type.

(** A child process as the program can observe it: the number of seconds
    after which it exits ([None]: it never does), what it wrote on its two
    streams, and the exception that reading them raises once the child has
    ended, if any (undecodable bytes with [text=True]). *)
Record process : Type := {
  duration : option N;
  stdout : option str;
  stderr : option str;
  read_failure : option exn
}.

(** What [subprocess.Popen] does for one command line. *)
Inductive popen_result : Type :=
| PopenRaises (e : exn)
| PopenStarts (p : process).

(** [process.communicate(timeout=timeout)] for the process started with
    the command line [cmd].  The wait comes first: a child that has not
    ended within [timeout] seconds raises [TimeoutExpired], whatever its
    output holds; the output of a child that ended in time is read and
    decoded then, which is where [read_failure] is raised. *)
Definition communicate (cmd : str) (p : process) (timeout : N)
  : result (option str * option str) :=
  match duration p with
  | Some d =>
      if d <=? timeout then
        match read_failure p with
        | Some e => inl e
        | None => inr (stdout p, stderr p)
        end
      else inl (TimeoutExpired cmd timeout)
  | None => inl (TimeoutExpired cmd timeout)
  end.

(** [process.communicate()] and [subprocess.run] without a timeout: they
    return (or raise [read_failure]) once the child has ended, and never
    for a child that does not end. *)
Definition wait_for (p : process) : option (result (option str * option str)) :=
  match duration p with
  | Some _ =>
      match read_failure p with
      | Some e => Some (inl e)
      | None => Some (inr (stdout p, stderr p))
      end
  | None => None
  end.

End Subprocess.

Import Subprocess.

(* ================================================================== *)
(** * ADBTool.py: the blocking variant *)
(* ================================================================== *)

Module ADBTool.

Definition adb_path : str :=
  py "/Users/patrickxu/Library/Android/sdk/platform-tools/adb".

Section Formatters.

Variable db : unicode_db.

Definition format_devices (output : str) : str :=
  let lines := filter (fun ln => negb (is_empty (strip ln))) (splitlines output) in
  if is_empty_list lines
     || forallb (fun ln => negb (str_in (py "device") ln)) (tl lines)
  then py "No devices connected!" ++ LF ++ LF ++ py "Command run: " ++ DQ ++ py "adb devices" ++ DQ
  else
    let devices := map (fun ln => replace ln (TAB ++ py "device") (py " → Connected")) (tl lines) in
    join LF devices ++ LF ++ LF ++ py "Command run: " ++ DQ ++ py "adb devices" ++ DQ.

Definition format_install (output : str) : str :=
  if str_in (py "Success") output || str_in (py "success") (lower db output)
  then py "Installation Successful!" ++ LF ++ LF ++ py "Command run: " ++ DQ ++ py "adb install <APK_PATH>" ++ DQ
  else if str_in (py "no devices") (lower db output)
  then py "No devices connected!"
  else py "Installation Result:" ++ LF ++ output ++ LF ++ LF
       ++ py "Command run: " ++ DQ ++ py "adb install <APK_PATH>" ++ DQ.

Definition format_search (output : str) : str :=
  if is_empty (strip output)
  then py "No package found!" ++ LF ++ LF ++ py "Command run: " ++ DQ
       ++ py "adb shell pm list packages | grep <PACKAGE_NAME>" ++ DQ
  else if str_in (py "no devices") (lower db output)
  then py "No devices connected!"
  else join LF (map (fun ln => replace ln (py "package:") [])
                    (filter (fun ln => negb (is_empty (strip ln))) (splitlines output)))
       ++ LF ++ LF ++ py "Command run: " ++ DQ
       ++ py "adb shell pm list packages | grep <PACKAGE_NAME>" ++ DQ.

Definition format_uninstall (output : str) : str :=
  if str_in (py "Success") output || str_in (py "success") (lower db output)
  then py "Uninstallation Successful!"
  else if str_in (py "no devices") (lower db output)
  then py "No devices connected!"
  else py "Uninstallation Result:" ++ LF ++ output ++ LF ++ LF
       ++ py "Command run: " ++ DQ ++ py "adb uninstall <PACKAGE_NAME>" ++ DQ.

Definition format_sideload (output : str) : str :=
  if str_in (py "failed") (lower db output)
  then py "Make sure the device is in sideload mode and try again." ++ LF
       ++ py "(Select " ++ DQ ++ py "Apply update from ADB" ++ DQ ++ py " in Recovery Mode)"
       ++ LF ++ LF ++ output
  else py "Sideloading Finished. (Check output below.)" ++ LF ++ LF ++ output ++ LF ++ LF
       ++ py "Command run: " ++ DQ ++ py "adb sideload <FIRMWARE_PATH>.zip" ++ DQ.

Definition format_shutdown (output : str) : str :=
  if str_in (py "no devices") (lower db output)
  then py "No devices connected!"
  else py "Shutdown initiated" ++ LF ++ LF ++ py "Command run: " ++ DQ ++ py "adb reboot -p" ++ DQ.

Definition format_recovery (output : str) : str :=
  if str_in (py "no devices") (lower db output)
  then py "No devices connected!"
  else py "Recovery initiated" ++ LF ++ LF ++ py "Command run: " ++ DQ ++ py "adb reboot recovery" ++ DQ.

Definition format_reboot (output : str) : str :=
  if str_in (py "no devices") (lower db output)
  then py "No devices connected!"
  else py "Reboot initiated" ++ LF ++ LF ++ py "Command run: " ++ DQ ++ py "adb reboot" ++ DQ.

Definition format_back (output : str) : str :=
  if str_in (py "no devices") (lower db output)
  then py "No devices connected!"
  else py "Back command executed" ++ LF ++ LF
       ++ py "Command run: " ++ DQ ++ py "adb shell input keyevent 4" ++ DQ.

Definition format_home (output : str) : str :=
  if str_in (py "no devices") (lower db output)
  then py "No devices connected!"
  else py "Home command executed" ++ LF ++ LF
       ++ py "Command run: " ++ DQ ++ py "adb shell input keyevent 3" ++ DQ.

Definition format_applications (output : str) : str :=
  if str_in (py "no devices") (lower db output)
  then py "No devices connected!"
  else py "Applications command executed" ++ LF ++ LF
       ++ py "Command run: " ++ DQ ++ py "adb shell input keyevent 187" ++ DQ.

Definition format_volume_up (output : str) : str :=
  if str_in (py "no devices") (lower db output)
  then py "No devices connected!"
  else py "Volume Up command executed" ++ LF ++ LF
       ++ py "Command run: " ++ DQ ++ py "adb shell input keyevent 24" ++ DQ.

Definition format_power (output : str) : str :=
  if str_in (py "no devices") (lower db output)
  then py "No devices connected!"
  else py "Power (Lock/Unlock) command executed" ++ LF ++ LF
       ++ py "Command run: " ++ DQ ++ py "adb shell input keyevent 26" ++ DQ.

Definition format_volume_down (output : str) : str :=
  if str_in (py "no devices") (lower db output)
  then py "No devices connected!"
  else py "Volume Down command executed" ++ LF ++ LF
       ++ py "Command run: " ++ DQ ++ py "adb shell input keyevent 25" ++ DQ.

Definition format_settings (output : str) : str :=
  if str_in (py "no devices") (lower db output)
  then py "No devices connected!"
  else py "Settings command executed" ++ LF ++ LF ++ py "Command run: " ++ DQ
       ++ py "adb shell am start -n com.android.settings/.Settings" ++ DQ.

Definition format_factory_test (output : str) : str :=
  if str_in (py "no devices") (lower db output)
  then py "No devices connected!"
  else py "Factory Test command executed" ++ LF ++ LF ++ py "Command run: " ++ DQ
       ++ py "adb shell am start -n com.ubx.factorykit/.Framework.Framework" ++ DQ.

Definition format_push (output : str) : str :=
  if str_in (py "no devices") (lower db output)
  then py "No devices connected!"
  else if str_in (py "failed") (lower db output)
  then py "Push failed. Check the local and device paths." ++ LF ++ LF ++ output
  else py "File pushed successfully:" ++ LF ++ output ++ LF ++ LF
       ++ py "Command run: " ++ DQ ++ py "adb push <LOCAL_PATH> <DEVICE_PATH>" ++ DQ.

Definition format_storage (output : str) : str :=
  if str_in (py "no devices") (lower db output)
  then py "No devices connected!"
  else py "Device Storage:" ++ LF ++ output ++ LF ++ LF
       ++ py "Command run: " ++ DQ ++ py "adb shell ls -l <DEVICE_PATH>" ++ DQ.

Definition format_pull (output : str) : str :=
  if str_in (py "no devices") (lower db output)
  then py "No devices connected!"
  else if str_in (py "failed") (lower db output)
  then py "Pull failed. Check the device and local paths." ++ LF ++ LF ++ output
  else py "File pulled successfully:" ++ LF ++ output ++ LF ++ LF
       ++ py "Command run: " ++ DQ ++ py "adb pull <DEVICE_PATH> <LOCAL_PATH>" ++ DQ.

Definition format_screenshot (output : str) : str :=
  if str_in (py "no devices") (lower db output)
  then py "No devices connected!"
  else if str_in (py "failed") (lower db output)
  then py "Screenshot failed. Check the device state." ++ LF ++ LF ++ output
  else py "Screenshot saved on device under /sdcard/Pictures/Screenshot_*.png" ++ LF
       ++ py "You may pull it to your Mac with adb pull." ++ LF ++ LF
       ++ py "Command run: " ++ DQ
       ++ py "adb shell screencap -p /sdcard/Pictures/<Screenshot_Timestamp>.png" ++ DQ.

Definition format_network (output : str) : str :=
  if str_in (py "no devices") (lower db output)
  then py "No devices connected!"
  else if is_empty (strip output)
  then py "Network check returned no output. Device might be offline or command unsupported."
  else py "Network configuration:" ++ LF ++ output ++ LF ++ LF
       ++ py "Command run: " ++ DQ ++ py "adb shell ifconfig" ++ DQ.

Definition format_activity (output : str) : str :=
  if str_in (py "no devices") (lower db output)
  then py "No devices connected!"
  else if negb (str_in (py "mCurrentFocus") output) && negb (str_in (py "mFocusedApp") output)
  then py "No current activity found. Output:" ++ LF ++ output
  else
    match find (fun ln => str_in (py "mCurrentFocus") ln || str_in (py "mFocusedApp") ln)
               (splitlines output) with
    | Some ln =>
        py "Current focus:" ++ LF ++ strip ln ++ LF ++ LF ++ py "Command run: " ++ DQ
        ++ py "adb shell dumpsys window | grep mCurrentFocus" ++ DQ
    | None => py "Current activity (raw output):" ++ LF ++ output
    end.

Definition format_text (output : str) : str :=
  if str_in (py "no devices") (lower db output)
  then py "No devices connected!"
  else py "Text entered." ++ LF ++ LF
       ++ py "Command run: " ++ DQ ++ py "adb shell input text <TEXT>" ++ DQ.

Definition format_command (output : str) : str :=
  if str_in (py "no devices") (lower db output)
  then py "No devices connected!"
  else output.

Definition format_start_activity (output : str) : str :=
  if str_in (py "no devices") (lower db output)
  then py "No devices connected!"
  else if str_in (py "Error") output || str_in (py "not found") (lower db output)
  then py "Failed to start activity. Check the package/activity name." ++ LF ++ LF ++ output
  else py "Activity started (or adb returned output):" ++ LF ++ output ++ LF ++ LF
       ++ py "Command run: " ++ DQ
       ++ py "adb shell am start -n <PACKAGE_NAME>/<ACTIVITY_NAME>" ++ DQ.

(** The formatters of this file, by name. *)
Inductive formatter : Type :=
| devices | install | search | uninstall | sideload | shutdown | recovery
| reboot | back | home | applications | volume_up | power | volume_down
| settings | factory_test | push | storage | pull | screenshot | network
| activity | text | command | start_activity.

Definition format_output (f : formatter) : str -> str :=
  match f with
  | devices => format_devices
  | install => format_install
  | search => format_search
  | uninstall => format_uninstall
  | sideload => format_sideload
  | shutdown => format_shutdown
  | recovery => format_recovery
  | reboot => format_reboot
  | back => format_back
  | home => format_home
  | applications => format_applications
  | volume_up => format_volume_up
  | power => format_power
  | volume_down => format_volume_down
  | settings => format_settings
  | factory_test => format_factory_test
  | push => format_push
  | storage => format_storage
  | pull => format_pull
  | screenshot => format_screenshot
  | network => format_network
  | activity => format_activity
  | text => format_text
  | command => format_command
  | start_activity => format_start_activity
  end.

End Formatters.

(** The window as far as the runner touches it: the text of the output
    box, and the command lines handed to [subprocess.run], oldest first. *)
Record state : Type := mkState {
  output_text : str;
  launched : list str
}.

(** [run_single_adb_command(command, format_output_func)]: [run] is what
    [subprocess.run] does for the command line; the result is [None] when
    the child never exits, since the call then never returns. *)
Definition run_single_adb_command (command : str) (format_output_func : str -> result str)
    (run : popen_result) (s : state) : option state :=
  let command := replace command (py "adb") adb_path in
  let s := mkState [] (launched s ++ [command]) in
  let attempt : option (result str) :=
    match run with
    | PopenRaises e => Some (inl e)
    | PopenStarts p =>
        match wait_for p with
        | None => None
        | Some (inl e) => Some (inl e)
        | Some (inr (out, err)) => Some (format_output_func (or_empty out ++ or_empty err))
        end
    end in
  match attempt with
  | None => None
  | Some (inr formatted_output) =>
      Some (mkState (output_text s ++ formatted_output) (launched s))
  | Some (inl e) =>
      Some (mkState (output_text s ++ py "Error: " ++ str_of_exn e) (launched s))
  end.

End ADBTool.

(* ================================================================== *)
(** * ADBTool_multithread.py: the threaded variant *)
(* ================================================================== *)

Module ADBTool_multithread.

Definition adb_path : str :=
  py "/Users/patrickxu/Library/Android/sdk/platform-tools/adb".

Definition scrcpy_path : str :=
  py "/Users/patrickxu/scrcpy-macos-aarch64-v3.3.1/scrcpy".

Section Formatters.

Variable db : unicode_db.

Definition format_devices (output : str) : str :=
  let lines := filter (fun ln => negb (is_empty (strip ln))) (splitlines output) in
  if is_empty_list lines
     || forallb (fun ln => negb (str_in (py "device") ln)) (tl lines)
  then py "No devices connected!" ++ LF ++ LF ++ py "Command run: " ++ DQ ++ py "adb devices" ++ DQ
  else
    let devices := map (fun ln => replace ln (TAB ++ py "device") (py " → Connected")) (tl lines) in
    join LF devices ++ LF ++ LF ++ py "Command run: " ++ DQ ++ py "adb devices" ++ DQ.

Definition format_install (output : str) : str :=
  if str_in (py "Success") output || str_in (py "success") (lower db output)
  then py "Installation Successful!" ++ LF ++ LF ++ py "Command run: " ++ DQ ++ py "adb install <APK_PATH>" ++ DQ
  else if str_in (py "no devices") (lower db output)
  then py "No devices connected!"
  else py "Installation Result:" ++ LF ++ output ++ LF ++ LF
       ++ py "Command run: " ++ DQ ++ py "adb install <APK_PATH>" ++ DQ.

Definition format_search (output : str) : str :=
  if is_empty (strip output)
  then py "No package found!" ++ LF ++ LF ++ py "Command run: " ++ DQ
       ++ py "adb shell pm list packages | grep <PACKAGE_NAME>" ++ DQ
  else if str_in (py "no devices") (lower db output)
  then py "No devices connected!"
  else join LF (map (fun ln => replace ln (py "package:") [])
                    (filter (fun ln => negb (is_empty (strip ln))) (splitlines output)))
       ++ LF ++ LF ++ py "Command run: " ++ DQ
       ++ py "adb shell pm list packages | grep <PACKAGE_NAME>" ++ DQ.

Definition format_uninstall (output : str) : str :=
  if str_in (py "Success") output || str_in (py "success") (lower db output)
  then py "Uninstallation Successful!"
  else if str_in (py "no devices") (lower db output)
  then py "No devices connected!"
  else py "Uninstallation Result:" ++ LF ++ output ++ LF ++ LF
       ++ py "Command run: " ++ DQ ++ py "adb uninstall <PACKAGE_NAME>" ++ DQ.

Definition format_sideload (output : str) : str :=
  if str_in (py "failed") (lower db output)
  then py "Make sure the device is in sideload mode and try again." ++ LF
       ++ py "(Select " ++ DQ ++ py "Apply update from ADB" ++ DQ ++ py " in Recovery Mode)"
       ++ LF ++ LF ++ output
  else py "Sideloading Finished. (Check output below.)" ++ LF ++ LF ++ output ++ LF ++ LF
       ++ py "Command run: " ++ DQ ++ py "adb sideload <FIRMWARE_PATH>.zip" ++ DQ.

Definition format_shutdown (output : str) : str :=
  if str_in (py "no devices") (lower db output)
  then py "No devices connected!"
  else py "Shutdown initiated" ++ LF ++ LF ++ py "Command run: " ++ DQ ++ py "adb reboot -p" ++ DQ.

Definition format_recovery (output : str) : str :=
  if str_in (py "no devices") (lower db output)
  then py "No devices connected!"
  else py "Recovery initiated" ++ LF ++ LF ++ py "Command run: " ++ DQ ++ py "adb reboot recovery" ++ DQ.

Definition format_reboot (output : str) : str :=
  if str_in (py "no devices") (lower db output)
  then py "No devices connected!"
  else py "Reboot initiated" ++ LF ++ LF ++ py "Command run: " ++ DQ ++ py "adb reboot" ++ DQ.

Definition format_back (output : str) : str :=
  if str_in (py "no devices") (lower db output)
  then py "No devices connected!"
  else py "Back command executed" ++ LF ++ LF
       ++ py "Command run: " ++ DQ ++ py "adb shell input keyevent 4" ++ DQ.

Definition format_home (output : str) : str :=
  if str_in (py "no devices") (lower db output)
  then py "No devices connected!"
  else py "Home command executed" ++ LF ++ LF
       ++ py "Command run: " ++ DQ ++ py "adb shell input keyevent 3" ++ DQ.

Definition format_applications (output : str) : str :=
  if str_in (py "no devices") (lower db output)
  then py "No devices connected!"
  else py "Applications command executed" ++ LF ++ LF
       ++ py "Command run: " ++ DQ ++ py "adb shell input keyevent 187" ++ DQ.

Definition format_volume_up (output : str) : str :=
  if str_in (py "no devices") (lower db output)
  then py "No devices connected!"
  else py "Volume Up command executed" ++ LF ++ LF
       ++ py "Command run: " ++ DQ ++ py "adb shell input keyevent 24" ++ DQ.

Definition format_power (output : str) : str :=
  if str_in (py "no devices") (lower db output)
  then py "No devices connected!"
  else py "Power (Lock/Unlock) command executed" ++ LF ++ LF
       ++ py "Command run: " ++ DQ ++ py "adb shell input keyevent 26" ++ DQ.

Definition format_volume_down (output : str) : str :=
  if str_in (py "no devices") (lower db output)
  then py "No devices connected!"
  else py "Volume Down command executed" ++ LF ++ LF
       ++ py "Command run: " ++ DQ ++ py "adb shell input keyevent 25" ++ DQ.

Definition format_settings (output : str) : str :=
  if str_in (py "no devices") (lower db output)
  then py "No devices connected!"
  else py "Settings command executed" ++ LF ++ LF ++ py "Command run: " ++ DQ
       ++ py "adb shell am start -n com.android.settings/.Settings" ++ DQ.

Definition format_factory_test (output : str) : str :=
  if str_in (py "no devices") (lower db output)
  then py "No devices connected!"
  else py "Factory Test command executed" ++ LF ++ LF ++ py "Command run: " ++ DQ
       ++ py "adb shell am start -n com.ubx.factorykit/.Framework.Framework" ++ DQ.

Definition format_push (output : str) : str :=
  if str_in (py "no devices") (lower db output)
  then py "No devices connected!"
  else if str_in (py "failed") (lower db output)
  then py "Push failed. Check the local and device paths." ++ LF ++ LF ++ output
  else py "File pushed successfully:" ++ LF ++ output ++ LF ++ LF
       ++ py "Command run: " ++ DQ ++ py "adb push <LOCAL_PATH> <DEVICE_PATH>" ++ DQ.

Definition format_storage (output : str) : str :=
  if str_in (py "no devices") (lower db output)
  then py "No devices connected!"
  else py "Device Storage:" ++ LF ++ output ++ LF ++ LF
       ++ py "Command run: " ++ DQ ++ py "adb shell ls -l <DEVICE_PATH>" ++ DQ.

Definition format_pull (output : str) : str :=
  if str_in (py "no devices") (lower db output)
  then py "No devices connected!"
  else if str_in (py "failed") (lower db output)
  then py "Pull failed. Check the device and local paths." ++ LF ++ LF ++ output
  else py "File pulled successfully:" ++ LF ++ output ++ LF ++ LF
       ++ py "Command run: " ++ DQ ++ py "adb pull <DEVICE_PATH> <LOCAL_PATH>" ++ DQ.

Definition format_screenshot (output : str) : str :=
  if str_in (py "no devices") (lower db output)
  then py "No devices connected!"
  else if str_in (py "failed") (lower db output)
  then py "Screenshot failed. Check the device state." ++ LF ++ LF ++ output
  else py "Screenshot saved on device under /sdcard/Pictures/Screenshot_*.png" ++ LF
       ++ py "You may pull it to your Mac with adb pull." ++ LF ++ LF
       ++ py "Command run: " ++ DQ
       ++ py "adb shell screencap -p /sdcard/Pictures/<Screenshot_Timestamp>.png" ++ DQ.

Definition format_network (output : str) : str :=
  if str_in (py "no devices") (lower db output)
  then py "No devices connected!"
  else if is_empty (strip output)
  then py "Network check returned no output. Device might be offline or command unsupported."
  else py "Network configuration:" ++ LF ++ output ++ LF ++ LF
       ++ py "Command run: " ++ DQ ++ py "adb shell ifconfig" ++ DQ.

Definition format_activity (output : str) : str :=
  if str_in (py "no devices") (lower db output)
  then py "No devices connected!"
  else if negb (str_in (py "mCurrentFocus") output) && negb (str_in (py "mFocusedApp") output)
  then py "No current activity found. Output:" ++ LF ++ output
  else
    match find (fun ln => str_in (py "mCurrentFocus") ln || str_in (py "mFocusedApp") ln)
               (splitlines output) with
    | Some ln =>
        py "Current focus:" ++ LF ++ strip ln ++ LF ++ LF ++ py "Command run: " ++ DQ
        ++ py "adb shell dumpsys window | grep mCurrentFocus" ++ DQ
    | None => py "Current activity (raw output):" ++ LF ++ output
    end.

Definition format_scrcpy (output : str) : str :=
  if str_in (py "ERROR") (lower db output)
  then py "No devices connected!"
  else py "CASTING started in the BACKGROUND".

Definition format_text (output : str) : str :=
  if str_in (py "no devices") (lower db output)
  then py "No devices connected!"
  else py "Text entered." ++ LF ++ LF
       ++ py "Command run: " ++ DQ ++ py "adb shell input text <TEXT>" ++ DQ.

Definition format_command (output : str) : str :=
  if str_in (py "no devices") (lower db output)
  then py "No devices connected!"
  else output.

Definition format_start_activity (output : str) : str :=
  if str_in (py "no devices") (lower db output)
  then py "No devices connected!"
  else if str_in (py "Error") output || str_in (py "not found") (lower db output)
  then py "Failed to start activity. Check the package/activity name." ++ LF ++ LF ++ output
  else py "Activity started (or adb returned output):" ++ LF ++ output ++ LF ++ LF
       ++ py "Command run: " ++ DQ
       ++ py "adb shell am start -n <PACKAGE_NAME>/<ACTIVITY_NAME>" ++ DQ.

(** The formatters of this file, by name. *)
Inductive formatter : Type :=
| devices | install | search | uninstall | sideload | shutdown | recovery
| reboot | back | home | applications | volume_up | power | volume_down
| settings | factory_test | push | storage | pull | screenshot | network
| activity | scrcpy | text | command | start_activity.

Definition format_output (f : formatter) : str -> str :=
  match f with
  | devices => format_devices
  | install => format_install
  | search => format_search
  | uninstall => format_uninstall
  | sideload => format_sideload
  | shutdown => format_shutdown
  | recovery => format_recovery
  | reboot => format_reboot
  | back => format_back
  | home => format_home
  | applications => format_applications
  | volume_up => format_volume_up
  | power => format_power
  | volume_down => format_volume_down
  | settings => format_settings
  | factory_test => format_factory_test
  | push => format_push
  | storage => format_storage
  | pull => format_pull
  | screenshot => format_screenshot
  | network => format_network
  | activity => format_activity
  | scrcpy => format_scrcpy
  | text => format_text
  | command => format_command
  | start_activity => format_start_activity
  end.

End Formatters.

(** ** The window *)

(** The button widgets the handlers pass to the runner.  [create_controls]
    assigns [self.activity_button] twice: the attribute ends up naming the
    "Start Package/Activity" widget, and the "Check Activity" widget keeps
    no name of its own ([check_activity_widget]). *)
Inductive button : Type :=
| list_devices_button | install_button | search_button | uninstall_button
| sideload_button | shutdown_button | recovery_button | reboot_button
| back_button | home_button | apps_button | vol_up_button | power_button
| vol_down_button | settings_button | factory_button | storage_button
| push_button | pull_button | network_button | check_activity_widget
| scrcpy_button | command_button | text_button | activity_button.

Definition button_eq_dec (a b : button) : {a = b} + {a <> b}.
Proof. decide equality. Defined.

(** The entry widgets. *)
Inductive entry : Type :=
| install_apk_entry | search_apk_entry | uninstall_apk_entry
| sideload_apk_entry | device_storage_entry | push_local_entry
| push_device_entry | pull_local_entry | pull_device_entry
| text_input_entry | start_activity_entry.

(** A worker thread: the closure [thread_target] of one call of
    [run_single_adb_command], with the variables it captures. *)
Record worker : Type := mkWorker {
  w_command : str;
  w_format_output_func : str -> result str;
  w_button : option button
}.

Record state : Type := mkState {
  command_running : bool;                       (* self.command_running *)
  progress_counter : N;                         (* self.progress_counter *)
  output_text : str;                            (* the text of self.output_text *)
  result_queue : list (str * option button);    (* self.result_queue, oldest first *)
  disabled : list button;                       (* the buttons in state DISABLED *)
  entries : entry -> str;                       (* the text of each entry *)
  threads : list worker;                        (* the workers started and not finished *)
  launched : list str                           (* the command lines handed to Popen or run *)
}.

Definition set_command_running (v : bool) (s : state) : state :=
  mkState v (progress_counter s) (output_text s) (result_queue s) (disabled s)
          (entries s) (threads s) (launched s).

Definition set_progress_counter (v : N) (s : state) : state :=
  mkState (command_running s) v (output_text s) (result_queue s) (disabled s)
          (entries s) (threads s) (launched s).

Definition set_output_text (v : str) (s : state) : state :=
  mkState (command_running s) (progress_counter s) v (result_queue s) (disabled s)
          (entries s) (threads s) (launched s).

Definition set_result_queue (v : list (str * option button)) (s : state) : state :=
  mkState (command_running s) (progress_counter s) (output_text s) v (disabled s)
          (entries s) (threads s) (launched s).

Definition set_disabled (v : list button) (s : state) : state :=
  mkState (command_running s) (progress_counter s) (output_text s) (result_queue s) v
          (entries s) (threads s) (launched s).

Definition set_threads (v : list worker) (s : state) : state :=
  mkState (command_running s) (progress_counter s) (output_text s) (result_queue s)
          (disabled s) (entries s) v (launched s).

Definition set_launched (v : list str) (s : state) : state :=
  mkState (command_running s) (progress_counter s) (output_text s) (result_queue s)
          (disabled s) (entries s) (threads s) v.

(** [self.output_text.delete(1.0, tk.END)] and [.insert(tk.END, text)] *)
Definition output_delete (s : state) : state := set_output_text [] s.
Definition output_insert (text : str) (s : state) : state :=
  set_output_text (output_text s ++ text) s.

(** [button.config(state=tk.DISABLED)] and [button.config(state=tk.NORMAL)] *)
Definition config_disabled (b : button) (s : state) : state :=
  set_disabled (b :: disabled s) s.
Definition config_normal (b : button) (s : state) : state :=
  set_disabled (filter (fun x => if button_eq_dec x b then false else true) (disabled s)) s.

Definition is_disabled (b : button) (s : state) : bool :=
  existsb (fun x => if button_eq_dec x b then true else false) (disabled s).

(** [threading.Thread(target=thread_target, daemon=True).start()] *)
Definition thread_start (w : worker) (s : state) : state :=
  set_threads (threads s ++ [w]) s.

Definition _show_error (msg : str) (s : state) : state :=
  output_insert (py "Error: " ++ msg ++ LF) (output_delete s).

(** ** The command runner *)

(** The part of [run_single_adb_command] that runs on the calling thread. *)
Definition run_single_adb_command (command : str) (format_output_func : str -> result str)
    (button : option button) (s : state) : state :=
  if command_running s
  then _show_error (py "Another command is running. Please wait.") s
  else
    let s := set_command_running true s in
    let s := set_progress_counter 0 s in
    let s := output_delete s in
    let s := output_insert (py "Running command... Please wait." ++ LF) s in
    let s := match button with
             | Some b => config_disabled b s
             | None => s
             end in
    thread_start (mkWorker command format_output_func button) s.

(** Code of the worker thread: a computation on the shared state that
    returns a value or raises. *)
Definition M (A : Type) : Type := state -> result A * state.

Definition ret {A : Type} (a : A) : M A := fun s => (inr a, s).

Definition raise {A : Type} (e : exn) : M A := fun s => (inl e, s).

Definition bind {A B : Type} (m : M A) (k : A -> M B) : M B :=
  fun s =>
    match m s with
    | (inr a, s') => k a s'
    | (inl e, s') => (inl e, s')
    end.

Notation "x <- m ;; k" := (bind m (fun x => k))
  (at level 61, m at next level, right associativity).
Notation "m ;; k" := (bind m (fun _ => k))
  (at level 61, right associativity).

(** A call that returns or raises without touching the state. *)
Definition lift {A : Type} (r : result A) : M A := fun s => (r, s).

(** [try: body / except Exception as e: handler e] *)
Definition try_except {A : Type} (body : M A) (handler : exn -> M A) : M A :=
  fun s =>
    match body s with
    | (inr a, s') => (inr a, s')
    | (inl e, s') => handler e s'
    end.

(** [try: body / finally: final v], where [v] is the variable the body
    binds, [None] while it is unbound.  An exception of the body is raised
    again after [final], unless [final] raises itself. *)
Definition try_finally {A : Type} (body : M A) (final : option A -> M unit) : M unit :=
  fun s =>
    match body s with
    | (inr a, s') => final (Some a) s'
    | (inl e, s') =>
        match final None s' with
        | (inr _, s'') => (inl e, s'')
        | (inl e', s'') => (inl e', s'')
        end
    end.

(** Reading a local variable. *)
Definition read_local {A : Type} (name : str) (v : option A) : M A :=
  match v with
  | Some a => ret a
  | None =>
      raise (UnboundLocalError (py "cannot access local variable '" ++ name
                                ++ py "' where it is not associated with a value"))
  end.

(** [subprocess.Popen(command, shell=True, ...)], where [os] is what the
    operating system does with the command line. *)
Definition Popen (os : popen_result) (command : str) : M process :=
  fun s =>
    let s := set_launched (launched s ++ [command]) s in
    match os with
    | PopenRaises e => (inl e, s)
    | PopenStarts p => (inr p, s)
    end.

(** [self.result_queue.put(item)] *)
Definition queue_put (item : str * option button) : M unit :=
  fun s => (inr tt, set_result_queue (result_queue s ++ [item]) s).

Definition assign_command_running (v : bool) : M unit :=
  fun s => (inr tt, set_command_running v s).

(** [thread_target], the body of the worker started by
    [run_single_adb_command]. *)
Definition thread_target (w : worker) (os : popen_result) : M unit :=
  try_finally
    (try_except
       (if eqb (w_command w) (py "scrcpy") then
          process <- Popen os scrcpy_path ;;
          lift (w_format_output_func w [])
        else
          let command := replace (w_command w) (py "adb") adb_path in
          process <- Popen os command ;;
          streams <- lift (communicate command process 300) ;;
          let output := or_empty (fst streams) ++ or_empty (snd streams) in
          lift (w_format_output_func w output))
       (fun e => ret (py "Error: " ++ str_of_exn e)))
    (fun formatted_output =>
       formatted_output <- read_local (py "formatted_output") formatted_output ;;
       queue_put (formatted_output, w_button w) ;;
       assign_command_running false).

(** The [i]-th live worker runs to its end and its thread dies. *)
Definition remove_nth {A : Type} (i : nat) (l : list A) : list A :=
  firstn i l ++ skipn (S i) l.

Definition worker_runs (i : nat) (os : popen_result) (s : state) : state :=
  match nth_error (threads s) i with
  | Some w => snd (thread_target w os (set_threads (remove_nth i (threads s)) s))
  | None => s
  end.

(** One turn of the loop of [_check_queue]. *)
Fixpoint drain (q : list (str * option button)) (s : state) : state :=
  match q with
  | [] => s
  | (formatted_output, button) :: q' =>
      let s := set_result_queue q' s in
      let s := output_delete s in
      let s := output_insert formatted_output s in
      let s := set_command_running false s in
      let s := match button with
               | Some b => config_normal b s
               | None => s
               end in
      drain q' s
  end.

Definition _check_queue (s : state) : state := drain (result_queue s) s.

Definition _update_progress (s : state) : state :=
  if command_running s then
    let s := set_progress_counter (progress_counter s + 1) s in
    let s := output_delete s in
    output_insert (py "Still running... (" ++ str_of_N (progress_counter s) ++ py "s)" ++ LF) s
  else s.

(** ** The button handlers *)

(** The operating-system calls of the handlers. *)
Record os_env : Type := {
  expanduser : str -> str;     (* os.path.expanduser *)
  isfile : str -> bool;        (* os.path.isfile *)
  path_exists : str -> bool    (* os.path.exists *)
}.

(** A formatter method passed as [format_output_func]. *)
Definition method (f : str -> str) : str -> result str := fun output => inr (f output).

Section Handlers.

Variable db : unicode_db.
Variable env : os_env.

Definition run_install_apk (s : state) : state :=
  let apk_path := strip (entries s install_apk_entry) in
  if is_empty apk_path then _show_error (py "Please enter a valid APK path") s
  else
    let apk_path := expanduser env apk_path in
    if negb (isfile env apk_path) || negb (endswith (lower db apk_path) (py ".apk"))
    then _show_error (py "Please enter a valid APK path (file must exist and end with .apk)") s
    else
      let cmd := py "adb install " ++ DQ ++ apk_path ++ DQ in
      run_single_adb_command cmd (method (format_install db)) (Some install_button) s.

Definition run_search_apk (s : state) : state :=
  let apk_name := strip (entries s search_apk_entry) in
  if is_empty apk_name
  then _show_error (py "Please enter a valid APK/package name fragment") s
  else
    let cmd := py "adb shell pm list packages | grep -i " ++ DQ ++ apk_name ++ DQ in
    run_single_adb_command cmd (method (format_search db)) (Some search_button) s.

Definition run_uninstall_apk (s : state) : state :=
  let apk_name := strip (entries s uninstall_apk_entry) in
  if is_empty apk_name || negb (str_in (py "com.") apk_name)
  then _show_error (py "Please enter a valid package name (e.g. com.example.app)") s
  else
    let cmd := py "adb uninstall " ++ DQ ++ apk_name ++ DQ in
    run_single_adb_command cmd (method (format_uninstall db)) (Some uninstall_button) s.

Definition run_sideload_firmware (s : state) : state :=
  let firmware_path := expanduser env (strip (entries s sideload_apk_entry)) in
  if is_empty firmware_path || negb (isfile env firmware_path)
     || negb (endswith (lower db firmware_path) (py ".zip"))
  then _show_error (py "Please enter a valid firmware path (.zip)") s
  else
    let cmd := py "adb sideload " ++ DQ ++ firmware_path ++ DQ in
    run_single_adb_command cmd (method (format_sideload db)) (Some sideload_button) s.

Definition run_check_storage (s : state) : state :=
  let path := strip (entries s device_storage_entry) in
  if is_empty path || negb (startswith path (py "/sdcard/"))
  then _show_error (py "Please enter a valid device storage path (starting with /sdcard/)") s
  else
    let cmd := py "adb shell ls -l " ++ DQ ++ path ++ DQ in
    run_single_adb_command cmd (method (format_storage db)) (Some storage_button) s.

Definition run_adb_push (s : state) : state :=
  let local_path := expanduser env (strip (entries s push_local_entry)) in
  let device_path := strip (entries s push_device_entry) in
  if is_empty local_path || negb (path_exists env local_path)
  then _show_error (py "Please select a valid local file") s
  else if is_empty device_path || negb (startswith device_path (py "/sdcard/"))
  then _show_error (py "Please enter a valid device path (starting with /sdcard/)") s
  else
    let cmd := py "adb push " ++ DQ ++ local_path ++ DQ ++ py " " ++ DQ ++ device_path ++ DQ in
    run_single_adb_command cmd (method (format_push db)) (Some push_button) s.

Definition run_adb_pull (s : state) : state :=
  let device_path := strip (entries s pull_device_entry) in
  let local_path := expanduser env (strip (entries s pull_local_entry)) in
  if is_empty device_path || negb (startswith device_path (py "/sdcard/"))
  then _show_error (py "Please enter a valid device path (starting with /sdcard/)") s
  else if is_empty local_path
  then _show_error (py "Please select a valid local save path") s
  else
    let cmd := py "adb pull " ++ DQ ++ device_path ++ DQ ++ py " " ++ DQ ++ local_path ++ DQ in
    run_single_adb_command cmd (method (format_pull db)) (Some pull_button) s.

Definition run_text_input (s : state) : state :=
  let text := strip (entries s text_input_entry) in
  if is_empty text then _show_error (py "Please enter some text") s
  else
    let safe_text := replace text DQ (BSL ++ DQ) in
    let cmd := py "adb shell input text " ++ DQ ++ safe_text ++ DQ in
    run_single_adb_command cmd (method (format_text db)) (Some text_button) s.

Definition run_execute_command (s : state) : state :=
  let command := strip (entries s text_input_entry) in
  if is_empty command then _show_error (py "Please enter a valid command") s
  else run_single_adb_command command (method (format_command db)) (Some command_button) s.

Definition run_start_activity (s : state) : state :=
  let activity := strip (entries s start_activity_entry) in
  if is_empty activity
  then _show_error (py "Please enter a valid Package/Activity (e.g. com.example/.MainActivity)") s
  else
    let cmd := py "adb shell am start -n " ++ DQ ++ activity ++ DQ in
    run_single_adb_command cmd (method (format_start_activity db)) (Some activity_button) s.

(** [run_screenshot], which runs its two commands on the calling thread.
    [ts] is the time stamp [datetime.now().strftime(...)] returns; [run1]
    and [run2] are what [subprocess.run] does for the two command lines.
    The result is [None] when a child never exits. *)
Definition run_screenshot (ts : str) (run1 run2 : popen_result) (s : state) : option state :=
  let device_path := py "/sdcard/Pictures/Screenshot_" ++ ts ++ py ".png" in
  let local_path := expanduser env (py "~/Desktop/Screenshot_" ++ ts ++ py ".png") in
  let screencap_cmd := py "adb shell screencap -p " ++ device_path in
  let pull_cmd := py "adb pull " ++ device_path ++ py " " ++ DQ ++ local_path ++ DQ in
  let screencap_cmd := replace screencap_cmd (py "adb") adb_path in
  let pull_cmd := replace pull_cmd (py "adb") adb_path in
  let s := output_delete s in
  let s := output_insert (py "Taking screenshot..." ++ LF) s in
  let run (command : str) (r : popen_result) : option (result (option str * option str)) :=
    match r with
    | PopenRaises e => Some (inl e)
    | PopenStarts p => wait_for p
    end in
  let s := set_launched (launched s ++ [screencap_cmd]) s in
  match run screencap_cmd run1 with
  | None => None
  | Some (inl e) => Some (output_insert (py "Error: " ++ str_of_exn e) s)
  | Some (inr (out, err)) =>
      let screencap_output := or_empty out ++ or_empty err in
      if str_in (py "error") (lower db screencap_output)
         || str_in (py "no devices") (lower db screencap_output)
      then Some (output_insert (py "Screenshot failed: " ++ screencap_output ++ LF) s)
      else
        let s := output_insert (py "Screenshot taken on device." ++ LF) s in
        let s := set_launched (launched s ++ [pull_cmd]) s in
        match run pull_cmd run2 with
        | None => None
        | Some (inl e) => Some (output_insert (py "Error: " ++ str_of_exn e) s)
        | Some (inr (out, err)) =>
            let pull_output := or_empty out ++ or_empty err in
            let formatted_pull := format_pull db pull_output in
            Some (output_insert (formatted_pull ++ LF ++ py "Saved to: " ++ local_path) s)
        end
  end.

(** The operations that go through [run_single_adb_command], one per
    button of [create_controls]. *)
Inductive operation : Type :=
| list_devices | install_apk | search_apk | uninstall_apk | sideload_firmware
| op_shutdown | op_recovery | op_reboot | op_back | op_home | op_applications
| op_volume_up | op_power | op_volume_down | op_settings | op_factory_test
| check_storage | adb_push | adb_pull | check_network | check_activity
| cast_screen | execute_command | text_input | op_start_activity.

(** The [command=] callback of the button of each operation. *)
Definition handler (op : operation) : state -> state :=
  match op with
  | list_devices =>
      run_single_adb_command (py "adb devices") (method format_devices)
        (Some list_devices_button)
  | install_apk => run_install_apk
  | search_apk => run_search_apk
  | uninstall_apk => run_uninstall_apk
  | sideload_firmware => run_sideload_firmware
  | op_shutdown =>
      run_single_adb_command (py "adb reboot -p") (method (format_shutdown db))
        (Some shutdown_button)
  | op_recovery =>
      run_single_adb_command (py "adb reboot recovery") (method (format_recovery db))
        (Some recovery_button)
  | op_reboot =>
      run_single_adb_command (py "adb reboot") (method (format_reboot db))
        (Some reboot_button)
  | op_back =>
      run_single_adb_command (py "adb shell input keyevent 4") (method (format_back db))
        (Some back_button)
  | op_home =>
      run_single_adb_command (py "adb shell input keyevent 3") (method (format_home db))
        (Some home_button)
  | op_applications =>
      run_single_adb_command (py "adb shell input keyevent 187")
        (method (format_applications db)) (Some apps_button)
  | op_volume_up =>
      run_single_adb_command (py "adb shell input keyevent 24")
        (method (format_volume_up db)) (Some vol_up_button)
  | op_power =>
      run_single_adb_command (py "adb shell input keyevent 26") (method (format_power db))
        (Some power_button)
  | op_volume_down =>
      run_single_adb_command (py "adb shell input keyevent 25")
        (method (format_volume_down db)) (Some vol_down_button)
  | op_settings =>
      run_single_adb_command (py "adb shell am start -n com.android.settings/.Settings")
        (method (format_settings db)) (Some settings_button)
  | op_factory_test =>
      run_single_adb_command
        (py "adb shell am start -n com.ubx.factorykit/.Framework.Framework")
        (method (format_factory_test db)) (Some factory_button)
  | check_storage => run_check_storage
  | adb_push => run_adb_push
  | adb_pull => run_adb_pull
  | check_network =>
      run_single_adb_command (py "adb shell ifconfig") (method (format_network db))
        (Some network_button)
  | check_activity =>
      run_single_adb_command (py "adb shell dumpsys window | grep mCurrentFocus")
        (method (format_activity db)) (Some activity_button)
  | cast_screen =>
      run_single_adb_command (py "scrcpy") (method (format_scrcpy db)) (Some scrcpy_button)
  | execute_command => run_execute_command
  | text_input => run_text_input
  | op_start_activity => run_start_activity
  end.

(** The widget the operator clicks for each operation. *)
Definition widget_of (op : operation) : button :=
  match op with
  | list_devices => list_devices_button
  | install_apk => install_button
  | search_apk => search_button
  | uninstall_apk => uninstall_button
  | sideload_firmware => sideload_button
  | op_shutdown => shutdown_button
  | op_recovery => recovery_button
  | op_reboot => reboot_button
  | op_back => back_button
  | op_home => home_button
  | op_applications => apps_button
  | op_volume_up => vol_up_button
  | op_power => power_button
  | op_volume_down => vol_down_button
  | op_settings => settings_button
  | op_factory_test => factory_button
  | check_storage => storage_button
  | adb_push => push_button
  | adb_pull => pull_button
  | check_network => network_button
  | check_activity => check_activity_widget
  | cast_screen => scrcpy_button
  | execute_command => command_button
  | text_input => text_button
  | op_start_activity => activity_button
  end.

(** What happens on the events of the window: a click (a disabled button
    ignores it), the end of a worker, and the two timers. *)
Inductive event : Type :=
| Click (op : operation)
| WorkerRuns (i : nat) (os : popen_result)
| CheckQueue
| UpdateProgress.

Definition step (ev : event) (s : state) : state :=
  match ev with
  | Click op => if is_disabled (widget_of op) s then s else handler op s
  | WorkerRuns i os => worker_runs i os s
  | CheckQueue => _check_queue s
  | UpdateProgress => _update_progress s
  end.

Definition run_events (evs : list event) (s : state) : state :=
  fold_left (fun s ev => step ev s) evs s.

End Handlers.

(** The window when [__init__] returns: the texts [create_controls] puts in
    the entries, with [desktop] for the desktop directory followed by the
    path separator. *)
Definition initial_entries (desktop : str) (e : entry) : str :=
  match e with
  | install_apk_entry | sideload_apk_entry | push_local_entry | pull_local_entry => desktop
  | device_storage_entry | push_device_entry | pull_device_entry => py "/sdcard/"
  | search_apk_entry | uninstall_apk_entry | text_input_entry | start_activity_entry => []
  end.

Definition initial_state (desktop : str) : state :=
  mkState false 0 (py "ADB Tool ready. Click 'List Devices' to begin." ++ LF) [] []
          (initial_entries desktop) [] [].

End ADBTool_multithread.

(* ================================================================== *)
(** * The output formatters of src/ADBTool_multithread.py, untyped *)
(* ================================================================== *)

(** The formatters once more, as Python runs them: on values that carry
    their type at run time, with the method calls and operators that
    raise on a value of the wrong type. *)
Module Dynamic.

(** The values the formatters can meet. *)
Inductive value : Type :=
| VNone
| VBool (b : bool)
| VStr (s : str).

Inductive raised : Type :=
| AttributeError
| TypeError.

(** A value or a raised exception. *)
Definition dyn (A : Type) : Type := (raised + A)%type.

Definition ret {A : Type} (a : A) : dyn A := inr a.

Definition raise {A : Type} (e : raised) : dyn A := inl e.

Definition bind {A B : Type} (m : dyn A) (k : A -> dyn B) : dyn B :=
  match m with
  | inr a => k a
  | inl e => inl e
  end.

Notation "x <- m ;; k" := (bind m (fun x => k))
  (at level 61, m at next level, right associativity).

(** [v.lower()] *)
Definition lower (db : unicode_db) (v : value) : dyn value :=
  match v with
  | VStr s => ret (VStr (PyStr.lower db s))
  | _ => raise AttributeError
  end.

(** [v.strip()] *)
Definition strip (v : value) : dyn value :=
  match v with
  | VStr s => ret (VStr (PyStr.strip s))
  | _ => raise AttributeError
  end.

(** [v.splitlines()] *)
Definition splitlines (v : value) : dyn (list value) :=
  match v with
  | VStr s => ret (map VStr (PyStr.splitlines s))
  | _ => raise AttributeError
  end.

(** [v.replace(old, new)] *)
Definition replace (v : value) (old new : str) : dyn value :=
  match v with
  | VStr s => ret (VStr (PyStr.replace s old new))
  | _ => raise AttributeError
  end.

(** [needle in v], for a string [needle] *)
Definition contains (needle : str) (v : value) : dyn bool :=
  match v with
  | VStr s => ret (str_in needle s)
  | _ => raise TypeError
  end.

(** The truth value of [v], as [if v] and [not v] take it. *)
Definition truth (v : value) : bool :=
  match v with
  | VNone => false
  | VBool b => b
  | VStr s => negb (is_empty s)
  end.

(** [text + v], for a string [text] *)
Definition concat (text : str) (v : value) : dyn str :=
  match v with
  | VStr s => ret (text ++ s)
  | _ => raise TypeError
  end.

(** What [{v}] gives in an f-string. *)
Definition format (v : value) : str :=
  match v with
  | VNone => py "None"
  | VBool true => py "True"
  | VBool false => py "False"
  | VStr s => s
  end.

(** [sep.join(items)] *)
Fixpoint strings (items : list value) : dyn (list str) :=
  match items with
  | [] => ret []
  | VStr s :: rest => l <- strings rest ;; ret (s :: l)
  | _ :: _ => raise TypeError
  end.

Definition join (sep : str) (items : list value) : dyn str :=
  l <- strings items ;; ret (PyStr.join sep l).

(** [a or b] and [a and b] under [if], where [b] is evaluated only when
    [a] does not decide. *)
Definition or_else (a : bool) (b : dyn bool) : dyn bool :=
  if a then ret true else b.

Definition and_also (a : bool) (b : dyn bool) : dyn bool :=
  if a then b else ret false.

(** [[expr(x) for x in items if cond(x)]] *)
Fixpoint comprehension (expr : value -> dyn value) (cond : value -> dyn bool)
    (items : list value) : dyn (list value) :=
  match items with
  | [] => ret []
  | x :: rest =>
      c <- cond x ;;
      if c then
        y <- expr x ;;
        ys <- comprehension expr cond rest ;;
        ret (y :: ys)
      else comprehension expr cond rest
  end.

(** [not items], for a list *)
Definition no_items (items : list value) : bool :=
  match items with [] => true | _ => false end.

(** [all(cond(x) for x in items)] *)
Fixpoint all (cond : value -> dyn bool) (items : list value) : dyn bool :=
  match items with
  | [] => ret true
  | x :: rest =>
      c <- cond x ;;
      if c then all cond rest else ret false
  end.

(** [acc = []], then [for x in items: acc.append(expr(x))] *)
Fixpoint for_append (expr : value -> dyn value) (items : list value) : dyn (list value) :=
  match items with
  | [] => ret []
  | x :: rest =>
      y <- expr x ;;
      ys <- for_append expr rest ;;
      ret (y :: ys)
  end.

Section Formatters.

Variable db : unicode_db.

Definition format_devices (output : value) : dyn value :=
  all_lines <- splitlines output ;;
  lines <- comprehension (fun ln => ret ln) (fun ln => t <- strip ln ;; ret (truth t))
             all_lines ;;
  c <- or_else (no_items lines)
         (all (fun ln => c <- contains (py "device") ln ;; ret (negb c)) (tl lines)) ;;
  if c
  then ret (VStr (py "No devices connected!" ++ LF ++ LF ++ py "Command run: " ++ DQ
                  ++ py "adb devices" ++ DQ))
  else
    devices <- for_append (fun ln => replace ln (TAB ++ py "device") (py " → Connected"))
                 (tl lines) ;;
    joined <- join LF devices ;;
    ret (VStr (joined ++ LF ++ LF ++ py "Command run: " ++ DQ ++ py "adb devices" ++ DQ)).

Definition format_install (output : value) : dyn value :=
  c1 <- contains (py "Success") output ;;
  c <- or_else c1 (lowered <- lower db output ;; contains (py "success") lowered) ;;
  if c
  then ret (VStr (py "Installation Successful!" ++ LF ++ LF ++ py "Command run: " ++ DQ
                  ++ py "adb install <APK_PATH>" ++ DQ))
  else
    lowered <- lower db output ;;
    c <- contains (py "no devices") lowered ;;
    if c then ret (VStr (py "No devices connected!"))
    else ret (VStr (py "Installation Result:" ++ LF ++ format output ++ LF ++ LF
                    ++ py "Command run: " ++ DQ ++ py "adb install <APK_PATH>" ++ DQ)).

Definition format_search (output : value) : dyn value :=
  stripped <- strip output ;;
  if negb (truth stripped)
  then ret (VStr (py "No package found!" ++ LF ++ LF ++ py "Command run: " ++ DQ
                  ++ py "adb shell pm list packages | grep <PACKAGE_NAME>" ++ DQ))
  else
    lowered <- lower db output ;;
    c <- contains (py "no devices") lowered ;;
    if c then ret (VStr (py "No devices connected!"))
    else
      all_lines <- splitlines output ;;
      names <- comprehension (fun ln => replace ln (py "package:") [])
                 (fun ln => t <- strip ln ;; ret (truth t)) all_lines ;;
      joined <- join LF names ;;
      ret (VStr (joined ++ LF ++ LF ++ py "Command run: " ++ DQ
                 ++ py "adb shell pm list packages | grep <PACKAGE_NAME>" ++ DQ)).

Definition format_uninstall (output : value) : dyn value :=
  c1 <- contains (py "Success") output ;;
  c <- or_else c1 (lowered <- lower db output ;; contains (py "success") lowered) ;;
  if c then ret (VStr (py "Uninstallation Successful!"))
  else
    lowered <- lower db output ;;
    c <- contains (py "no devices") lowered ;;
    if c then ret (VStr (py "No devices connected!"))
    else ret (VStr (py "Uninstallation Result:" ++ LF ++ format output ++ LF ++ LF
                    ++ py "Command run: " ++ DQ ++ py "adb uninstall <PACKAGE_NAME>" ++ DQ)).

Definition format_sideload (output : value) : dyn value :=
  lowered <- lower db output ;;
  c <- contains (py "failed") lowered ;;
  if c
  then
    t <- concat (py "Make sure the device is in sideload mode and try again." ++ LF
                 ++ py "(Select " ++ DQ ++ py "Apply update from ADB" ++ DQ
                 ++ py " in Recovery Mode)" ++ LF ++ LF) output ;;
    ret (VStr t)
  else ret (VStr (py "Sideloading Finished. (Check output below.)" ++ LF ++ LF
                  ++ format output ++ LF ++ LF
                  ++ py "Command run: " ++ DQ ++ py "adb sideload <FIRMWARE_PATH>.zip" ++ DQ)).

Definition format_shutdown (output : value) : dyn value :=
  lowered <- lower db output ;;
  c <- contains (py "no devices") lowered ;;
  if c then ret (VStr (py "No devices connected!"))
  else ret (VStr (py "Shutdown initiated" ++ LF ++ LF
                  ++ py "Command run: " ++ DQ ++ py "adb reboot -p" ++ DQ)).

Definition format_recovery (output : value) : dyn value :=
  lowered <- lower db output ;;
  c <- contains (py "no devices") lowered ;;
  if c then ret (VStr (py "No devices connected!"))
  else ret (VStr (py "Recovery initiated" ++ LF ++ LF
                  ++ py "Command run: " ++ DQ ++ py "adb reboot recovery" ++ DQ)).

Definition format_reboot (output : value) : dyn value :=
  lowered <- lower db output ;;
  c <- contains (py "no devices") lowered ;;
  if c then ret (VStr (py "No devices connected!"))
  else ret (VStr (py "Reboot initiated" ++ LF ++ LF
                  ++ py "Command run: " ++ DQ ++ py "adb reboot" ++ DQ)).

Definition format_back (output : value) : dyn value :=
  lowered <- lower db output ;;
  c <- contains (py "no devices") lowered ;;
  if c then ret (VStr (py "No devices connected!"))
  else ret (VStr (py "Back command executed" ++ LF ++ LF
                  ++ py "Command run: " ++ DQ ++ py "adb shell input keyevent 4" ++ DQ)).

Definition format_home (output : value) : dyn value :=
  lowered <- lower db output ;;
  c <- contains (py "no devices") lowered ;;
  if c then ret (VStr (py "No devices connected!"))
  else ret (VStr (py "Home command executed" ++ LF ++ LF
                  ++ py "Command run: " ++ DQ ++ py "adb shell input keyevent 3" ++ DQ)).

Definition format_applications (output : value) : dyn value :=
  lowered <- lower db output ;;
  c <- contains (py "no devices") lowered ;;
  if c then ret (VStr (py "No devices connected!"))
  else ret (VStr (py "Applications command executed" ++ LF ++ LF
                  ++ py "Command run: " ++ DQ ++ py "adb shell input keyevent 187" ++ DQ)).

Definition format_volume_up (output : value) : dyn value :=
  lowered <- lower db output ;;
  c <- contains (py "no devices") lowered ;;
  if c then ret (VStr (py "No devices connected!"))
  else ret (VStr (py "Volume Up command executed" ++ LF ++ LF
                  ++ py "Command run: " ++ DQ ++ py "adb shell input keyevent 24" ++ DQ)).

Definition format_power (output : value) : dyn value :=
  lowered <- lower db output ;;
  c <- contains (py "no devices") lowered ;;
  if c then ret (VStr (py "No devices connected!"))
  else ret (VStr (py "Power (Lock/Unlock) command executed" ++ LF ++ LF
                  ++ py "Command run: " ++ DQ ++ py "adb shell input keyevent 26" ++ DQ)).

Definition format_volume_down (output : value) : dyn value :=
  lowered <- lower db output ;;
  c <- contains (py "no devices") lowered ;;
  if c then ret (VStr (py "No devices connected!"))
  else ret (VStr (py "Volume Down command executed" ++ LF ++ LF
                  ++ py "Command run: " ++ DQ ++ py "adb shell input keyevent 25" ++ DQ)).

Definition format_settings (output : value) : dyn value :=
  lowered <- lower db output ;;
  c <- contains (py "no devices") lowered ;;
  if c then ret (VStr (py "No devices connected!"))
  else ret (VStr (py "Settings command executed" ++ LF ++ LF ++ py "Command run: " ++ DQ
                  ++ py "adb shell am start -n com.android.settings/.Settings" ++ DQ)).

Definition format_factory_test (output : value) : dyn value :=
  lowered <- lower db output ;;
  c <- contains (py "no devices") lowered ;;
  if c then ret (VStr (py "No devices connected!"))
  else ret (VStr (py "Factory Test command executed" ++ LF ++ LF ++ py "Command run: " ++ DQ
                  ++ py "adb shell am start -n com.ubx.factorykit/.Framework.Framework" ++ DQ)).

Definition format_push (output : value) : dyn value :=
  lowered <- lower db output ;;
  c <- contains (py "no devices") lowered ;;
  if c then ret (VStr (py "No devices connected!"))
  else
    lowered <- lower db output ;;
    c <- contains (py "failed") lowered ;;
    if c
    then
      t <- concat (py "Push failed. Check the local and device paths." ++ LF ++ LF) output ;;
      ret (VStr t)
    else ret (VStr (py "File pushed successfully:" ++ LF ++ format output ++ LF ++ LF
                    ++ py "Command run: " ++ DQ
                    ++ py "adb push <LOCAL_PATH> <DEVICE_PATH>" ++ DQ)).

Definition format_storage (output : value) : dyn value :=
  lowered <- lower db output ;;
  c <- contains (py "no devices") lowered ;;
  if c then ret (VStr (py "No devices connected!"))
  else ret (VStr (py "Device Storage:" ++ LF ++ format output ++ LF ++ LF
                  ++ py "Command run: " ++ DQ ++ py "adb shell ls -l <DEVICE_PATH>" ++ DQ)).

Definition format_pull (output : value) : dyn value :=
  lowered <- lower db output ;;
  c <- contains (py "no devices") lowered ;;
  if c then ret (VStr (py "No devices connected!"))
  else
    lowered <- lower db output ;;
    c <- contains (py "failed") lowered ;;
    if c
    then
      t <- concat (py "Pull failed. Check the device and local paths." ++ LF ++ LF) output ;;
      ret (VStr t)
    else ret (VStr (py "File pulled successfully:" ++ LF ++ format output ++ LF ++ LF
                    ++ py "Command run: " ++ DQ
                    ++ py "adb pull <DEVICE_PATH> <LOCAL_PATH>" ++ DQ)).

Definition format_screenshot (output : value) : dyn value :=
  lowered <- lower db output ;;
  c <- contains (py "no devices") lowered ;;
  if c then ret (VStr (py "No devices connected!"))
  else
    lowered <- lower db output ;;
    c <- contains (py "failed") lowered ;;
    if c
    then
      t <- concat (py "Screenshot failed. Check the device state." ++ LF ++ LF) output ;;
      ret (VStr t)
    else ret (VStr (py "Screenshot saved on device under /sdcard/Pictures/Screenshot_*.png"
                    ++ LF ++ py "You may pull it to your Mac with adb pull." ++ LF ++ LF
                    ++ py "Command run: " ++ DQ
                    ++ py "adb shell screencap -p /sdcard/Pictures/<Screenshot_Timestamp>.png"
                    ++ DQ)).

Definition format_network (output : value) : dyn value :=
  lowered <- lower db output ;;
  c <- contains (py "no devices") lowered ;;
  if c then ret (VStr (py "No devices connected!"))
  else
    stripped <- strip output ;;
    if negb (truth stripped)
    then ret (VStr (py "Network check returned no output. Device might be offline or command unsupported."))
    else ret (VStr (py "Network configuration:" ++ LF ++ format output ++ LF ++ LF
                    ++ py "Command run: " ++ DQ ++ py "adb shell ifconfig" ++ DQ)).

(** The loop of [format_activity]: the text returned from inside it, or
    [None] when the loop ends without returning. *)
Fixpoint focus_line (lines : list value) : dyn (option value) :=
  match lines with
  | [] => ret None
  | ln :: rest =>
      c1 <- contains (py "mCurrentFocus") ln ;;
      c <- or_else c1 (contains (py "mFocusedApp") ln) ;;
      if c
      then
        stripped <- strip ln ;;
        ret (Some (VStr (py "Current focus:" ++ LF ++ format stripped ++ LF ++ LF
                         ++ py "Command run: " ++ DQ
                         ++ py "adb shell dumpsys window | grep mCurrentFocus" ++ DQ)))
      else focus_line rest
  end.

Definition format_activity (output : value) : dyn value :=
  lowered <- lower db output ;;
  c <- contains (py "no devices") lowered ;;
  if c then ret (VStr (py "No devices connected!"))
  else
    c1 <- contains (py "mCurrentFocus") output ;;
    c <- and_also (negb c1) (c2 <- contains (py "mFocusedApp") output ;; ret (negb c2)) ;;
    if c
    then
      t <- concat (py "No current activity found. Output:" ++ LF) output ;;
      ret (VStr t)
    else
      lines <- splitlines output ;;
      returned <- focus_line lines ;;
      match returned with
      | Some v => ret v
      | None =>
          t <- concat (py "Current activity (raw output):" ++ LF) output ;;
          ret (VStr t)
      end.

Definition format_scrcpy (output : value) : dyn value :=
  lowered <- lower db output ;;
  c <- contains (py "ERROR") lowered ;;
  if c then ret (VStr (py "No devices connected!"))
  else ret (VStr (py "CASTING started in the BACKGROUND")).

Definition format_text (output : value) : dyn value :=
  lowered <- lower db output ;;
  c <- contains (py "no devices") lowered ;;
  if c then ret (VStr (py "No devices connected!"))
  else ret (VStr (py "Text entered." ++ LF ++ LF
                  ++ py "Command run: " ++ DQ ++ py "adb shell input text <TEXT>" ++ DQ)).

Definition format_command (output : value) : dyn value :=
  lowered <- lower db output ;;
  c <- contains (py "no devices") lowered ;;
  if c then ret (VStr (py "No devices connected!"))
  else ret output.

Definition format_start_activity (output : value) : dyn value :=
  lowered <- lower db output ;;
  c <- contains (py "no devices") lowered ;;
  if c then ret (VStr (py "No devices connected!"))
  else
    c1 <- contains (py "Error") output ;;
    c <- or_else c1 (lowered <- lower db output ;; contains (py "not found") lowered) ;;
    if c
    then
      t <- concat (py "Failed to start activity. Check the package/activity name."
                   ++ LF ++ LF) output ;;
      ret (VStr t)
    else ret (VStr (py "Activity started (or adb returned output):" ++ LF ++ format output
                    ++ LF ++ LF ++ py "Command run: " ++ DQ
                    ++ py "adb shell am start -n <PACKAGE_NAME>/<ACTIVITY_NAME>" ++ DQ)).

Definition format_output (f : ADBTool_multithread.formatter) : value -> dyn value :=
  match f with
  | ADBTool_multithread.devices => format_devices
  | ADBTool_multithread.install => format_install
  | ADBTool_multithread.search => format_search
  | ADBTool_multithread.uninstall => format_uninstall
  | ADBTool_multithread.sideload => format_sideload
  | ADBTool_multithread.shutdown => format_shutdown
  | ADBTool_multithread.recovery => format_recovery
  | ADBTool_multithread.reboot => format_reboot
  | ADBTool_multithread.back => format_back
  | ADBTool_multithread.home => format_home
  | ADBTool_multithread.applications => format_applications
  | ADBTool_multithread.volume_up => format_volume_up
  | ADBTool_multithread.power => format_power
  | ADBTool_multithread.volume_down => format_volume_down
  | ADBTool_multithread.settings => format_settings
  | ADBTool_multithread.factory_test => format_factory_test
  | ADBTool_multithread.push => format_push
  | ADBTool_multithread.storage => format_storage
  | ADBTool_multithread.pull => format_pull
  | ADBTool_multithread.screenshot => format_screenshot
  | ADBTool_multithread.network => format_network
  | ADBTool_multithread.activity => format_activity
  | ADBTool_multithread.scrcpy => format_scrcpy
  | ADBTool_multithread.text => format_text
  | ADBTool_multithread.command => format_command
  | ADBTool_multithread.start_activity => format_start_activity
  end.

End Formatters.

End Dynamic.

(* ================================================================== *)
(** * Auxiliary definitions *)
(* ================================================================== *)

(** A lower-case table that knows the Latin-1 capitals, the Kelvin sign and
    the dotted capital I, and leaves every other code point alone. *)
Definition latin1_db : unicode_db := {|
  to_lower_full := fun c =>
    if (192 <=? c) && (c <=? 222) && negb (c =? 215) then [c + 32]
    else if c =? 8490 then [107]
    else if c =? 304 then [105; 775]
    else [c];
  final_sigma := fun before after => negb (is_empty before) && is_empty after
|}.

(** What the tables of the Unicode character database guarantee and the
    program relies on: lower-casing never produces an ASCII capital, and
    white space has no case. *)
Definition lower_not_upper (db : unicode_db) : Prop :=
  forall c x, 128 <= c -> In x (to_lower_full db c) -> is_ascii_upper x = false.

Definition space_uncased (db : unicode_db) : Prop :=
  forall c, 128 <= c -> isspace c = true -> to_lower_full db c = [c].

(** The formatter of the threaded file with the same name. *)
Definition same_name (f : ADBTool.formatter) : ADBTool_multithread.formatter :=
  match f with
  | ADBTool.devices => ADBTool_multithread.devices
  | ADBTool.install => ADBTool_multithread.install
  | ADBTool.search => ADBTool_multithread.search
  | ADBTool.uninstall => ADBTool_multithread.uninstall
  | ADBTool.sideload => ADBTool_multithread.sideload
  | ADBTool.shutdown => ADBTool_multithread.shutdown
  | ADBTool.recovery => ADBTool_multithread.recovery
  | ADBTool.reboot => ADBTool_multithread.reboot
  | ADBTool.back => ADBTool_multithread.back
  | ADBTool.home => ADBTool_multithread.home
  | ADBTool.applications => ADBTool_multithread.applications
  | ADBTool.volume_up => ADBTool_multithread.volume_up
  | ADBTool.power => ADBTool_multithread.power
  | ADBTool.volume_down => ADBTool_multithread.volume_down
  | ADBTool.settings => ADBTool_multithread.settings
  | ADBTool.factory_test => ADBTool_multithread.factory_test
  | ADBTool.push => ADBTool_multithread.push
  | ADBTool.storage => ADBTool_multithread.storage
  | ADBTool.pull => ADBTool_multithread.pull
  | ADBTool.screenshot => ADBTool_multithread.screenshot
  | ADBTool.network => ADBTool_multithread.network
  | ADBTool.activity => ADBTool_multithread.activity
  | ADBTool.text => ADBTool_multithread.text
  | ADBTool.command => ADBTool_multithread.command
  | ADBTool.start_activity => ADBTool_multithread.start_activity
  end.

(** The formatters of the threaded file whose text is "No devices
    connected!" whenever the raw text holds the marker "no devices". *)
Definition reports_no_devices (f : ADBTool_multithread.formatter) : bool :=
  match f with
  | ADBTool_multithread.devices | ADBTool_multithread.install
  | ADBTool_multithread.uninstall | ADBTool_multithread.sideload
  | ADBTool_multithread.scrcpy => false
  | _ => true
  end.

(** The operator types [text] into the entry [e]. *)
Definition entry_eq_dec (a b : ADBTool_multithread.entry) : {a = b} + {a <> b}.
Proof. decide equality. Defined.

Definition type_into (e : ADBTool_multithread.entry) (text : str)
    (s : ADBTool_multithread.state) : ADBTool_multithread.state :=
  ADBTool_multithread.mkState
    (ADBTool_multithread.command_running s) (ADBTool_multithread.progress_counter s)
    (ADBTool_multithread.output_text s) (ADBTool_multithread.result_queue s)
    (ADBTool_multithread.disabled s)
    (fun e' => if entry_eq_dec e' e then text else ADBTool_multithread.entries s e')
    (ADBTool_multithread.threads s) (ADBTool_multithread.launched s).

(** A machine whose home directory is /Users/patrickxu and whose only
    files are the two named here. *)
Definition sample_env : ADBTool_multithread.os_env := {|
  ADBTool_multithread.expanduser := fun p =>
    match p with
    | 126 :: rest => py "/Users/patrickxu" ++ rest
    | _ => p
    end;
  ADBTool_multithread.isfile := fun p =>
    eqb p (py "/Users/patrickxu/Desktop/Demo.APK")
    || eqb p (py "/Users/patrickxu/Desktop/notes.txt");
  ADBTool_multithread.path_exists := fun p =>
    eqb p (py "/Users/patrickxu/Desktop/Demo.APK")
    || eqb p (py "/Users/patrickxu/Desktop/notes.txt")
    || eqb p (py "/Users/patrickxu/Desktop/")
|}.

Definition desktop : str := py "/Users/patrickxu/Desktop/".

(** A child that exits after [seconds] seconds and has written [out] and
    nothing on its error stream. *)
Definition exits_after (seconds : N) (out : str) : popen_result :=
  PopenStarts {| duration := Some seconds; stdout := Some out;
                 stderr := Some []; read_failure := None |}.

(** A child that never exits. *)
Definition hangs : popen_result :=
  PopenStarts {| duration := None; stdout := None; stderr := None; read_failure := None |}.

(** The invocations handed to new workers between the states [s] and [s']. *)
Definition submitted (s s' : ADBTool_multithread.state) : list str :=
  map ADBTool_multithread.w_command
      (skipn (List.length (ADBTool_multithread.threads s)) (ADBTool_multithread.threads s')).

(** The command lines executed between the states [s] and [s']. *)
Definition executed (s s' : ADBTool_multithread.state) : list str :=
  skipn (List.length (ADBTool_multithread.launched s)) (ADBTool_multithread.launched s').

(** The handler went from [s] to [s'] by showing an error in the output
    box and doing nothing else. *)
Definition precondition_error (s s' : ADBTool_multithread.state) : Prop :=
  (exists msg, ADBTool_multithread.output_text s' = py "Error: " ++ msg ++ LF)
  /\ ADBTool_multithread.command_running s' = ADBTool_multithread.command_running s
  /\ ADBTool_multithread.threads s' = ADBTool_multithread.threads s
  /\ ADBTool_multithread.launched s' = ADBTool_multithread.launched s
  /\ ADBTool_multithread.result_queue s' = ADBTool_multithread.result_queue s.

(** Sample windows: an APK with an upper-case extension in the install
    entry; the same window after an error was shown; and a window whose
    paths all break the checks of their handlers. *)
Definition upper_case_apk_window : ADBTool_multithread.state :=
  type_into ADBTool_multithread.install_apk_entry (py "~/Desktop/Demo.APK")
    (ADBTool_multithread.initial_state desktop).

Definition upper_case_apk_window_later : ADBTool_multithread.state :=
  ADBTool_multithread._show_error (py "Please enter some text") upper_case_apk_window.

Definition bad_paths_window : ADBTool_multithread.state :=
  type_into ADBTool_multithread.install_apk_entry (py "~/Desktop/notes.txt")
    (type_into ADBTool_multithread.push_device_entry (py "/data/local/tmp/")
       (type_into ADBTool_multithread.pull_device_entry (py "sdcard/x")
          (type_into ADBTool_multithread.device_storage_entry (py "/system/")
             (ADBTool_multithread.initial_state desktop)))).

(** The worker of a command that never ends, and the window it runs in. *)
Definition logcat_worker : ADBTool_multithread.worker :=
  ADBTool_multithread.mkWorker (py "adb logcat")
    (ADBTool_multithread.method (ADBTool_multithread.format_command latin1_db))
    (Some ADBTool_multithread.command_button).

(* ================================================================== *)
(** * ADBTool.py: the button handlers *)
(* ================================================================== *)

Module ADBTool_handlers.

(** The window of the blocking variant: the texts of its entries (the
    entry widgets carry the same names in both files) and the state the
    runner works on. *)
Record window : Type := mkWindow {
  entries : ADBTool_multithread.entry -> str;
  box : ADBTool.state
}.

Definition _show_error (msg : str) (w : window) : window :=
  mkWindow (entries w)
           (ADBTool.mkState ([] ++ py "Error: " ++ msg ++ LF) (ADBTool.launched (box w))).

(** A call [self.run_single_adb_command(cmd, self.format_...)]. *)
Definition call (cmd : str) (f : str -> str) (run : popen_result) (w : window)
  : option window :=
  match ADBTool.run_single_adb_command cmd (fun output => inr (f output)) run (box w) with
  | Some b => Some (mkWindow (entries w) b)
  | None => None
  end.

Section Handlers.

Variable db : unicode_db.
Variable env : ADBTool_multithread.os_env.

(** What [subprocess.run] does for the command line of the handler. *)
Variable run : popen_result.

Definition run_install_apk (w : window) : option window :=
  let apk_path := strip (entries w ADBTool_multithread.install_apk_entry) in
  if is_empty apk_path then Some (_show_error (py "Please enter a valid APK path") w)
  else
    let apk_path := ADBTool_multithread.expanduser env apk_path in
    if negb (ADBTool_multithread.isfile env apk_path)
       || negb (endswith (lower db apk_path) (py ".apk"))
    then Some (_show_error
                 (py "Please enter a valid APK path (file must exist and end with .apk)") w)
    else
      let cmd := py "adb install " ++ DQ ++ apk_path ++ DQ in
      call cmd (ADBTool.format_install db) run w.

Definition run_search_apk (w : window) : option window :=
  let apk_name := strip (entries w ADBTool_multithread.search_apk_entry) in
  if is_empty apk_name
  then Some (_show_error (py "Please enter a valid APK/package name fragment") w)
  else
    let cmd := py "adb shell pm list packages | grep -i " ++ DQ ++ apk_name ++ DQ in
    call cmd (ADBTool.format_search db) run w.

Definition run_uninstall_apk (w : window) : option window :=
  let apk_name := strip (entries w ADBTool_multithread.uninstall_apk_entry) in
  if is_empty apk_name || negb (str_in (py "com.") apk_name)
  then Some (_show_error (py "Please enter a valid package name (e.g. com.example.app)") w)
  else
    let cmd := py "adb uninstall " ++ DQ ++ apk_name ++ DQ in
    call cmd (ADBTool.format_uninstall db) run w.

Definition run_sideload_firmware (w : window) : option window :=
  let firmware_path :=
    ADBTool_multithread.expanduser env
      (strip (entries w ADBTool_multithread.sideload_apk_entry)) in
  if is_empty firmware_path || negb (ADBTool_multithread.isfile env firmware_path)
     || negb (endswith (lower db firmware_path) (py ".zip"))
  then Some (_show_error (py "Please enter a valid firmware path (.zip)") w)
  else
    let cmd := py "adb sideload " ++ DQ ++ firmware_path ++ DQ in
    call cmd (ADBTool.format_sideload db) run w.

Definition run_check_storage (w : window) : option window :=
  let path := strip (entries w ADBTool_multithread.device_storage_entry) in
  if is_empty path || negb (startswith path (py "/sdcard/"))
  then Some (_show_error
               (py "Please enter a valid device storage path (starting with /sdcard/)") w)
  else
    let cmd := py "adb shell ls -l " ++ DQ ++ path ++ DQ in
    call cmd (ADBTool.format_storage db) run w.

Definition run_adb_push (w : window) : option window :=
  let local_path :=
    ADBTool_multithread.expanduser env
      (strip (entries w ADBTool_multithread.push_local_entry)) in
  let device_path := strip (entries w ADBTool_multithread.push_device_entry) in
  if is_empty local_path || negb (ADBTool_multithread.path_exists env local_path)
  then Some (_show_error (py "Please enter a valid local file path") w)
  else if is_empty device_path || negb (startswith device_path (py "/sdcard/"))
  then Some (_show_error (py "Please enter a valid device path (starting with /sdcard/)") w)
  else
    let cmd := py "adb push " ++ DQ ++ local_path ++ DQ ++ py " " ++ DQ ++ device_path ++ DQ in
    call cmd (ADBTool.format_push db) run w.

Definition run_adb_pull (w : window) : option window :=
  let device_path := strip (entries w ADBTool_multithread.pull_device_entry) in
  let local_path :=
    ADBTool_multithread.expanduser env
      (strip (entries w ADBTool_multithread.pull_local_entry)) in
  if is_empty device_path || negb (startswith device_path (py "/sdcard/"))
  then Some (_show_error (py "Please enter a valid device path (starting with /sdcard/)") w)
  else if is_empty local_path
  then Some (_show_error (py "Please enter a valid local path") w)
  else
    let cmd := py "adb pull " ++ DQ ++ device_path ++ DQ ++ py " " ++ DQ ++ local_path ++ DQ in
    call cmd (ADBTool.format_pull db) run w.

Definition run_text_input (w : window) : option window :=
  let text := strip (entries w ADBTool_multithread.text_input_entry) in
  if is_empty text then Some (_show_error (py "Please enter some text") w)
  else
    let safe_text := replace text DQ (BSL ++ DQ) in
    let cmd := py "adb shell input text " ++ DQ ++ safe_text ++ DQ in
    call cmd (ADBTool.format_text db) run w.

Definition run_execute_command (w : window) : option window :=
  let command := strip (entries w ADBTool_multithread.text_input_entry) in
  if is_empty command then Some (_show_error (py "Please enter a valid command") w)
  else call command (ADBTool.format_command db) run w.

Definition run_start_activity (w : window) : option window :=
  let activity := strip (entries w ADBTool_multithread.start_activity_entry) in
  if is_empty activity
  then Some (_show_error
               (py "Please enter a valid Package/Activity (e.g. com.example/.MainActivity)") w)
  else
    let cmd := py "adb shell am start -n " ++ DQ ++ activity ++ DQ in
    call cmd (ADBTool.format_start_activity db) run w.

(** The "Screen Shot" button: its command line is built once, in
    [create_controls], from the time stamp [ts] taken there. *)
Definition screen_shot (ts : str) (w : window) : option window :=
  let screenshot_cmd :=
    py "adb shell screencap -p /sdcard/Pictures/Screenshot_" ++ ts ++ py ".png" in
  call screenshot_cmd (ADBTool.format_screenshot db) run w.

(** The operations of the blocking file that go through
    [run_single_adb_command] with a command line fixed or read from the
    entries. *)
Inductive operation : Type :=
| list_devices | install_apk | search_apk | uninstall_apk | sideload_firmware
| op_shutdown | op_recovery | op_reboot | op_back | op_home | op_applications
| op_volume_up | op_power | op_volume_down | op_settings | op_factory_test
| check_storage | adb_push | adb_pull | check_network | check_activity
| execute_command | text_input | op_start_activity.

(** The [command=] callback of the button of each operation. *)
Definition handler (op : operation) : window -> option window :=
  match op with
  | list_devices => call (py "adb devices") ADBTool.format_devices run
  | install_apk => run_install_apk
  | search_apk => run_search_apk
  | uninstall_apk => run_uninstall_apk
  | sideload_firmware => run_sideload_firmware
  | op_shutdown => call (py "adb reboot -p") (ADBTool.format_shutdown db) run
  | op_recovery => call (py "adb reboot recovery") (ADBTool.format_recovery db) run
  | op_reboot => call (py "adb reboot") (ADBTool.format_reboot db) run
  | op_back => call (py "adb shell input keyevent 4") (ADBTool.format_back db) run
  | op_home => call (py "adb shell input keyevent 3") (ADBTool.format_home db) run
  | op_applications =>
      call (py "adb shell input keyevent 187") (ADBTool.format_applications db) run
  | op_volume_up =>
      call (py "adb shell input keyevent 24") (ADBTool.format_volume_up db) run
  | op_power => call (py "adb shell input keyevent 26") (ADBTool.format_power db) run
  | op_volume_down =>
      call (py "adb shell input keyevent 25") (ADBTool.format_volume_down db) run
  | op_settings =>
      call (py "adb shell am start -n com.android.settings/.Settings")
        (ADBTool.format_settings db) run
  | op_factory_test =>
      call (py "adb shell am start -n com.ubx.factorykit/.Framework.Framework")
        (ADBTool.format_factory_test db) run
  | check_storage => run_check_storage
  | adb_push => run_adb_push
  | adb_pull => run_adb_pull
  | check_network => call (py "adb shell ifconfig") (ADBTool.format_network db) run
  | check_activity =>
      call (py "adb shell dumpsys window | grep mCurrentFocus") (ADBTool.format_activity db) run
  | execute_command => run_execute_command
  | text_input => run_text_input
  | op_start_activity => run_start_activity
  end.

End Handlers.

End ADBTool_handlers.

(* ================================================================== *)
(** * ADBTool_multithread.py: pasting into an entry *)
(* ================================================================== *)

(** The operation of the threaded file behind the same button. *)
Definition threaded_operation (op : ADBTool_handlers.operation)
  : ADBTool_multithread.operation :=
  match op with
  | ADBTool_handlers.list_devices => ADBTool_multithread.list_devices
  | ADBTool_handlers.install_apk => ADBTool_multithread.install_apk
  | ADBTool_handlers.search_apk => ADBTool_multithread.search_apk
  | ADBTool_handlers.uninstall_apk => ADBTool_multithread.uninstall_apk
  | ADBTool_handlers.sideload_firmware => ADBTool_multithread.sideload_firmware
  | ADBTool_handlers.op_shutdown => ADBTool_multithread.op_shutdown
  | ADBTool_handlers.op_recovery => ADBTool_multithread.op_recovery
  | ADBTool_handlers.op_reboot => ADBTool_multithread.op_reboot
  | ADBTool_handlers.op_back => ADBTool_multithread.op_back
  | ADBTool_handlers.op_home => ADBTool_multithread.op_home
  | ADBTool_handlers.op_applications => ADBTool_multithread.op_applications
  | ADBTool_handlers.op_volume_up => ADBTool_multithread.op_volume_up
  | ADBTool_handlers.op_power => ADBTool_multithread.op_power
  | ADBTool_handlers.op_volume_down => ADBTool_multithread.op_volume_down
  | ADBTool_handlers.op_settings => ADBTool_multithread.op_settings
  | ADBTool_handlers.op_factory_test => ADBTool_multithread.op_factory_test
  | ADBTool_handlers.check_storage => ADBTool_multithread.check_storage
  | ADBTool_handlers.adb_push => ADBTool_multithread.adb_push
  | ADBTool_handlers.adb_pull => ADBTool_multithread.adb_pull
  | ADBTool_handlers.check_network => ADBTool_multithread.check_network
  | ADBTool_handlers.check_activity => ADBTool_multithread.check_activity
  | ADBTool_handlers.execute_command => ADBTool_multithread.execute_command
  | ADBTool_handlers.text_input => ADBTool_multithread.text_input
  | ADBTool_handlers.op_start_activity => ADBTool_multithread.op_start_activity
  end.

(** [handle_paste] for a paste into the entry [e]: [clipboard] is what
    [clipboard_get()] returns, [None] when it raises [TclError]. *)
Definition handle_paste (clipboard : option str) (e : ADBTool_multithread.entry)
    (s : ADBTool_multithread.state) : ADBTool_multithread.state :=
  match clipboard with
  | Some text => type_into e (strip text) s
  | None => s
  end.

(* ================================================================== *)
(** * ADBTool_multithread.py: the device information query *)
(* ================================================================== *)

Module DeviceInfo.

(** The properties [run_adb_command_device_info] queries, with their
    labels. *)
Definition props : list (str * str) :=
  [ (py "persist.sys.product.model", py "Model Number");
    (py "pwv.project", py "Project");
    (py "persist.sys.sw.version", py "OS Version");
    (py "ro.ufs.build.version", py "UFS version");
    (py "ro.serialno", py "Serial Number");
    (py "ro.build.version.release", py "Android version");
    (py "ro.build.version.sdk", py "SDK(API) version") ].

(** The window together with what this query adds to it: its own worker
    threads, each with the button it was given, and the argument vectors
    handed to [subprocess.Popen], oldest first. *)
Record info_state : Type := mkInfo {
  window : ADBTool_multithread.state;
  info_threads : list (option ADBTool_multithread.button);
  probes : list (list str)
}.

(** The exceptions of the worker: [subprocess.CalledProcessError], which
    it raises itself, and those of the calls it makes. *)
Inductive info_exn : Type :=
| CalledProcessError (returncode : Z) (cmd : str)
| Raised (e : exn).

(** What the operating system does for one [getprop] call: [Popen] raises,
    or the child starts and ends with a return code. *)
Inductive probe : Type :=
| ProbeRaises (e : exn)
| ProbeStarts (p : process) (returncode : Z).

(** The part of [run_adb_command_device_info] that runs on the calling
    thread. *)
Definition run_adb_command_device_info (button : option ADBTool_multithread.button)
    (st : info_state) : info_state :=
  let w := ADBTool_multithread.output_delete (window st) in
  let w := ADBTool_multithread.output_insert (py "Fetching device info... Please wait." ++ LF) w in
  if ADBTool_multithread.command_running w
  then mkInfo (ADBTool_multithread._show_error (py "Another command is running. Please wait.") w)
              (info_threads st) (probes st)
  else
    let w := ADBTool_multithread.set_command_running true w in
    let w := ADBTool_multithread.set_progress_counter 0 w in
    let w := match button with
             | Some b => ADBTool_multithread.config_disabled b w
             | None => w
             end in
    mkInfo w (info_threads st ++ [button]) (probes st).

(** Code of the worker. *)
Definition MI (A : Type) : Type := info_state -> (info_exn + A) * info_state.

Definition ret {A : Type} (a : A) : MI A := fun st => (inr a, st).

Definition raise {A : Type} (e : info_exn) : MI A := fun st => (inl e, st).

Definition bind {A B : Type} (m : MI A) (k : A -> MI B) : MI B :=
  fun st =>
    match m st with
    | (inr a, st') => k a st'
    | (inl e, st') => (inl e, st')
    end.

Notation "x <- m ;; k" := (bind m (fun x => k))
  (at level 61, m at next level, right associativity).
Notation "m ;; k" := (bind m (fun _ => k))
  (at level 61, right associativity).

(** A call of the subprocess interface. *)
Definition lift {A : Type} (r : result A) : MI A :=
  fun st =>
    match r with
    | inr a => (inr a, st)
    | inl e => (inl (Raised e), st)
    end.

Definition try_except {A : Type} (body : MI A) (handler : info_exn -> MI A) : MI A :=
  fun st =>
    match body st with
    | (inr a, st') => (inr a, st')
    | (inl e, st') => handler e st'
    end.

Definition try_finally {A : Type} (body : MI A) (final : option A -> MI unit) : MI unit :=
  fun st =>
    match body st with
    | (inr a, st') => final (Some a) st'
    | (inl e, st') =>
        match final None st' with
        | (inr _, st'') => (inl e, st'')
        | (inl e', st'') => (inl e', st'')
        end
    end.

Definition read_local {A : Type} (name : str) (v : option A) : MI A :=
  match v with
  | Some a => ret a
  | None =>
      raise (Raised (UnboundLocalError
                       (py "cannot access local variable '" ++ name
                        ++ py "' where it is not associated with a value")))
  end.

(** [l[i]] *)
Definition index {A : Type} (l : list A) (i : nat) : MI A :=
  match nth_error l i with
  | Some a => ret a
  | None => raise (Raised (OtherException (py "list index out of range")))
  end.

(** [subprocess.Popen(argv, ...)] *)
Definition Popen (os : probe) (argv : list str) : MI (process * Z) :=
  fun st =>
    let st := mkInfo (window st) (info_threads st) (probes st ++ [argv]) in
    match os with
    | ProbeRaises e => (inl (Raised e), st)
    | ProbeStarts p returncode => (inr (p, returncode), st)
    end.

(** [stdout.strip()], where [stdout] may be [None]. *)
Definition strip_of (stdout : option str) : MI str :=
  match stdout with
  | Some text => ret (strip text)
  | None =>
      raise (Raised (OtherException (py "'NoneType' object has no attribute 'strip'")))
  end.

(** The loop over the properties still to query; [os i] is what happens
    to the [i]-th call of [Popen]. *)
Fixpoint query (os : nat -> probe) (i : nat) (todo : list (str * str)) (results : list str)
  : MI (list str) :=
  match todo with
  | [] => ret results
  | (prop, _label) :: rest =>
      let argv := [ADBTool_multithread.adb_path; py "shell"; py "getprop"; prop] in
      child <- Popen (os i) argv ;;
      streams <- lift (communicate (join (py " ") argv) (fst child) 30) ;;
      if negb (Z.eqb (snd child) 0)
      then raise (CalledProcessError (snd child) prop)
      else
        value <- strip_of (fst streams) ;;
        query os (S i) rest (results ++ [if is_empty value then py "N/A" else value])
  end.

Definition queue_put (item : str * option ADBTool_multithread.button) : MI unit :=
  fun st =>
    (inr tt,
     mkInfo (ADBTool_multithread.set_result_queue
               (ADBTool_multithread.result_queue (window st) ++ [item]) (window st))
            (info_threads st) (probes st)).

Definition assign_command_running (v : bool) : MI unit :=
  fun st =>
    (inr tt,
     mkInfo (ADBTool_multithread.set_command_running v (window st))
            (info_threads st) (probes st)).

(** [thread_target], the body of the worker started by
    [run_adb_command_device_info]. *)
Definition thread_target (button : option ADBTool_multithread.button) (os : nat -> probe)
  : MI unit :=
  try_finally
    (try_except
       (results <- query os 0 props [] ;;
        r0 <- index results 0 ;;
        r1 <- index results 1 ;;
        p2 <- index props 2 ;; r2 <- index results 2 ;;
        p3 <- index props 3 ;; r3 <- index results 3 ;;
        p4 <- index props 4 ;; r4 <- index results 4 ;;
        p5 <- index props 5 ;; r5 <- index results 5 ;;
        p6 <- index props 6 ;; r6 <- index results 6 ;;
        let output_lines :=
          [ py "Device Information:";
            py "Model Number: " ++ r0 ++ py "-" ++ r1;
            snd p2 ++ py ": " ++ r2;
            snd p3 ++ py ": " ++ r3;
            snd p4 ++ py ": " ++ r4;
            snd p5 ++ py ": " ++ r5;
            snd p6 ++ py ": " ++ r6 ] in
        ret (join LF output_lines ++ LF ++ LF ++ py "Command run: " ++ DQ
             ++ py "adb shell getprop <property>" ++ DQ))
       (fun e =>
          match e with
          | Raised (TimeoutExpired _ _) => ret (py "Error: Device info query timed out.")
          | CalledProcessError _ _ => ret (py "No devices connected!" ++ LF)
          | Raised e' => ret (py "Error running adb: " ++ str_of_exn e')
          end))
    (fun formatted_output =>
       formatted_output <- read_local (py "formatted_output") formatted_output ;;
       queue_put (formatted_output, button) ;;
       assign_command_running false).

(** What one probe contributes when it goes well: the child exits within
    30 seconds with return code 0, and its trimmed output, or "N/A" when
    that is empty, is the value. *)
Definition value_of (pr : probe) : option str :=
  match pr with
  | ProbeRaises _ => None
  | ProbeStarts p returncode =>
      match communicate [] p 30 with
      | inl _ => None
      | inr (out, _) =>
          if Z.eqb returncode 0 then
            match out with
            | Some text => Some (if is_empty (strip text) then py "N/A" else strip text)
            | None => None
            end
          else None
      end
  end.

(** The text the worker reports for a probe that does not go well. *)
Definition failure_text (pr : probe) : str :=
  match pr with
  | ProbeRaises (TimeoutExpired _ _) => py "Error: Device info query timed out."
  | ProbeRaises e => py "Error running adb: " ++ str_of_exn e
  | ProbeStarts p returncode =>
      match communicate [] p 30 with
      | inl (TimeoutExpired _ _) => py "Error: Device info query timed out."
      | inl e => py "Error running adb: " ++ str_of_exn e
      | inr _ =>
          if Z.eqb returncode 0
          then py "Error running adb: 'NoneType' object has no attribute 'strip'"
          else py "No devices connected!" ++ LF
      end
  end.

(** The argument vector of the query of one property. *)
Definition getprop_argv (prop : str * str) : list str :=
  [ADBTool_multithread.adb_path; py "shell"; py "getprop"; fst prop].

End DeviceInfo.

(** A submission followed by the run of its worker and by one turn of
    [_check_queue]. *)
Definition round_trip (command : str) (f : str -> result str)
    (button : option ADBTool_multithread.button) (os : popen_result)
    (s : ADBTool_multithread.state) : ADBTool_multithread.state :=
  ADBTool_multithread._check_queue
    (ADBTool_multithread.worker_runs 0 os
       (ADBTool_multithread.run_single_adb_command command f button s)).

(** The text the threaded runner ends up with for a command other than
    "scrcpy". *)
Definition worker_text (command : str) (f : str -> result str) (os : popen_result) : str :=
  match os with
  | PopenRaises e => py "Error: " ++ str_of_exn e
  | PopenStarts p =>
      match communicate (replace command (py "adb") ADBTool_multithread.adb_path) p 300 with
      | inl e => py "Error: " ++ str_of_exn e
      | inr streams =>
          match f (or_empty (fst streams) ++ or_empty (snd streams)) with
          | inr formatted_output => formatted_output
          | inl e => py "Error: " ++ str_of_exn e
          end
      end
  end.

(** A window with two results waiting in the queue. *)
Definition two_results_window : ADBTool_multithread.state :=
  ADBTool_multithread.mkState false 3 (py "Still running... (3s)" ++ LF)
    [(py "first", Some ADBTool_multithread.reboot_button);
     (py "second", Some ADBTool_multithread.network_button)]
    [ADBTool_multithread.network_button; ADBTool_multithread.reboot_button]
    (ADBTool_multithread.initial_entries desktop) [] [].

(** [n] turns of the progress timer. *)
Fixpoint progress_ticks (n : nat) (s : ADBTool_multithread.state) : ADBTool_multithread.state :=
  match n with
  | O => s
  | S k => ADBTool_multithread._update_progress (progress_ticks k s)
  end.

(** The Running Flag is only set while a worker is alive. *)
Definition busy_has_worker (s : ADBTool_multithread.state) : Prop :=
  ADBTool_multithread.command_running s = true -> ADBTool_multithread.threads s <> [].

(** Every double quote of [s] comes right after a backslash; [escaped]
    says whether the code point before [s] was one. *)
Fixpoint quotes_escaped (escaped : bool) (s : str) : bool :=
  match s with
  | [] => true
  | c :: rest =>
      (if c =? 34 then escaped else true) && quotes_escaped (c =? 92) rest
  end.

(** A busy window: "List Devices" was clicked and its worker is running. *)
Definition busy_window : ADBTool_multithread.state :=
  ADBTool_multithread.run_single_adb_command (py "adb devices")
    (ADBTool_multithread.method ADBTool_multithread.format_devices)
    (Some ADBTool_multithread.list_devices_button)
    (ADBTool_multithread.initial_state desktop).

(** The button a handler hands to the runner. *)
Definition passed_button (op : ADBTool_multithread.operation) : ADBTool_multithread.button :=
  match op with
  | ADBTool_multithread.check_activity => ADBTool_multithread.activity_button
  | _ => ADBTool_multithread.widget_of op
  end.

(** The text the device-information worker builds from the seven values. *)
Definition device_info_text (v : nat -> str) : str :=
  join LF
    [ py "Device Information:";
      py "Model Number: " ++ v 0%nat ++ py "-" ++ v 1%nat;
      py "OS Version: " ++ v 2%nat;
      py "UFS version: " ++ v 3%nat;
      py "Serial Number: " ++ v 4%nat;
      py "Android version: " ++ v 5%nat;
      py "SDK(API) version: " ++ v 6%nat ]
  ++ LF ++ LF ++ py "Command run: " ++ DQ ++ py "adb shell getprop <property>" ++ DQ.

(** The text its [except] clauses give for an exception. *)
Definition device_info_except_text (e : DeviceInfo.info_exn) : str :=
  match e with
  | DeviceInfo.Raised (TimeoutExpired _ _) => py "Error: Device info query timed out."
  | DeviceInfo.CalledProcessError _ _ => py "No devices connected!" ++ LF
  | DeviceInfo.Raised e' => py "Error running adb: " ++ str_of_exn e'
  end.

(** The window after the device-information worker has reported [text],
    having launched the queries of the first [n] properties. *)
Definition device_info_done (button : option ADBTool_multithread.button) (text : str)
    (n : nat) (st : DeviceInfo.info_state) : DeviceInfo.info_state :=
  DeviceInfo.mkInfo
    (ADBTool_multithread.set_command_running false
       (ADBTool_multithread.set_result_queue
          (ADBTool_multithread.result_queue (DeviceInfo.window st) ++ [(text, button)])
          (DeviceInfo.window st)))
    (DeviceInfo.info_threads st)
    (DeviceInfo.probes st ++ map DeviceInfo.getprop_argv (firstn n DeviceInfo.props)).

(** A device that answers every query at once with [out]; and a query
    that finds no device. *)
Definition answers (out : str) : DeviceInfo.probe :=
  DeviceInfo.ProbeStarts
    {| duration := Some 1; stdout := Some out; stderr := Some []; read_failure := None |}
    0%Z.

Definition no_device : DeviceInfo.probe :=
  DeviceInfo.ProbeStarts
    {| duration := Some 1; stdout := Some [];
       stderr := Some (py "adb: no devices/emulators found"); read_failure := None |}
    1%Z.

(** A text starts with a code point that is not white space, or is empty. *)
Definition starts_solid (s : str) : Prop :=
  match s with
  | [] => True
  | c :: _ => isspace c = false
  end.






(* ================================================================== *)
(** * Properties *)
(* ================================================================== *)

(** ** Strings *)

Lemma latin1_db_lower_not_upper : lower_not_upper latin1_db.
Proof.
  intros c x Hc Hin. cbn in Hin.
  destruct ((192 <=? c) && (c <=? 222) && negb (c =? 215)) eqn:E1.
  - destruct Hin as [<- | []].
    unfold is_ascii_upper.
    apply andb_false_iff. right. apply N.leb_gt.
    apply andb_true_iff in E1. destruct E1 as [E1 _].
    apply andb_true_iff in E1. destruct E1 as [E1 _].
    apply N.leb_le in E1. lia.
  - destruct (c =? 8490) eqn:E2.
    + destruct Hin as [<- | []]. reflexivity.
    + destruct (c =? 304) eqn:E3.
      * destruct Hin as [<- | [<- | []]]; reflexivity.
      * destruct Hin as [<- | []].
        unfold is_ascii_upper. apply andb_false_iff. right. apply N.leb_gt. lia.
Qed.

Lemma latin1_db_space_uncased : space_uncased latin1_db.
Proof.
  intros c Hc Hsp. cbn.
  destruct ((192 <=? c) && (c <=? 222) && negb (c =? 215)) eqn:E1.
  - exfalso.
    apply andb_true_iff in E1. destruct E1 as [E1 _].
    apply andb_true_iff in E1. destruct E1 as [Ea Eb].
    apply N.leb_le in Ea, Eb.
    unfold isspace in Hsp.
    repeat (apply orb_true_iff in Hsp; destruct Hsp as [Hsp | Hsp]);
      repeat match goal with
             | H : (_ && _) = true |- _ => apply andb_true_iff in H; destruct H
             | H : (_ <=? _) = true |- _ => apply N.leb_le in H
             | H : (_ =? _) = true |- _ => apply N.eqb_eq in H
             end; lia.
  - destruct (c =? 8490) eqn:E2.
    + apply N.eqb_eq in E2. subst c. discriminate Hsp.
    + destruct (c =? 304) eqn:E3.
      * apply N.eqb_eq in E3. subst c. discriminate Hsp.
      * reflexivity.
Qed.

(** No code point of a lower-cased text is an ASCII capital. *)
Lemma lower_from_no_upper (db : unicode_db) (Hdb : lower_not_upper db) :
  forall s before x, In x (lower_from db before s) -> is_ascii_upper x = false.
Proof.
  induction s as [| c rest IH]; intros before x Hin; cbn in Hin.
  - contradiction.
  - apply in_app_or in Hin. destruct Hin as [Hin | Hin]; [| eauto].
    unfold lower_cp in Hin.
    destruct (c <? 128) eqn:Hascii.
    + destruct Hin as [<- | []].
      destruct (is_ascii_upper c) eqn:Hup; [| exact Hup].
      unfold is_ascii_upper in *.
      apply andb_true_iff in Hup. destruct Hup as [Ha Hb].
      apply N.leb_le in Ha, Hb.
      apply andb_false_iff. right. apply N.leb_gt. lia.
    + apply N.ltb_ge in Hascii.
      destruct (c =? 931).
      * destruct Hin as [<- | []]. destruct (final_sigma db before rest); reflexivity.
      * eapply Hdb; eauto.
Qed.

(** A text that contains [needle] contains its first code point. *)
Lemma startswith_head (s : str) (p : N) (prefix : str) :
  startswith s (p :: prefix) = true -> In p s.
Proof.
  destruct s as [| c s']; cbn; [discriminate |].
  intros H. apply andb_true_iff in H. destruct H as [H _].
  apply N.eqb_eq in H. left. exact H.
Qed.

Lemma str_in_head (p : N) (needle hay : str) :
  str_in (p :: needle) hay = true -> In p hay.
Proof.
  induction hay as [| c hay' IH]; intros H.
  - cbn in H. discriminate.
  - cbn [str_in] in H. apply orb_true_iff in H. destruct H as [H | H].
    + eapply startswith_head; eauto.
    + right. auto.
Qed.

(** ** C4 *)

Example format_devices_one_device :
  ADBTool_multithread.format_devices
    (py "List of devices attached" ++ LF ++ py "ABC123" ++ TAB ++ py "device")
  = py "ABC123 → Connected" ++ LF ++ LF ++ py "Command run: " ++ DQ ++ py "adb devices" ++ DQ.
Proof. vm_compute. reflexivity. Qed.

(** C4, as stated, fails on its second half: for the bare header line
    [format_devices] does not return the fixed message
    "No devices connected!" that the other formatters return. *)
Lemma C4_header_only_is_not_the_bare_message :
  ADBTool_multithread.format_devices (py "List of devices attached")
  <> py "No devices connected!".
Proof. vm_compute. discriminate. Qed.

(** C4, amended: for the header followed by the line of one device,
    [format_devices] returns a text that contains "ABC123 → Connected";
    for the header alone it returns the fixed message
    "No devices connected!" followed by an empty line and the line that
    names the command run. *)
Theorem C4_format_devices_scenarios :
  str_in (py "ABC123 → Connected")
         (ADBTool_multithread.format_devices
            (py "List of devices attached" ++ LF ++ py "ABC123" ++ TAB ++ py "device"))
  = true
  /\ ADBTool_multithread.format_devices (py "List of devices attached")
     = py "No devices connected!" ++ LF ++ LF
       ++ py "Command run: " ++ DQ ++ py "adb devices" ++ DQ.
Proof. split; vm_compute; reflexivity. Qed.

(** ** C9 *)

(** The marker "ERROR" never occurs in a lower-cased text. *)
Lemma ERROR_not_in_lower (db : unicode_db) (Hdb : lower_not_upper db) (output : str) :
  str_in (py "ERROR") (lower db output) = false.
Proof.
  destruct (str_in (py "ERROR") (lower db output)) eqn:E; [| reflexivity].
  change (py "ERROR") with (69 :: py "RROR") in E.
  apply str_in_head in E.
  apply (lower_from_no_upper db Hdb) in E.
  discriminate E.
Qed.

(** C9: [format_scrcpy] returns "CASTING started in the BACKGROUND" for
    every text: it looks for the capitals "ERROR" in the lower-cased text,
    where they cannot occur, so the branch that returns
    "No devices connected!" is never taken. *)
Theorem C9_format_scrcpy_constant (db : unicode_db) (Hdb : lower_not_upper db) (output : str) :
  str_in (py "ERROR") (lower db output) = false
  /\ ADBTool_multithread.format_scrcpy db output = py "CASTING started in the BACKGROUND".
Proof.
  pose proof (ERROR_not_in_lower db Hdb output) as E.
  split; [exact E |].
  unfold ADBTool_multithread.format_scrcpy. rewrite E. reflexivity.
Qed.

Lemma C9_format_scrcpy_constant_witness :
  lower_not_upper latin1_db
  /\ ADBTool_multithread.format_scrcpy latin1_db (py "ERROR: no devices/emulators found")
     = py "CASTING started in the BACKGROUND".
Proof.
  split.
  - exact latin1_db_lower_not_upper.
  - exact (proj2 (C9_format_scrcpy_constant latin1_db latin1_db_lower_not_upper
                    (py "ERROR: no devices/emulators found"))).
Defined.

(** ** C10 *)

(** C10: every formatter of the blocking file and the formatter of the
    same name in the threaded file return the same text on every input. *)
Theorem C10_formatters_agree (db : unicode_db) (f : ADBTool.formatter) (output : str) :
  ADBTool.format_output db f output
  = ADBTool_multithread.format_output db (same_name f) output.
Proof. destruct f; reflexivity. Qed.

(** ** C2 *)

Lemma lstrip_spaces (s : str) :
  (forall c, In c (lstrip s) -> isspace c = true) ->
  forall c, In c s -> isspace c = true.
Proof.
  induction s as [| a s' IH]; intros H c Hin; [contradiction |].
  cbn [lstrip] in H. destruct (isspace a) eqn:Ha.
  - destruct Hin as [<- | Hin]; [exact Ha | auto].
  - apply H. exact Hin.
Qed.

(** A text that [strip] empties holds white space only. *)
Lemma strip_empty_spaces (s : str) :
  is_empty (strip s) = true -> forall c, In c s -> isspace c = true.
Proof.
  unfold strip. intros H.
  assert (Hnil : lstrip (rev (lstrip s)) = []).
  { destruct (lstrip (rev (lstrip s))) as [| x l] eqn:E; [reflexivity |].
    cbn [rev] in H. destruct (rev l); discriminate H. }
  apply lstrip_spaces. intros c Hc.
  apply in_rev in Hc. revert c Hc.
  apply lstrip_spaces. rewrite Hnil. intros c [].
Qed.

Lemma isspace_not_ascii_upper (c : N) : isspace c = true -> is_ascii_upper c = false.
Proof.
  intros H. unfold is_ascii_upper.
  destruct (65 <=? c) eqn:Ha; [| reflexivity].
  destruct (c <=? 90) eqn:Hb; [| reflexivity].
  apply N.leb_le in Ha, Hb. exfalso.
  unfold isspace in H.
  repeat (apply orb_true_iff in H; destruct H as [H | H]);
    repeat match goal with
           | H : (_ && _) = true |- _ => apply andb_true_iff in H; destruct H
           | H : (_ <=? _) = true |- _ => apply N.leb_le in H
           | H : (_ =? _) = true |- _ => apply N.eqb_eq in H
           end; lia.
Qed.

(** Lower-casing leaves white space as it is. *)
Lemma lower_from_spaces (db : unicode_db) (Hdb : space_uncased db) :
  forall s before, (forall c, In c s -> isspace c = true) -> lower_from db before s = s.
Proof.
  induction s as [| c rest IH]; intros before H; [reflexivity |].
  cbn [lower_from].
  rewrite IH by (intros x Hx; apply H; right; exact Hx).
  assert (Hc : isspace c = true) by (apply H; left; reflexivity).
  unfold lower_cp.
  destruct (c <? 128) eqn:Hascii.
  - rewrite (isspace_not_ascii_upper c Hc). reflexivity.
  - apply N.ltb_ge in Hascii.
    destruct (c =? 931) eqn:Hsigma.
    + apply N.eqb_eq in Hsigma. subst c. discriminate Hc.
    + rewrite (Hdb c Hascii Hc). reflexivity.
Qed.

(** A blank text does not hold the marker. *)
Lemma blank_has_no_marker (db : unicode_db) (Hdb : space_uncased db) (output : str) :
  is_empty (strip output) = true ->
  str_in (py "no devices") (lower db output) = false.
Proof.
  intros Hblank.
  pose proof (strip_empty_spaces output Hblank) as Hsp.
  unfold lower. rewrite (lower_from_spaces db Hdb output [] Hsp).
  destruct (str_in (py "no devices") output) eqn:E; [| reflexivity].
  change (py "no devices") with (110 :: py "o devices") in E.
  apply str_in_head in E. apply Hsp in E. discriminate E.
Qed.

(** C2, as stated, fails: [format_install] looks for the success marker
    before the marker "no devices". *)
Lemma C2_install_tests_success_first :
  str_in (py "no devices")
         (lower latin1_db (py "Success" ++ LF ++ py "adb: no devices/emulators found")) = true
  /\ ADBTool_multithread.format_output latin1_db ADBTool_multithread.install
       (py "Success" ++ LF ++ py "adb: no devices/emulators found")
     <> py "No devices connected!".
Proof. split; vm_compute; [reflexivity | discriminate]. Qed.

(** [format_sideload] never looks for the marker "no devices". *)
Example format_sideload_ignores_marker :
  ADBTool_multithread.format_sideload latin1_db (py "adb: no devices/emulators found")
  = py "Sideloading Finished. (Check output below.)" ++ LF ++ LF
    ++ py "adb: no devices/emulators found" ++ LF ++ LF
    ++ py "Command run: " ++ DQ ++ py "adb sideload <FIRMWARE_PATH>.zip" ++ DQ.
Proof. vm_compute. reflexivity. Qed.

(** C2, amended: for every formatter other than [format_devices],
    [format_install], [format_uninstall], [format_sideload] and
    [format_scrcpy], and every raw text whose lower-cased form contains
    "no devices", the formatter returns the fixed message
    "No devices connected!", whatever else the text contains;
    [format_install] and [format_uninstall] test the success marker first
    and return the fixed message when the text holds neither "Success" nor,
    in lower case, "success". *)
Theorem C2_no_devices_marker (db : unicode_db) (Hdb : space_uncased db)
    (f : ADBTool_multithread.formatter) (output : str)
    (Hmarker : str_in (py "no devices") (lower db output) = true) :
  (reports_no_devices f = true ->
   ADBTool_multithread.format_output db f output = py "No devices connected!")
  /\ (f = ADBTool_multithread.install \/ f = ADBTool_multithread.uninstall ->
      str_in (py "Success") output = false ->
      str_in (py "success") (lower db output) = false ->
      ADBTool_multithread.format_output db f output = py "No devices connected!").
Proof.
  split.
  - intros Hf.
    destruct f; try discriminate Hf; cbn [ADBTool_multithread.format_output];
      try (match goal with
           | |- ?h db output = _ => unfold h
           end; rewrite Hmarker; reflexivity).
    unfold ADBTool_multithread.format_search.
    destruct (is_empty (strip output)) eqn:Hblank.
    + rewrite (blank_has_no_marker db Hdb output Hblank) in Hmarker. discriminate Hmarker.
    + rewrite Hmarker. reflexivity.
  - intros [-> | ->] H1 H2; cbn [ADBTool_multithread.format_output];
      [unfold ADBTool_multithread.format_install | unfold ADBTool_multithread.format_uninstall];
      rewrite H1, H2, Hmarker; reflexivity.
Qed.

Lemma C2_no_devices_marker_witness :
  space_uncased latin1_db
  /\ str_in (py "no devices") (lower latin1_db (py "adb: No Devices/emulators found")) = true
  /\ ADBTool_multithread.format_output latin1_db ADBTool_multithread.pull
       (py "adb: No Devices/emulators found") = py "No devices connected!"
  /\ ADBTool_multithread.format_output latin1_db ADBTool_multithread.install
       (py "adb: No Devices/emulators found") = py "No devices connected!".
Proof.
  split; [exact latin1_db_space_uncased |].
  split; [vm_compute; reflexivity |].
  split.
  - apply (proj1 (C2_no_devices_marker latin1_db latin1_db_space_uncased
                    ADBTool_multithread.pull (py "adb: No Devices/emulators found")
                    ltac:(vm_compute; reflexivity))).
    reflexivity.
  - apply (proj2 (C2_no_devices_marker latin1_db latin1_db_space_uncased
                    ADBTool_multithread.install (py "adb: No Devices/emulators found")
                    ltac:(vm_compute; reflexivity))).
    + left. reflexivity.
    + vm_compute. reflexivity.
    + vm_compute. reflexivity.
Defined.

(** ** C8 *)

Lemma startswith_app (old rest : str) : startswith (old ++ rest) old = true.
Proof.
  induction old as [| o old' IH]; [destruct rest; reflexivity |].
  cbn. rewrite N.eqb_refl. exact IH.
Qed.

Lemma startswith_short (old x y : str) :
  (List.length old <= List.length x)%nat ->
  startswith (x ++ y) old = startswith x old.
Proof.
  revert x. induction old as [| o old' IH]; intros x Hlen;
    [destruct x, y; reflexivity |].
  destruct x as [| c x']; cbn in Hlen; [lia |].
  cbn. rewrite IH by lia. reflexivity.
Qed.

Lemma replace_from_skip (old new l rest : str) :
  replace_from old new (List.length l) (l ++ rest) = replace_from old new 0 rest.
Proof.
  induction l as [| c l' IH]; [reflexivity |].
  cbn. exact IH.
Qed.

(** [replace] rewrites the first occurrence of [old], wherever it lies,
    and goes on with the text after it. *)
Lemma replace_first_occurrence (old new a b : str) :
  old <> [] ->
  str_in old (a ++ removelast old) = false ->
  replace (a ++ old ++ b) old new = a ++ new ++ replace b old new.
Proof.
  intros Hold. unfold replace.
  destruct old as [| o old']; [contradiction |].
  set (old := o :: old') in *.
  induction a as [| c a' IH]; intros Hfree.
  - cbn [app]. unfold old at 2. cbn [app replace_from].
    change (o :: old' ++ b) with (old ++ b). rewrite startswith_app.
    f_equal. cbn [List.length]. rewrite Nat.sub_1_r. cbn [Nat.pred].
    apply replace_from_skip.
  - cbn [app str_in] in Hfree. apply orb_false_iff in Hfree. destruct Hfree as [Hhere Hlater].
    cbn [app replace_from].
    assert (Hsplit : old = removelast old ++ [last old 0])
      by (apply app_removelast_last; discriminate).
    assert (Hno : startswith (c :: a' ++ old ++ b) old = false).
    { rewrite Hsplit at 1.
      change (c :: a' ++ (removelast old ++ [last old 0]) ++ b)
        with ((c :: a') ++ (removelast old ++ [last old 0]) ++ b).
      rewrite <- app_assoc, app_assoc.
      rewrite startswith_short; [exact Hhere |].
      rewrite Hsplit at 1. rewrite !length_app. cbn. lia. }
    rewrite Hno. f_equal. apply IH. exact Hlater.
Qed.

Import ADBTool_multithread.

(** The command line the worker hands to [Popen], whatever happens next. *)
Lemma thread_target_launched (w : worker) (os : popen_result) (s : state) :
  launched (snd (thread_target w os s))
  = launched s ++ [if eqb (w_command w) (py "scrcpy") then scrcpy_path
                   else replace (w_command w) (py "adb") adb_path].
Proof.
  unfold thread_target, try_finally, try_except, bind, Popen, lift, read_local,
    queue_put, assign_command_running, ret.
  destruct (eqb (w_command w) (py "scrcpy")); destruct os as [e | p]; cbn.
  - reflexivity.
  - destruct (w_format_output_func w []); reflexivity.
  - reflexivity.
  - destruct (communicate _ p 300) as [e | streams]; cbn; [reflexivity |].
    destruct (w_format_output_func w _); reflexivity.
Qed.

(** The window after a click on "Uninstall APK" with the package
    "com.adbdemo.app" in the entry. *)
Lemma click_uninstall (db : unicode_db) (env : os_env) :
  step db env (Click uninstall_apk)
     (type_into uninstall_apk_entry (py "com.adbdemo.app") (initial_state desktop))
  = thread_start
      (mkWorker (py "adb uninstall " ++ DQ ++ py "com.adbdemo.app" ++ DQ)
                (method (format_uninstall db)) (Some uninstall_button))
      (mkState true 0 (py "Running command... Please wait." ++ LF) [] [uninstall_button]
         (entries (type_into uninstall_apk_entry (py "com.adbdemo.app")
                     (initial_state desktop)))
         [] []).
Proof. vm_compute. reflexivity. Qed.

(** C8: before execution the runner replaces every occurrence of "adb" in
    the invocation, wherever it lies, by the path of the tool: [replace]
    rewrites the first occurrence after any prefix and goes on with the
    rest; the threaded worker (for every command but "scrcpy") and the
    blocking runner hand the replaced text to the shell; so uninstalling
    the package "com.adbdemo.app" executes a command line that has the
    path of the tool inside the package name. *)
Theorem C8_adb_replaced_everywhere :
  (forall new a b : str,
      str_in (py "adb") (a ++ py "ad") = false ->
      replace (a ++ py "adb" ++ b) (py "adb") new = a ++ new ++ replace b (py "adb") new)
  /\ (forall (w : worker) (os : popen_result) (s : state),
         eqb (w_command w) (py "scrcpy") = false ->
         launched (snd (thread_target w os s))
         = launched s ++ [replace (w_command w) (py "adb") adb_path])
  /\ (forall command f run s s',
         ADBTool.run_single_adb_command command f run s = Some s' ->
         ADBTool.launched s'
         = ADBTool.launched s ++ [replace command (py "adb") ADBTool.adb_path])
  /\ (forall db env os,
         launched (run_events db env [Click uninstall_apk; WorkerRuns 0 os]
                     (type_into uninstall_apk_entry (py "com.adbdemo.app")
                        (initial_state desktop)))
         = [adb_path ++ py " uninstall " ++ DQ ++ py "com." ++ adb_path
            ++ py "demo.app" ++ DQ]).
Proof.
  split; [| split; [| split]].
  - intros new a b Hfree.
    apply replace_first_occurrence; [discriminate | exact Hfree].
  - intros w os s Hcmd. rewrite thread_target_launched, Hcmd. reflexivity.
  - intros command f run s s' H.
    unfold ADBTool.run_single_adb_command in H.
    destruct run as [e | p]; cbn in H.
    + injection H as <-. reflexivity.
    + destruct (wait_for p) as [[e | [out err]] |]; cbn in H.
      * injection H as <-. reflexivity.
      * destruct (f _); injection H as <-; reflexivity.
      * discriminate H.
  - intros db env os.
    change (run_events db env [Click uninstall_apk; WorkerRuns 0 os]
              (type_into uninstall_apk_entry (py "com.adbdemo.app") (initial_state desktop)))
      with (worker_runs 0 os
              (step db env (Click uninstall_apk)
                 (type_into uninstall_apk_entry (py "com.adbdemo.app")
                    (initial_state desktop)))).
    rewrite click_uninstall.
    unfold worker_runs, thread_start. cbn [threads set_threads app nth_error].
    rewrite thread_target_launched. cbn [launched set_threads w_command].
    vm_compute. reflexivity.
Qed.

Lemma C8_adb_replaced_everywhere_witness :
  str_in (py "adb") (py "uninstall com." ++ py "ad") = false
  /\ replace (py "uninstall com." ++ py "adb" ++ py "demo.app") (py "adb") adb_path
     = py "uninstall com." ++ adb_path ++ replace (py "demo.app") (py "adb") adb_path
  /\ launched (snd (thread_target (mkWorker (py "adb devices") (method format_devices) None)
                      (exits_after 1 (py "List of devices attached"))
                      (initial_state desktop)))
     = launched (initial_state desktop) ++ [replace (py "adb devices") (py "adb") adb_path]
  /\ match ADBTool.run_single_adb_command (py "adb devices") (fun o => inr o)
             (exits_after 1 (py "List of devices attached")) (ADBTool.mkState [] []) with
     | Some s' =>
         ADBTool.launched s' = [] ++ [replace (py "adb devices") (py "adb") ADBTool.adb_path]
     | None => False
     end.
Proof.
  assert (Hfree : str_in (py "adb") (py "uninstall com." ++ py "ad") = false)
    by (vm_compute; reflexivity).
  split; [exact Hfree |].
  split; [exact (proj1 C8_adb_replaced_everywhere adb_path _ _ Hfree) |].
  split.
  - apply (proj1 (proj2 C8_adb_replaced_everywhere)). vm_compute. reflexivity.
  - destruct (ADBTool.run_single_adb_command (py "adb devices") (fun o => inr o)
                (exits_after 1 (py "List of devices attached")) (ADBTool.mkState [] []))
      as [s' |] eqn:E.
    + exact (proj1 (proj2 (proj2 C8_adb_replaced_everywhere)) _ _ _ _ _ E).
    + vm_compute in E. discriminate E.
Defined.

(** ** C3 *)

(** C3: for every worker whose command is not "scrcpy", whatever the
    operating system does with the command, [thread_target] returns
    without raising, leaves the Running Flag cleared, has put exactly one
    text on the queue and has started nothing else.  The child is waited
    for with a time-out of 300: when it needs longer, or never exits, the
    text is "Error: Command '...' timed out after 300 seconds", whatever
    its output holds; when the launch raises [e], or the child ends in
    time and the reading of its streams or the formatter raises [e], the
    text is "Error: " followed by [str(e)]; otherwise it is what the
    formatter returns on the captured output. *)
Theorem C3_worker_failures_become_text (w : worker) (os : popen_result) (s : state)
    (Hcmd : eqb (w_command w) (py "scrcpy") = false) :
  let command := replace (w_command w) (py "adb") adb_path in
  let s' := snd (thread_target w os s) in
  exists text : str,
    fst (thread_target w os s) = inr tt
    /\ command_running s' = false
    /\ result_queue s' = result_queue s ++ [(text, w_button w)]
    /\ launched s' = launched s ++ [command]
    /\ threads s' = threads s
    /\ (forall e, os = PopenRaises e -> text = py "Error: " ++ str_of_exn e)
    /\ (forall p d e, os = PopenStarts p -> duration p = Some d -> d <= 300 ->
        read_failure p = Some e ->
        text = py "Error: " ++ str_of_exn e)
    /\ (forall p, os = PopenStarts p ->
        (forall d, duration p = Some d -> 300 < d) ->
        text = py "Error: Command '" ++ command ++ py "' timed out after 300 seconds")
    /\ (forall p d, os = PopenStarts p -> read_failure p = None ->
        duration p = Some d -> d <= 300 ->
        text = match w_format_output_func w (or_empty (stdout p) ++ or_empty (stderr p)) with
               | inr formatted_output => formatted_output
               | inl e => py "Error: " ++ str_of_exn e
               end).
Proof.
  intros command s'. subst s'.
  unfold thread_target, try_finally, try_except, bind, Popen, lift, read_local,
    queue_put, assign_command_running, ret.
  rewrite Hcmd. fold command.
  destruct os as [e0 | p].
  - exists (py "Error: " ++ str_of_exn e0). cbn.
    repeat split; try reflexivity; try (intros; discriminate).
    intros e H. injection H as ->. reflexivity.
  - unfold communicate.
    destruct (duration p) as [d0 |] eqn:Hdur.
    + destruct (d0 <=? 300) eqn:Hle.
      * apply N.leb_le in Hle.
        destruct (read_failure p) as [e0 |] eqn:Hread.
        -- exists (py "Error: " ++ str_of_exn e0). cbn.
           repeat split; try reflexivity; try (intros; discriminate).
           ++ intros p' d e H _ _ He. injection H as <-. rewrite Hread in He.
              injection He as ->. reflexivity.
           ++ intros p' H Hlong. injection H as <-. specialize (Hlong d0 Hdur). lia.
           ++ intros p' d H He. injection H as <-. rewrite Hread in He. discriminate He.
        -- destruct (w_format_output_func w (or_empty (stdout p) ++ or_empty (stderr p)))
             as [e1 | formatted] eqn:Hfmt.
           ++ exists (py "Error: " ++ str_of_exn e1). cbn. rewrite Hfmt. cbn.
              repeat split; try reflexivity; try (intros; discriminate).
              ** intros p' d e H _ _ He. injection H as <-. rewrite Hread in He.
                 discriminate He.
              ** intros p' H Hlong. injection H as <-. specialize (Hlong d0 Hdur). lia.
              ** intros p' d H _ _ _. injection H as <-. rewrite Hfmt. reflexivity.
           ++ exists formatted. cbn. rewrite Hfmt. cbn.
              repeat split; try reflexivity; try (intros; discriminate).
              ** intros p' d e H _ _ He. injection H as <-. rewrite Hread in He.
                 discriminate He.
              ** intros p' H Hlong. injection H as <-. specialize (Hlong d0 Hdur). lia.
              ** intros p' d H _ _ _. injection H as <-. rewrite Hfmt. reflexivity.
      * apply N.leb_gt in Hle.
        exists (py "Error: " ++ str_of_exn (TimeoutExpired command 300)). cbn.
        repeat split; try reflexivity; try (intros; discriminate).
        -- intros p' d e H Hd Hshort _. injection H as <-. rewrite Hdur in Hd.
           injection Hd as <-. lia.
        -- intros p' d H _ Hd Hshort. injection H as <-. rewrite Hdur in Hd.
           injection Hd as <-. lia.
    + exists (py "Error: " ++ str_of_exn (TimeoutExpired command 300)). cbn.
      repeat split; try reflexivity; try (intros; discriminate).
      * intros p' d e H Hd _ _. injection H as <-. rewrite Hdur in Hd. discriminate Hd.
      * intros p' d H _ Hd _. injection H as <-. rewrite Hdur in Hd. discriminate Hd.
Qed.

Lemma C3_worker_failures_become_text_witness :
  eqb (w_command logcat_worker) (py "scrcpy") = false
  /\ exists text : str,
       fst (thread_target logcat_worker hangs (initial_state desktop)) = inr tt
       /\ result_queue (snd (thread_target logcat_worker hangs (initial_state desktop)))
          = [(text, Some command_button)]
       /\ text = py "Error: Command '" ++ replace (py "adb logcat") (py "adb") adb_path
                 ++ py "' timed out after 300 seconds".
Proof.
  assert (Hcmd : eqb (w_command logcat_worker) (py "scrcpy") = false)
    by (vm_compute; reflexivity).
  split; [exact Hcmd |].
  destruct (C3_worker_failures_become_text logcat_worker hangs (initial_state desktop) Hcmd)
    as (text & Hret & _ & Hqueue & _ & _ & _ & _ & Htimeout & _).
  exists text. split; [exact Hret |]. split; [exact Hqueue |].
  apply (Htimeout _ eq_refl). intros d Hd. discriminate Hd.
Defined.

(** ** The worker *)

(** Whatever the callback and the operating system do, the worker returns
    normally and has put one text on the queue. *)
Lemma thread_target_returns (w : worker) (os : popen_result) (s : state) :
  exists text : str,
    fst (thread_target w os s) = inr tt
    /\ result_queue (snd (thread_target w os s)) = result_queue s ++ [(text, w_button w)]
    /\ command_running (snd (thread_target w os s)) = false.
Proof.
  unfold thread_target, try_finally, try_except, bind, Popen, lift, read_local,
    queue_put, assign_command_running, ret.
  destruct (eqb (w_command w) (py "scrcpy")); destruct os as [e | p]; cbn.
  - eexists; repeat split.
  - destruct (w_format_output_func w []); cbn; eexists; repeat split.
  - eexists; repeat split.
  - destruct (communicate _ p 300) as [e | streams]; cbn; [eexists; repeat split |].
    destruct (w_format_output_func w _); cbn; eexists; repeat split.
Qed.

(** ** C1 *)

(** While the Running Flag is set, a call of the runner shows the busy
    error and changes nothing else: the flag, the queue, the workers and
    the launched commands stay as they are. *)
Lemma busy_rejection (command : str) (f : str -> result str) (b : option button) (s : state) :
  command_running s = true ->
  let s' := run_single_adb_command command f b s in
  s' = _show_error (py "Another command is running. Please wait.") s
  /\ output_text s' = py "Error: Another command is running. Please wait." ++ LF
  /\ command_running s' = true
  /\ result_queue s' = result_queue s
  /\ threads s' = threads s
  /\ launched s' = launched s
  /\ disabled s' = disabled s.
Proof.
  intros Hbusy s'. subst s'. unfold run_single_adb_command. rewrite Hbusy.
  cbn. repeat split. exact Hbusy.
Qed.

(** C1 on the code: the gate itself holds ([busy_rejection]), but the
    flag it tests does not follow the workers.  "List Devices" is clicked
    and its worker ends; "Check Network" is clicked before the next turn
    of [_check_queue]; that turn shows the first result and clears the
    flag although the second worker is still running; a click on "Reboot"
    is then accepted, and two invocations are in flight. *)
Theorem C1_two_invocations_in_flight (db : unicode_db) (env : os_env) :
  let s3 := run_events db env
              [Click list_devices;
               WorkerRuns 0 (exits_after 1 (py "List of devices attached"));
               Click check_network]
              (initial_state desktop) in
  let s4 := step db env CheckQueue s3 in
  let s5 := step db env (Click op_reboot) s4 in
  (command_running s3 = true
   /\ map w_command (threads s3) = [py "adb shell ifconfig"])
  /\ (command_running s4 = false
      /\ map w_command (threads s4) = [py "adb shell ifconfig"])
  /\ (command_running s5 = true
      /\ map w_command (threads s5) = [py "adb shell ifconfig"; py "adb reboot"]
      /\ List.length (threads s5) = 2%nat).
Proof. vm_compute. repeat split. Qed.

(** ** C6 *)

Lemma show_error_is_precondition_error (msg : str) (s : state) :
  precondition_error s (_show_error msg s).
Proof.
  unfold precondition_error. cbn. repeat split. exists msg. reflexivity.
Qed.

(** C6, as stated, fails: a file whose name ends in ".APK" does not end in
    ".apk", yet the install handler accepts it, builds the invocation,
    sets the Running Flag and starts a worker. *)
Lemma C6_upper_case_extension_accepted :
  (isfile sample_env
     (expanduser sample_env (strip (entries upper_case_apk_window install_apk_entry)))
   && endswith (expanduser sample_env (strip (entries upper_case_apk_window install_apk_entry)))
               (py ".apk")) = false
  /\ command_running upper_case_apk_window = false
  /\ command_running (run_install_apk latin1_db sample_env upper_case_apk_window) = true
  /\ map w_command (threads (run_install_apk latin1_db sample_env upper_case_apk_window))
     = [py "adb install " ++ DQ ++ py "/Users/patrickxu/Desktop/Demo.APK" ++ DQ].
Proof. vm_compute. repeat split. Qed.

(** C6, amended: when the install path (the entry trimmed and with the
    home directory expanded) does not name an existing file whose
    lower-cased name ends in ".apk", or when the trimmed device path of
    the storage, push or pull operation does not start with "/sdcard/",
    the handler shows an error in the output box, builds no invocation,
    starts neither a worker nor a process, and leaves the Running Flag
    and the queue as they are. *)
Theorem C6_precondition_errors (db : unicode_db) (env : os_env) (s : state) :
  ((isfile env (expanduser env (strip (entries s install_apk_entry)))
    && endswith (lower db (expanduser env (strip (entries s install_apk_entry)))) (py ".apk"))
   = false ->
   precondition_error s (run_install_apk db env s))
  /\ (startswith (strip (entries s device_storage_entry)) (py "/sdcard/") = false ->
      precondition_error s (run_check_storage db s))
  /\ (startswith (strip (entries s push_device_entry)) (py "/sdcard/") = false ->
      precondition_error s (run_adb_push db env s))
  /\ (startswith (strip (entries s pull_device_entry)) (py "/sdcard/") = false ->
      precondition_error s (run_adb_pull db env s)).
Proof.
  split; [| split; [| split]].
  - intros H. unfold run_install_apk.
    destruct (is_empty (strip (entries s install_apk_entry)));
      [apply show_error_is_precondition_error |].
    apply andb_false_iff in H.
    destruct H as [H | H]; rewrite H; cbn [negb orb];
      rewrite ?orb_true_r; apply show_error_is_precondition_error.
  - intros H. unfold run_check_storage. rewrite H. cbn [negb].
    rewrite orb_true_r. apply show_error_is_precondition_error.
  - intros H. unfold run_adb_push. rewrite H. cbn [negb].
    rewrite orb_true_r.
    destruct (_ || _); apply show_error_is_precondition_error.
  - intros H. unfold run_adb_pull. rewrite H. cbn [negb].
    rewrite orb_true_r. apply show_error_is_precondition_error.
Qed.

Lemma C6_precondition_errors_witness :
  precondition_error bad_paths_window (run_install_apk latin1_db sample_env bad_paths_window)
  /\ precondition_error bad_paths_window (run_check_storage latin1_db bad_paths_window)
  /\ precondition_error bad_paths_window (run_adb_push latin1_db sample_env bad_paths_window)
  /\ precondition_error bad_paths_window (run_adb_pull latin1_db sample_env bad_paths_window).
Proof.
  pose proof (C6_precondition_errors latin1_db sample_env bad_paths_window)
    as (H1 & H2 & H3 & H4).
  split; [apply H1; vm_compute; reflexivity |].
  split; [apply H2; vm_compute; reflexivity |].
  split; [apply H3; vm_compute; reflexivity |].
  apply H4; vm_compute; reflexivity.
Defined.

(** ** The invocations of the handlers *)

Lemma skipn_length_app {A : Type} (l l' : list A) : skipn (List.length l) (l ++ l') = l'.
Proof. induction l as [| a l IH]; [reflexivity | exact IH]. Qed.

Lemma submitted_show_error (msg : str) (s : state) : submitted s (_show_error msg s) = [].
Proof. unfold submitted. cbn. rewrite skipn_all. reflexivity. Qed.

Lemma submitted_run (command : str) (f : str -> result str) (b : option button) (s : state) :
  submitted s (run_single_adb_command command f b s)
  = if command_running s then [] else [command].
Proof.
  unfold run_single_adb_command.
  destruct (command_running s); [apply submitted_show_error |].
  unfold submitted. destruct b; cbn; rewrite skipn_length_app; reflexivity.
Qed.


Lemma entries_run (command : str) (f : str -> result str) (b : option button) (s : state) :
  entries (run_single_adb_command command f b s) = entries s.
Proof.
  unfold run_single_adb_command. destruct (command_running s); [reflexivity |].
  destruct b; reflexivity.
Qed.


(** The invocation a handler submits is a function of the entries, of the
    file system and of the Running Flag. *)
Lemma handler_submits_same (db : unicode_db) (env : os_env) (op : operation) (s1 s2 : state) :
  (forall e, entries s1 e = entries s2 e) ->
  command_running s1 = command_running s2 ->
  submitted s1 (handler db env op s1) = submitted s2 (handler db env op s2).
Proof.
  intros Hentries Hflag.
  destruct op; cbn [handler];
    unfold run_install_apk, run_search_apk, run_uninstall_apk, run_sideload_firmware,
      run_check_storage, run_adb_push, run_adb_pull, run_text_input,
      run_execute_command, run_start_activity;
    rewrite ?Hentries;
    repeat match goal with
           | |- context [if ?c then _ else _] => destruct c
           end;
    rewrite ?submitted_show_error, ?submitted_run, ?Hflag; reflexivity.
Qed.

(** The two command lines of [run_screenshot] are a function of the time
    stamp and of the home directory. *)
Lemma run_screenshot_executes (db : unicode_db) (env : os_env) (ts : str)
    (run1 run2 : popen_result) (s s' : state) :
  run_screenshot db env ts run1 run2 s = Some s' ->
  let device_path := py "/sdcard/Pictures/Screenshot_" ++ ts ++ py ".png" in
  let local_path := expanduser env (py "~/Desktop/Screenshot_" ++ ts ++ py ".png") in
  let screencap_cmd :=
    replace (py "adb shell screencap -p " ++ device_path) (py "adb") adb_path in
  let pull_cmd :=
    replace (py "adb pull " ++ device_path ++ py " " ++ DQ ++ local_path ++ DQ)
            (py "adb") adb_path in
  executed s s' = [screencap_cmd] \/ executed s s' = [screencap_cmd; pull_cmd].
Proof.
  intros H device_path local_path screencap_cmd pull_cmd.
  unfold run_screenshot in H.
  fold device_path local_path in H. fold screencap_cmd pull_cmd in H.
  unfold executed.
  destruct run1 as [e1 | p1].
  - injection H as <-. left. cbn. apply skipn_length_app.
  - destruct (wait_for p1) as [[e1 | [out1 err1]] |]; [| | discriminate H].
    + injection H as <-. left. cbn. apply skipn_length_app.
    + destruct (_ || _).
      * injection H as <-. left. cbn. apply skipn_length_app.
      * destruct run2 as [e2 | p2].
        -- injection H as <-. right. cbn. rewrite <- app_assoc. apply skipn_length_app.
        -- destruct (wait_for p2) as [[e2 | [out2 err2]] |]; [| | discriminate H];
             injection H as <-; right; cbn; rewrite <- app_assoc; apply skipn_length_app.
Qed.

(* ================================================================== *)
(** * Further properties *)
(* ================================================================== *)

(** ** Strings *)

Lemma str_in_unfold (needle hay : str) :
  str_in needle hay
  = (startswith hay needle
     || match hay with
        | [] => false
        | _ :: hay' => str_in needle hay'
        end).
Proof. destruct hay; reflexivity. Qed.

Lemma startswith_nil (s : str) : startswith s [] = true.
Proof. destruct s; reflexivity. Qed.

Lemma startswith_prefix (s prefix : str) :
  startswith s prefix = true -> exists rest, s = prefix ++ rest.
Proof.
  revert s. induction prefix as [| p prefix' IH]; intros s H.
  - exists s. reflexivity.
  - destruct s as [| c s']; [discriminate H |].
    cbn in H. apply andb_true_iff in H. destruct H as [Hc H].
    apply N.eqb_eq in Hc. subst c.
    destruct (IH s' H) as [rest ->]. exists rest. reflexivity.
Qed.

(** [needle in hay] holds exactly when [hay] is some text, [needle], and
    some text. *)
Lemma str_in_app (needle a b : str) : str_in needle (a ++ needle ++ b) = true.
Proof.
  induction a as [| c a' IH].
  - cbn [app]. rewrite str_in_unfold, startswith_app. reflexivity.
  - cbn [app]. rewrite str_in_unfold. cbn [tl]. rewrite IH. apply orb_true_r.
Qed.

Lemma str_in_split (needle hay : str) :
  str_in needle hay = true -> exists a b, hay = a ++ needle ++ b.
Proof.
  induction hay as [| c hay' IH]; intros H; rewrite str_in_unfold in H;
    apply orb_true_iff in H; destruct H as [H | H].
  - apply startswith_prefix in H. destruct H as [rest H]. exists [], rest. exact H.
  - discriminate H.
  - apply startswith_prefix in H. destruct H as [rest H]. exists [], rest. exact H.
  - destruct (IH H) as (a & b & ->). exists (c :: a), b. reflexivity.
Qed.

(** Lower-casing works code point by code point: the rest of a text is
    lower-cased on its own, the text before it being only context. *)
Lemma lower_from_app (db : unicode_db) (a b before : str) :
  exists lowered,
    lower_from db before (a ++ b) = lowered ++ lower_from db (rev a ++ before) b.
Proof.
  revert before. induction a as [| c a' IH]; intros before.
  - exists []. reflexivity.
  - destruct (IH (c :: before)) as [lowered H].
    exists (lower_cp db before c (a' ++ b) ++ lowered).
    cbn [app lower_from rev]. rewrite H, <- !app_assoc. reflexivity.
Qed.

(** A prefix that ends before the code point [c] cannot reach over it. *)
Lemma startswith_before (a b needle : str) (c : N) :
  ~ In c needle ->
  startswith (a ++ c :: b) needle = true -> startswith a needle = true.
Proof.
  intros Hc. revert a. induction needle as [| p needle' IH]; intros a H.
  - apply startswith_nil.
  - destruct a as [| x a'].
    + cbn in H. apply andb_true_iff in H. destruct H as [H _].
      apply N.eqb_eq in H. subst p. exfalso. apply Hc. left. reflexivity.
    + cbn in H |- *. apply andb_true_iff in H. destruct H as [Hx H].
      rewrite Hx. cbn. apply IH; [| exact H].
      intros Hin. apply Hc. right. exact Hin.
Qed.

(** An occurrence of [needle] does not span a code point that [needle]
    does not contain. *)
Lemma str_in_around (needle a b : str) (c : N) :
  ~ In c needle ->
  str_in needle (a ++ c :: b) = true ->
  str_in needle a = true \/ str_in needle b = true.
Proof.
  intros Hc. induction a as [| x a' IH]; intros H.
  - cbn [app] in H. rewrite str_in_unfold in H.
    apply orb_true_iff in H. destruct H as [H | H]; [| right; exact H].
    left. apply (startswith_before [] b needle c Hc) in H.
    rewrite str_in_unfold, H. reflexivity.
  - cbn [app] in H. rewrite str_in_unfold in H.
    apply orb_true_iff in H. destruct H as [H | H].
    + left. apply (startswith_before (x :: a') b needle c Hc) in H.
      rewrite str_in_unfold, H. reflexivity.
    + destruct (IH H) as [H' | H']; [left | right; exact H'].
      rewrite str_in_unfold, H'. apply orb_true_r.
Qed.

(** A text without line boundaries that occurs in [output] occurs in one
    of its lines. *)
Lemma splitlines_from_keeps (needle : str) :
  needle <> [] ->
  (forall c, In c needle -> is_linebreak c = false) ->
  forall s cur after_cr,
    (after_cr = true -> cur = []) ->
    str_in needle (rev cur ++ s) = true ->
    exists ln, In ln (splitlines_from cur after_cr s) /\ str_in needle ln = true.
Proof.
  intros Hne Hnolb.
  assert (Hnot : forall c, is_linebreak c = true -> ~ In c needle).
  { intros c Hc Hin. rewrite (Hnolb c Hin) in Hc. discriminate Hc. }
  induction s as [| c rest IH]; intros cur after_cr Hcr H.
  - rewrite app_nil_r in H. cbn [splitlines_from].
    destruct cur as [| x cur'].
    + destruct needle; [contradiction | discriminate H].
    + cbn [is_empty]. exists (rev (x :: cur')). split; [left; reflexivity | exact H].
  - cbn [splitlines_from].
    destruct ((c =? 10) && after_cr) eqn:Hskip.
    + apply andb_true_iff in Hskip. destruct Hskip as [Hc10 Hacr].
      apply N.eqb_eq in Hc10. subst c. rewrite (Hcr Hacr) in H. cbn [rev app] in H.
      apply (str_in_around needle [] rest 10) in H; [| apply Hnot; reflexivity].
      destruct H as [H | H]; [destruct needle; [contradiction | discriminate H] |].
      apply (IH [] false); [discriminate | exact H].
    + destruct (is_linebreak c) eqn:Hlb.
      * apply (str_in_around needle (rev cur) rest c (Hnot c Hlb)) in H.
        destruct H as [H | H].
        -- exists (rev cur). split; [left; reflexivity | exact H].
        -- destruct (IH [] (c =? 13)) as (ln & Hin & Hln); [reflexivity | exact H |].
           exists ln. split; [right; exact Hin | exact Hln].
      * apply (IH (c :: cur) false); [discriminate |].
        cbn [rev]. rewrite <- app_assoc. exact H.
Qed.

Lemma splitlines_keeps (needle output : str) :
  needle <> [] ->
  (forall c, In c needle -> is_linebreak c = false) ->
  str_in needle output = true ->
  exists ln, In ln (splitlines output) /\ str_in needle ln = true.
Proof.
  intros Hne Hnolb H.
  apply (splitlines_from_keeps needle Hne Hnolb output [] false); [discriminate | exact H].
Qed.

(** ** The output formatters *)

Lemma focus_markers_on_one_line :
  (forall c, In c (py "mCurrentFocus") -> is_linebreak c = false)
  /\ (forall c, In c (py "mFocusedApp") -> is_linebreak c = false).
Proof.
  split; intros c Hin; vm_compute in Hin;
    repeat (destruct Hin as [<- | Hin]; [reflexivity |]); contradiction.
Qed.

(** [format_activity] never reaches its last [return]: when the text
    holds one of the two focus markers, one of its lines holds it, and the
    loop returns from that line.  So the result is the fixed message, the
    "No current activity found" text, or the "Current focus" text built
    from the first line that holds a marker, and never the raw-output
    fallback. *)
Theorem format_activity_fallback_unreachable (db : unicode_db) (output : str) :
  (format_activity db output = py "No devices connected!"
   \/ format_activity db output = py "No current activity found. Output:" ++ LF ++ output
   \/ exists ln,
        In ln (splitlines output)
        /\ (str_in (py "mCurrentFocus") ln || str_in (py "mFocusedApp") ln) = true
        /\ format_activity db output
           = py "Current focus:" ++ LF ++ strip ln ++ LF ++ LF ++ py "Command run: " ++ DQ
             ++ py "adb shell dumpsys window | grep mCurrentFocus" ++ DQ)
  /\ format_activity db output <> py "Current activity (raw output):" ++ LF ++ output.
Proof.
  assert (Hcases :
    format_activity db output = py "No devices connected!"
    \/ format_activity db output = py "No current activity found. Output:" ++ LF ++ output
    \/ exists ln,
         In ln (splitlines output)
         /\ (str_in (py "mCurrentFocus") ln || str_in (py "mFocusedApp") ln) = true
         /\ format_activity db output
            = py "Current focus:" ++ LF ++ strip ln ++ LF ++ LF ++ py "Command run: " ++ DQ
              ++ py "adb shell dumpsys window | grep mCurrentFocus" ++ DQ).
  { unfold format_activity.
    destruct (str_in (py "no devices") (lower db output)); [left; reflexivity |].
    destruct (str_in (py "mCurrentFocus") output) eqn:H1;
      destruct (str_in (py "mFocusedApp") output) eqn:H2; cbn [negb andb];
      try (right; left; reflexivity); right; right.
    all: destruct (find (fun ln => str_in (py "mCurrentFocus") ln || str_in (py "mFocusedApp") ln)
                        (splitlines output)) as [ln |] eqn:Hfind;
      [apply find_some in Hfind; destruct Hfind as [Hin Hln];
       exists ln; repeat split; assumption |].
    - destruct (splitlines_keeps (py "mCurrentFocus") output ltac:(discriminate)
                  (proj1 focus_markers_on_one_line) H1) as (ln & Hin & Hln).
      pose proof (find_none _ _ Hfind ln Hin) as Hno. cbn beta in Hno.
      rewrite Hln in Hno. discriminate Hno.
    - destruct (splitlines_keeps (py "mCurrentFocus") output ltac:(discriminate)
                  (proj1 focus_markers_on_one_line) H1) as (ln & Hin & Hln).
      pose proof (find_none _ _ Hfind ln Hin) as Hno. cbn beta in Hno.
      rewrite Hln in Hno. discriminate Hno.
    - destruct (splitlines_keeps (py "mFocusedApp") output ltac:(discriminate)
                  (proj2 focus_markers_on_one_line) H2) as (ln & Hin & Hln).
      pose proof (find_none _ _ Hfind ln Hin) as Hno. cbn beta in Hno.
      rewrite Hln, orb_true_r in Hno. discriminate Hno. }
  split; [exact Hcases |].
  destruct Hcases as [H | [H | (ln & _ & _ & H)]]; rewrite H; intros Heq;
    vm_compute in Heq; discriminate Heq.
Qed.

(** The capitalised marker "Success" is a special case of the lower-case
    test. *)
Lemma Success_is_success (db : unicode_db) (output : str) :
  str_in (py "Success") output = true ->
  str_in (py "success") (lower db output) = true.
Proof.
  intros H. apply str_in_split in H. destruct H as (a & b & ->).
  unfold lower.
  destruct (lower_from_app db a (py "Success" ++ b) []) as [lowered ->].
  set (before := rev a ++ []).
  change (lower_from db before (py "Success" ++ b))
    with (py "success"
          ++ lower_from db (115 :: 115 :: 101 :: 99 :: 99 :: 117 :: 83 :: before) b).
  apply str_in_app.
Qed.

(** [format_install] and [format_uninstall] report success exactly when
    the lower-cased text contains "success": the separate test for
    "Success" adds nothing, and a success marker hides every other content
    of the text, also the marker "no devices". *)
Theorem install_success_iff (db : unicode_db) (output : str) :
  (format_install db output
   = py "Installation Successful!" ++ LF ++ LF ++ py "Command run: " ++ DQ
     ++ py "adb install <APK_PATH>" ++ DQ
   <-> str_in (py "success") (lower db output) = true)
  /\ (format_uninstall db output = py "Uninstallation Successful!"
      <-> str_in (py "success") (lower db output) = true).
Proof.
  split; split.
  - unfold format_install.
    destruct (str_in (py "success") (lower db output)) eqn:Hs; [reflexivity |].
    destruct (str_in (py "Success") output) eqn:HS;
      [rewrite (Success_is_success db output HS) in Hs; discriminate Hs |].
    cbn [orb].
    destruct (str_in (py "no devices") (lower db output)); intros Heq;
      vm_compute in Heq; discriminate Heq.
  - intros Hs. unfold format_install. rewrite Hs, orb_true_r. reflexivity.
  - unfold format_uninstall.
    destruct (str_in (py "success") (lower db output)) eqn:Hs; [reflexivity |].
    destruct (str_in (py "Success") output) eqn:HS;
      [rewrite (Success_is_success db output HS) in Hs; discriminate Hs |].
    cbn [orb].
    destruct (str_in (py "no devices") (lower db output)); intros Heq;
      vm_compute in Heq; discriminate Heq.
  - intros Hs. unfold format_uninstall. rewrite Hs, orb_true_r. reflexivity.
Qed.

Lemma splitlines_from_one_line (s cur : str) :
  (forall c, In c s -> is_linebreak c = false) ->
  splitlines_from cur false s = if is_empty (rev cur ++ s) then [] else [rev cur ++ s].
Proof.
  revert cur. induction s as [| c rest IH]; intros cur H.
  - cbn [splitlines_from]. rewrite app_nil_r.
    destruct cur as [| x cur']; [reflexivity |].
    cbn [is_empty]. destruct (rev (x :: cur')) eqn:E; [| reflexivity].
    apply (f_equal (@List.length N)) in E. rewrite length_rev in E. discriminate E.
  - cbn [splitlines_from]. rewrite andb_false_r.
    rewrite (H c (or_introl eq_refl)).
    rewrite IH by (intros x Hx; apply H; right; exact Hx).
    cbn [rev]. rewrite <- app_assoc. reflexivity.
Qed.

Lemma splitlines_from_chars (s cur : str) (after_cr : bool) (ln : str) (c : N) :
  In ln (splitlines_from cur after_cr s) -> In c ln -> In c cur \/ In c s.
Proof.
  revert cur after_cr. induction s as [| x rest IH]; intros cur after_cr Hln Hc.
  - cbn [splitlines_from] in Hln. destruct (is_empty cur); [contradiction |].
    destruct Hln as [<- | []]. left. apply in_rev. exact Hc.
  - cbn [splitlines_from] in Hln.
    destruct ((x =? 10) && after_cr).
    + destruct (IH _ _ Hln Hc) as [[] | H]. right. right. exact H.
    + destruct (is_linebreak x).
      * destruct Hln as [<- | Hln].
        -- left. apply in_rev. exact Hc.
        -- destruct (IH _ _ Hln Hc) as [[] | H]. right. right. exact H.
      * destruct (IH _ _ Hln Hc) as [[<- | H] | H].
        -- right. left. reflexivity.
        -- left. exact H.
        -- right. right. exact H.
Qed.

Lemma lstrip_all_spaces (s : str) :
  (forall c, In c s -> isspace c = true) -> lstrip s = [].
Proof.
  induction s as [| c rest IH]; intros H; [reflexivity |].
  cbn [lstrip]. rewrite (H c (or_introl eq_refl)).
  apply IH. intros x Hx. apply H. right. exact Hx.
Qed.

Lemma strip_all_spaces (s : str) :
  (forall c, In c s -> isspace c = true) -> strip s = [].
Proof.
  intros H. unfold strip. rewrite (lstrip_all_spaces s H). reflexivity.
Qed.

Lemma filter_blank_lines (lines : list str) :
  (forall ln, In ln lines -> strip ln = []) ->
  filter (fun ln => negb (is_empty (strip ln))) lines = [].
Proof.
  induction lines as [| ln rest IH]; intros H; [reflexivity |].
  cbn [filter]. rewrite (H ln (or_introl eq_refl)). cbn [is_empty negb].
  apply IH. intros x Hx. apply H. right. exact Hx.
Qed.

(** [format_devices] always takes the first line that is not blank for
    the header and drops it: a text without any line boundary, even the
    line of a connected device, and a text of white space only both give
    the "No devices connected!" text. *)
Theorem format_devices_header_only (output : str) :
  (forall c, In c output -> is_linebreak c = false)
  \/ (forall c, In c output -> isspace c = true) ->
  format_devices output
  = py "No devices connected!" ++ LF ++ LF ++ py "Command run: " ++ DQ ++ py "adb devices" ++ DQ.
Proof.
  intros [H | H]; unfold format_devices.
  - unfold splitlines. rewrite (splitlines_from_one_line output [] H). cbn [rev app].
    destruct (is_empty output); [reflexivity |].
    cbn [filter]. destruct (negb (is_empty (strip output))); reflexivity.
  - rewrite filter_blank_lines; [reflexivity |].
    intros ln Hln. apply strip_all_spaces. intros c Hc.
    destruct (splitlines_from_chars output [] false ln c Hln Hc) as [[] | Hin].
    apply H. exact Hin.
Qed.

Lemma format_devices_header_only_witness :
  format_devices (py "ABC123" ++ TAB ++ py "device")
  = py "No devices connected!" ++ LF ++ LF ++ py "Command run: " ++ DQ ++ py "adb devices" ++ DQ.
Proof.
  apply format_devices_header_only. left.
  intros c Hin. vm_compute in Hin.
  repeat (destruct Hin as [<- | Hin]; [reflexivity |]). contradiction.
Defined.

(** ** The command runner *)

(** The whole effect of the worker on the window. *)
Lemma thread_target_state (w : worker) (os : popen_result) (s : state) :
  exists text : str,
    thread_target w os s
    = (inr tt,
       set_command_running false
         (set_result_queue (result_queue s ++ [(text, w_button w)])
            (set_launched
               (launched s ++ [if eqb (w_command w) (py "scrcpy") then scrcpy_path
                               else replace (w_command w) (py "adb") adb_path]) s)))
    /\ text = match os with
              | PopenRaises e => py "Error: " ++ str_of_exn e
              | PopenStarts p =>
                  let outcome :=
                    if eqb (w_command w) (py "scrcpy") then w_format_output_func w []
                    else
                      match communicate (replace (w_command w) (py "adb") adb_path) p 300 with
                      | inl e => inl e
                      | inr streams =>
                          w_format_output_func w
                            (or_empty (fst streams) ++ or_empty (snd streams))
                      end in
                  match outcome with
                  | inr formatted_output => formatted_output
                  | inl e => py "Error: " ++ str_of_exn e
                  end
              end.
Proof.
  unfold thread_target, try_finally, try_except, bind, Popen, lift, read_local,
    queue_put, assign_command_running, ret.
  destruct (eqb (w_command w) (py "scrcpy")); destruct os as [e | p]; cbn.
  - eexists; split; reflexivity.
  - destruct (w_format_output_func w []); cbn; eexists; split; reflexivity.
  - eexists; split; reflexivity.
  - destruct (communicate _ p 300) as [e | streams]; cbn; [eexists; split; reflexivity |].
    destruct (w_format_output_func w _); cbn; eexists; split; reflexivity.
Qed.

Lemma scrcpy_is_scrcpy : eqb (py "scrcpy") (py "scrcpy") = true.
Proof. vm_compute. reflexivity. Qed.

Lemma format_scrcpy_empty (db : unicode_db) :
  format_scrcpy db [] = py "CASTING started in the BACKGROUND".
Proof. reflexivity. Qed.

(** The screen-mirroring worker does not wait for its child: once the
    launch has not raised, it reports "CASTING started in the BACKGROUND",
    whatever the child does afterwards, also when it exits at once for
    want of a device or never exits; a launch that raises is reported as
    "Error: ...".  In both cases the worker returns at once, with the
    flag cleared and the path of scrcpy as the only command launched. *)
Theorem cast_screen_reports_at_once (db : unicode_db) (button : option button)
    (os : popen_result) (s : state) :
  thread_target (mkWorker (py "scrcpy") (method (format_scrcpy db)) button) os s
  = (inr tt,
     set_command_running false
       (set_result_queue
          (result_queue s
           ++ [(match os with
                | PopenRaises e => py "Error: " ++ str_of_exn e
                | PopenStarts _ => py "CASTING started in the BACKGROUND"
                end, button)])
          (set_launched (launched s ++ [scrcpy_path]) s))).
Proof.
  destruct (thread_target_state (mkWorker (py "scrcpy") (method (format_scrcpy db)) button)
              os s) as (text & Hrun & Htext).
  cbn [w_command w_button w_format_output_func] in Hrun, Htext.
  rewrite scrcpy_is_scrcpy in Hrun, Htext.
  rewrite Hrun. do 4 f_equal.
  rewrite Htext. destruct os; reflexivity.
Qed.

Lemma drain_keeps (q : list (str * option button)) (s : state) :
  result_queue (drain q s) = match q with [] => result_queue s | _ :: _ => [] end
  /\ threads (drain q s) = threads s
  /\ launched (drain q s) = launched s
  /\ entries (drain q s) = entries s
  /\ progress_counter (drain q s) = progress_counter s.
Proof.
  revert s. induction q as [| [text b] q' IH]; intros s; [repeat split |].
  cbn [drain].
  match goal with
  | |- context [drain q' ?st] => destruct (IH st) as (H1 & H2 & H3 & H4 & H5)
  end.
  rewrite H1, H2, H3, H4, H5.
  destruct b; destruct q'; repeat split.
Qed.

Lemma drain_shows_last (q : list (str * option button)) (text : str) (b : option button)
    (s : state) :
  output_text (drain (q ++ [(text, b)]) s) = text
  /\ command_running (drain (q ++ [(text, b)]) s) = false.
Proof.
  revert s. induction q as [| [text' b'] q' IH]; intros s.
  - cbn [app drain]. destruct b; split; reflexivity.
  - cbn [app drain]. apply IH.
Qed.

Lemma is_disabled_config_normal (b b' : button) (s : state) :
  is_disabled b (config_normal b' s)
  = is_disabled b s && (if button_eq_dec b b' then false else true).
Proof.
  unfold is_disabled, config_normal. cbn [disabled set_disabled].
  induction (disabled s) as [| x l IH]; [reflexivity |].
  cbn [filter existsb].
  destruct (button_eq_dec x b') as [-> | Hxb'].
  - rewrite IH. destruct (button_eq_dec b' b) as [-> | Hne].
    + destruct (button_eq_dec b b); [| contradiction].
      rewrite andb_false_r. reflexivity.
    + destruct (button_eq_dec b b') as [-> | _]; [contradiction |].
      cbn [orb]. reflexivity.
  - cbn [existsb]. rewrite IH.
    destruct (button_eq_dec x b) as [-> | _].
    + destruct (button_eq_dec b b') as [-> | _]; [contradiction |]. reflexivity.
    + reflexivity.
Qed.

Lemma drain_enables (q : list (str * option button)) (b : button) (s : state) :
  is_disabled b s = false \/ (exists text, In (text, Some b) q) ->
  is_disabled b (drain q s) = false.
Proof.
  revert s. induction q as [| [text' b'] q' IH]; intros s H.
  - destruct H as [H | [text []]]. exact H.
  - cbn [drain]. apply IH.
    destruct b' as [b' |].
    + rewrite is_disabled_config_normal.
      change (is_disabled b (set_command_running false
                (output_insert text' (output_delete (set_result_queue q' s)))))
        with (is_disabled b s).
      destruct H as [H | [text [H | H]]].
      * left. rewrite H. reflexivity.
      * injection H as _ ->. left.
        destruct (button_eq_dec b b); [apply andb_false_r | contradiction].
      * right. exists text. exact H.
    + change (is_disabled b (set_command_running false
                (output_insert text' (output_delete (set_result_queue q' s)))))
        with (is_disabled b s).
      destruct H as [H | [text [H | H]]].
      * left. exact H.
      * discriminate H.
      * right. exists text. exact H.
Qed.

(** One turn of [_check_queue] empties the queue and leaves the workers
    and the launched commands alone.  With an empty queue it changes
    nothing; otherwise it clears the Running Flag, leaves the text of the
    result queued last in the output box (the earlier ones are
    overwritten unseen), and every button that came with a result is
    enabled again. *)
Theorem check_queue_drains (s : state) :
  result_queue (_check_queue s) = []
  /\ threads (_check_queue s) = threads s
  /\ launched (_check_queue s) = launched s
  /\ (result_queue s = [] -> _check_queue s = s)
  /\ (forall q text b,
         result_queue s = q ++ [(text, b)] ->
         output_text (_check_queue s) = text /\ command_running (_check_queue s) = false)
  /\ (forall text b,
         In (text, Some b) (result_queue s) -> is_disabled b (_check_queue s) = false).
Proof.
  unfold _check_queue.
  destruct (drain_keeps (result_queue s) s) as (H1 & H2 & H3 & _ & _).
  split; [rewrite H1; destruct (result_queue s); reflexivity |].
  split; [exact H2 |]. split; [exact H3 |].
  split; [intros ->; reflexivity |].
  split.
  - intros q text b ->. apply drain_shows_last.
  - intros text b Hin. apply drain_enables. right. exists text. exact Hin.
Qed.

Lemma check_queue_drains_witness :
  result_queue two_results_window
  = [(py "first", Some reboot_button)] ++ [(py "second", Some network_button)]
  /\ output_text (_check_queue two_results_window) = py "second"
  /\ command_running (_check_queue two_results_window) = false
  /\ is_disabled reboot_button (_check_queue two_results_window) = false.
Proof.
  assert (Hq : result_queue two_results_window
               = [(py "first", Some reboot_button)] ++ [(py "second", Some network_button)])
    by reflexivity.
  pose proof (check_queue_drains two_results_window) as (_ & _ & _ & _ & Hlast & Hbutton).
  split; [exact Hq |].
  split; [exact (proj1 (Hlast _ _ _ Hq)) |].
  split; [exact (proj2 (Hlast _ _ _ Hq)) |].
  apply (Hbutton (py "first")). left. reflexivity.
Defined.

(** The window after an accepted submission. *)
Lemma run_single_adb_command_accepted (command : str) (f : str -> result str)
    (button : option button) (s : state) :
  command_running s = false ->
  run_single_adb_command command f button s
  = mkState true 0 (py "Running command... Please wait." ++ LF) (result_queue s)
      (match button with
       | Some b => b :: disabled s
       | None => disabled s
       end)
      (entries s) (threads s ++ [mkWorker command f button]) (launched s).
Proof.
  intros Hidle. unfold run_single_adb_command. rewrite Hidle.
  destruct button; vm_compute; reflexivity.
Qed.

Lemma worker_text_thread_target (command : str) (f : str -> result str)
    (button : option button) (os : popen_result) (s : state) :
  eqb command (py "scrcpy") = false ->
  thread_target (mkWorker command f button) os s
  = (inr tt,
     set_command_running false
       (set_result_queue (result_queue s ++ [(worker_text command f os, button)])
          (set_launched (launched s ++ [replace command (py "adb") adb_path]) s))).
Proof.
  intros Hcmd.
  destruct (thread_target_state (mkWorker command f button) os s) as (text & Hrun & Htext).
  cbn [w_command w_button w_format_output_func] in Hrun, Htext.
  rewrite Hcmd in Hrun, Htext. rewrite Hrun. do 4 f_equal.
  rewrite Htext. unfold worker_text.
  destruct os as [e | p]; [reflexivity |].
  cbn zeta. destruct (communicate _ p 300); reflexivity.
Qed.

(** The window at the end of a round trip. *)
Lemma round_trip_effect (command : str) (f : str -> result str)
    (button : option button) (os : popen_result) (s : state)
    (Hidle : command_running s = false) (Hthreads : threads s = [])
    (Hqueue : result_queue s = []) (Hcmd : eqb command (py "scrcpy") = false) :
  command_running (round_trip command f button os s) = false
  /\ threads (round_trip command f button os s) = []
  /\ result_queue (round_trip command f button os s) = []
  /\ output_text (round_trip command f button os s) = worker_text command f os
  /\ launched (round_trip command f button os s)
     = launched s ++ [replace command (py "adb") adb_path]
  /\ (forall b, button = Some b -> is_disabled b (round_trip command f button os s) = false)
  /\ entries (round_trip command f button os s) = entries s.
Proof.
  unfold round_trip.
  rewrite (run_single_adb_command_accepted command f button s Hidle).
  unfold worker_runs. cbn [threads]. rewrite Hthreads. cbn [app nth_error].
  rewrite worker_text_thread_target by exact Hcmd.
  cbn [snd]. unfold _check_queue.
  cbn [result_queue set_command_running set_result_queue set_launched set_threads
       command_running progress_counter output_text disabled entries threads launched].
  rewrite Hqueue. cbn [app].
  destruct button as [b |]; cbn [drain]; repeat split;
    intros b0 H; [| discriminate H].
  injection H as <-.
  rewrite is_disabled_config_normal.
  destruct (button_eq_dec b b); [apply andb_false_r | contradiction].
Qed.

(** Idle, running, idle: from a window that is idle, with no worker and
    an empty queue, a submission of a command other than "scrcpy", the
    run of its worker and one turn of [_check_queue] lead back to an idle
    window with no worker and an empty queue.  One command line was
    launched, the output box shows the text of the worker, and the button
    given to the runner is enabled again. *)
Theorem round_trip_back_to_idle (command : str) (f : str -> result str)
    (button : option button) (os : popen_result) (s : state)
    (Hidle : command_running s = false) (Hthreads : threads s = [])
    (Hqueue : result_queue s = []) (Hcmd : eqb command (py "scrcpy") = false) :
  command_running (round_trip command f button os s) = false
  /\ threads (round_trip command f button os s) = []
  /\ result_queue (round_trip command f button os s) = []
  /\ output_text (round_trip command f button os s) = worker_text command f os
  /\ launched (round_trip command f button os s)
     = launched s ++ [replace command (py "adb") adb_path]
  /\ (forall b, button = Some b -> is_disabled b (round_trip command f button os s) = false)
  /\ entries (round_trip command f button os s) = entries s.
Proof.
  exact (round_trip_effect command f button os s Hidle Hthreads Hqueue Hcmd).
Qed.

Lemma round_trip_back_to_idle_witness :
  output_text (round_trip (py "adb devices") (method format_devices)
                 (Some list_devices_button)
                 (exits_after 1 (py "List of devices attached")) (initial_state desktop))
  = worker_text (py "adb devices") (method format_devices)
      (exits_after 1 (py "List of devices attached"))
  /\ command_running (round_trip (py "adb devices") (method format_devices)
                        (Some list_devices_button)
                        (exits_after 1 (py "List of devices attached"))
                        (initial_state desktop)) = false.
Proof.
  assert (Hcmd : eqb (py "adb devices") (py "scrcpy") = false) by (vm_compute; reflexivity).
  assert (Hidle : command_running (initial_state desktop) = false)
    by (vm_compute; reflexivity).
  assert (Hthreads : threads (initial_state desktop) = []) by (vm_compute; reflexivity).
  assert (Hqueue : result_queue (initial_state desktop) = []) by (vm_compute; reflexivity).
  pose proof (round_trip_back_to_idle (py "adb devices") (method format_devices)
                (Some list_devices_button) (exits_after 1 (py "List of devices attached"))
                (initial_state desktop) Hidle Hthreads Hqueue Hcmd)
    as (H1 & _ & _ & H4 & _).
  split; [exact H4 | exact H1].
Defined.

Lemma adb_path_same : ADBTool.adb_path = adb_path.
Proof. vm_compute. reflexivity. Qed.



(** Every handler either shows an error or calls the runner. *)
Lemma handler_shape (db : unicode_db) (env : os_env) (op : operation) (s : state) :
  (exists msg, handler db env op s = _show_error msg s)
  \/ (exists command f b, handler db env op s = run_single_adb_command command f (Some b) s).
Proof.
  destruct op; cbn [handler];
    unfold run_install_apk, run_search_apk, run_uninstall_apk, run_sideload_firmware,
      run_check_storage, run_adb_push, run_adb_pull, run_text_input,
      run_execute_command, run_start_activity;
    repeat match goal with
           | |- context [if ?c then _ else _] => destruct c
           end;
    solve [left; eexists; reflexivity | right; do 3 eexists; reflexivity].
Qed.

(** The effect of a click. *)
Lemma click_effect (db : unicode_db) (env : os_env)
    (op : operation) (s : state) :
  launched (step db env (Click op) s) = launched s
  /\ result_queue (step db env (Click op) s) = result_queue s
  /\ entries (step db env (Click op) s) = entries s
  /\ ((command_running (step db env (Click op) s) = command_running s
       /\ threads (step db env (Click op) s) = threads s)
      \/ (command_running s = false
          /\ command_running (step db env (Click op) s) = true
          /\ exists w, threads (step db env (Click op) s) = threads s ++ [w])).
Proof.
  cbn [step]. destruct (is_disabled (widget_of op) s).
  - repeat split. left. split; reflexivity.
  - destruct (handler_shape db env op s) as [[msg ->] | (command & f & b & ->)].
    + repeat split. left. split; reflexivity.
    + destruct (command_running s) eqn:Hflag.
      * destruct (busy_rejection command f (Some b) s Hflag)
          as (_ & _ & H1 & H2 & H3 & H4 & _).
        cbn zeta in *. rewrite H1, H2, H3, H4, entries_run.
        repeat split. left. split; reflexivity.
      * rewrite (run_single_adb_command_accepted command f (Some b) s Hflag).
        cbn [launched result_queue entries command_running threads].
        repeat split. right. repeat split. eexists. reflexivity.
Qed.

(** What a click on one of the twenty-five buttons that go through
    [run_single_adb_command] can do (every operation button but "Screen
    Shot", whose handler runs its two commands on the calling thread, and
    "Get Device Info", which has a runner of its own): it never launches
    a process and never touches the queue; either it leaves the flag and
    the workers as they are (the button is disabled, the input is
    refused, or the runner is busy), or the window was idle and now is
    busy with exactly one more worker. *)
Theorem click_starts_at_most_one_worker (db : unicode_db) (env : os_env)
    (op : operation) (s : state) :
  launched (step db env (Click op) s) = launched s
  /\ result_queue (step db env (Click op) s) = result_queue s
  /\ entries (step db env (Click op) s) = entries s
  /\ ((command_running (step db env (Click op) s) = command_running s
       /\ threads (step db env (Click op) s) = threads s)
      \/ (command_running s = false
          /\ command_running (step db env (Click op) s) = true
          /\ exists w, threads (step db env (Click op) s) = threads s ++ [w])).
Proof. exact (click_effect db env op s). Qed.

Lemma worker_runs_clears_flag (i : nat) (os : popen_result) (s : state) :
  worker_runs i os s = s \/ command_running (worker_runs i os s) = false.
Proof.
  unfold worker_runs. destruct (nth_error (threads s) i) as [w |]; [| left; reflexivity].
  right.
  match goal with
  | |- context [thread_target w os ?st] =>
      destruct (thread_target_returns w os st) as (text & _ & _ & H)
  end.
  exact H.
Qed.

Lemma check_queue_flag (s : state) :
  _check_queue s = s \/ command_running (_check_queue s) = false.
Proof.
  unfold _check_queue.
  destruct (result_queue s) as [| item q] eqn:Hq; [left; reflexivity |].
  right.
  destruct (@exists_last _ (item :: q) ltac:(discriminate)) as (q' & [text b] & ->).
  apply drain_shows_last.
Qed.

(** The window cannot be left busy without a worker: in every window
    reached by clicks, worker runs and timer turns from one where the
    Running Flag is only set while a worker is alive, the flag is only set
    while a worker is alive.  So a busy rejection always has a live worker
    behind it, whose end clears the flag. *)
Theorem busy_window_has_live_worker (db : unicode_db) (env : os_env)
    (evs : list event) (s : state) :
  busy_has_worker s -> busy_has_worker (run_events db env evs s).
Proof.
  unfold run_events. revert s.
  induction evs as [| ev evs IH]; intros s Hinv; [exact Hinv |].
  cbn [fold_left]. apply IH. clear IH. unfold busy_has_worker in *.
  destruct ev as [op | i os | |].
  - destruct (click_effect db env op s)
      as (_ & _ & _ & [[H1 H2] | (_ & _ & w & H)]).
    + rewrite H1, H2. exact Hinv.
    + intros _. rewrite H. destruct (threads s); discriminate.
  - cbn [step]. destruct (worker_runs_clears_flag i os s) as [-> | H]; [exact Hinv |].
    rewrite H. discriminate.
  - cbn [step]. destruct (check_queue_flag s) as [-> | H]; [exact Hinv |].
    rewrite H. discriminate.
  - cbn [step]. unfold _update_progress.
    destruct (command_running s) eqn:Hflag; [| rewrite Hflag; discriminate].
    cbn [command_running threads set_progress_counter output_delete output_insert
         set_output_text].
    intros _. apply Hinv. reflexivity.
Qed.

Lemma busy_window_has_live_worker_witness :
  busy_has_worker (initial_state desktop)
  /\ busy_has_worker
       (run_events latin1_db sample_env
          [Click list_devices; UpdateProgress;
           WorkerRuns 0 (exits_after 1 (py "List of devices attached")); CheckQueue]
          (initial_state desktop)).
Proof.
  assert (H0 : busy_has_worker (initial_state desktop))
    by (intros H; vm_compute in H; discriminate H).
  split; [exact H0 |].
  apply busy_window_has_live_worker. exact H0.
Defined.

(** The progress timer does nothing on an idle window; on a busy one
    every turn adds one to the counter and shows it.  The runner resets
    the counter when it accepts a command, so [n] turns after an accepted
    submission the output box reads "Still running... (ns)". *)
Theorem progress_counts_ticks (command : str) (f : str -> result str)
    (button : option button) (s : state) (n : nat)
    (Hidle : command_running s = false) :
  _update_progress s = s
  /\ progress_counter (progress_ticks n (run_single_adb_command command f button s))
     = N.of_nat n
  /\ command_running (progress_ticks n (run_single_adb_command command f button s)) = true
  /\ (n <> 0%nat ->
      output_text (progress_ticks n (run_single_adb_command command f button s))
      = py "Still running... (" ++ str_of_N (N.of_nat n) ++ py "s)" ++ LF).
Proof.
  split; [unfold _update_progress; rewrite Hidle; reflexivity |].
  rewrite (run_single_adb_command_accepted command f button s Hidle).
  set (s0 := mkState _ _ _ _ _ _ _ _).
  assert (H : progress_counter (progress_ticks n s0) = N.of_nat n
              /\ command_running (progress_ticks n s0) = true).
  { induction n as [| k [IH1 IH2]]; [split; reflexivity |].
    cbn [progress_ticks]. unfold _update_progress. rewrite IH2.
    cbn [progress_counter command_running set_progress_counter output_delete
         output_insert set_output_text].
    rewrite IH1, IH2. split; [lia | reflexivity]. }
  destruct H as [H1 H2]. split; [exact H1 |]. split; [exact H2 |].
  intros Hn. destruct n as [| k]; [contradiction |].
  clear H1 H2.
  assert (H : progress_counter (progress_ticks k s0) = N.of_nat k
              /\ command_running (progress_ticks k s0) = true).
  { clear Hn. induction k as [| k [IH1 IH2]]; [split; reflexivity |].
    cbn [progress_ticks]. unfold _update_progress. rewrite IH2.
    cbn [progress_counter command_running set_progress_counter output_delete
         output_insert set_output_text].
    rewrite IH1, IH2. split; [lia | reflexivity]. }
  destruct H as [H1 H2].
  cbn [progress_ticks]. unfold _update_progress. rewrite H2.
  cbn [progress_counter output_text set_progress_counter output_delete output_insert
       set_output_text app].
  rewrite H1. replace (N.of_nat k + 1) with (N.of_nat (S k)) by lia. reflexivity.
Qed.

Lemma progress_counts_ticks_witness :
  command_running (initial_state desktop) = false
  /\ output_text (progress_ticks 3
                    (run_single_adb_command (py "adb devices") (method format_devices)
                       (Some list_devices_button) (initial_state desktop)))
     = py "Still running... (" ++ str_of_N (N.of_nat 3) ++ py "s)" ++ LF.
Proof.
  assert (Hidle : command_running (initial_state desktop) = false)
    by (vm_compute; reflexivity).
  split; [exact Hidle |].
  apply (progress_counts_ticks (py "adb devices") (method format_devices)
           (Some list_devices_button) (initial_state desktop) 3 Hidle).
  discriminate.
Defined.

(** [run_screenshot] does not look at the Running Flag: in every window,
    also a busy one, it runs its commands on the calling thread.  When it
    returns it has executed at least the screencap command, the output
    box starts with "Taking screenshot...", and the flag, the workers, the
    queue and the buttons are as they were. *)
Theorem screenshot_ignores_running_flag (db : unicode_db) (env : os_env) (ts : str)
    (run1 run2 : popen_result) (s s' : state) :
  run_screenshot db env ts run1 run2 s = Some s' ->
  command_running s' = command_running s
  /\ threads s' = threads s
  /\ result_queue s' = result_queue s
  /\ disabled s' = disabled s
  /\ executed s s' <> []
  /\ startswith (output_text s') (py "Taking screenshot..." ++ LF) = true.
Proof.
  intros H.
  assert (Hexec : executed s s' <> []).
  { destruct (run_screenshot_executes db env ts run1 run2 s s' H) as [-> | ->];
      discriminate. }
  unfold run_screenshot in H.
  destruct run1 as [e1 | p1]; [| destruct (wait_for p1) as [[e1 | [out1 err1]] |];
    [| destruct (_ || _);
       [| destruct run2 as [e2 | p2];
          [| destruct (wait_for p2) as [[e2 | [out2 err2]] |]]] |]];
    try discriminate H;
    injection H as <-;
    (split; [reflexivity |]); (split; [reflexivity |]); (split; [reflexivity |]);
    (split; [reflexivity |]); (split; [exact Hexec |]);
    vm_compute; reflexivity.
Qed.

Lemma screenshot_ignores_running_flag_witness :
  command_running busy_window = true
  /\ exists s',
       run_screenshot latin1_db sample_env (py "20250812_101500")
         (exits_after 1 []) (exits_after 2 (py "1 file pulled")) busy_window = Some s'
       /\ command_running s' = true
       /\ threads s' = threads busy_window.
Proof.
  split; [vm_compute; reflexivity |].
  destruct (run_screenshot latin1_db sample_env (py "20250812_101500")
              (exits_after 1 []) (exits_after 2 (py "1 file pulled")) busy_window)
    as [s' |] eqn:E; [| vm_compute in E; discriminate E].
  exists s'. split; [reflexivity |].
  destruct (screenshot_ignores_running_flag _ _ _ _ _ _ _ E) as (H1 & H2 & _).
  split; [rewrite H1; vm_compute; reflexivity | exact H2].
Defined.

Lemma is_disabled_accepted (command : str) (f : str -> result str) (b b' : button)
    (s : state) :
  command_running s = false ->
  is_disabled b' (run_single_adb_command command f (Some b) s)
  = (if button_eq_dec b b' then true else false) || is_disabled b' s.
Proof.
  intros Hidle. rewrite (run_single_adb_command_accepted command f (Some b) s Hidle).
  reflexivity.
Qed.

(** An accepted click disables the button the handler hands to the
    runner.  That is the clicked button for every operation but "Check
    Activity", whose handler hands over [self.activity_button], by then
    the "Start Package/Activity" button: the "Check Activity" button
    itself stays as it was. *)
Theorem accepted_click_disables_passed_button (db : unicode_db) (env : os_env)
    (op : operation) (s : state)
    (Hidle : command_running s = false)
    (Haccepted : command_running (handler db env op s) = true) :
  is_disabled (passed_button op) (handler db env op s) = true
  /\ (op <> check_activity -> passed_button op = widget_of op)
  /\ (op = check_activity ->
      is_disabled (widget_of op) (handler db env op s) = is_disabled (widget_of op) s).
Proof.
  split; [| split].
  - destruct op; cbn [handler passed_button widget_of] in *;
      unfold run_install_apk, run_search_apk, run_uninstall_apk, run_sideload_firmware,
        run_check_storage, run_adb_push, run_adb_pull, run_text_input,
        run_execute_command, run_start_activity in *;
      repeat match goal with
             | |- context [if ?c then _ else _] => destruct c
             end;
      try (change (command_running s = true) in Haccepted;
           rewrite Hidle in Haccepted; discriminate Haccepted);
      rewrite is_disabled_accepted by exact Hidle;
      match goal with
      | |- context [button_eq_dec ?b ?b] => destruct (button_eq_dec b b); [| contradiction]
      end; reflexivity.
  - intros Hop. destruct op; try reflexivity. contradiction.
  - intros ->. cbn [handler widget_of].
    rewrite is_disabled_accepted by exact Hidle.
    destruct (button_eq_dec activity_button check_activity_widget); [discriminate |].
    reflexivity.
Qed.

Lemma accepted_click_disables_passed_button_witness :
  command_running (initial_state desktop) = false
  /\ is_disabled activity_button
       (handler latin1_db sample_env check_activity (initial_state desktop)) = true
  /\ is_disabled check_activity_widget
       (handler latin1_db sample_env check_activity (initial_state desktop))
     = is_disabled check_activity_widget (initial_state desktop).
Proof.
  assert (Hidle : command_running (initial_state desktop) = false)
    by (vm_compute; reflexivity).
  assert (Hacc : command_running
                   (handler latin1_db sample_env check_activity (initial_state desktop))
                 = true) by (vm_compute; reflexivity).
  destruct (accepted_click_disables_passed_button latin1_db sample_env check_activity
              (initial_state desktop) Hidle Hacc) as (H1 & _ & H3).
  split; [exact Hidle |]. split; [exact H1 | exact (H3 eq_refl)].
Defined.

(** ** The invocations *)

Lemma replace_quote_escapes (s : str) (escaped : bool) :
  quotes_escaped escaped (replace_from DQ (BSL ++ DQ) 0 s) = true.
Proof.
  revert escaped. induction s as [| c rest IH]; intros escaped; [reflexivity |].
  cbn [replace_from]. unfold DQ at 1. cbn [startswith].
  rewrite startswith_nil, andb_true_r.
  destruct (c =? 34) eqn:Hc.
  - cbn [BSL DQ app List.length Nat.sub quotes_escaped].
    change (92 =? 34) with false. change (92 =? 92) with true.
    change (34 =? 34) with true. change (34 =? 92) with false.
    cbn [andb]. apply IH.
  - cbn [quotes_escaped]. rewrite Hc. cbn [andb]. apply IH.
Qed.

(** The "Enter Text" handler escapes every double quote of the text: in
    the invocation it submits, [adb shell input text "..."] around the
    text, each double quote of the text comes right after a backslash. *)
Theorem text_input_escapes_quotes (db : unicode_db) (s : state)
    (Hidle : command_running s = false)
    (Htext : is_empty (strip (entries s text_input_entry)) = false) :
  submitted s (run_text_input db s)
  = [py "adb shell input text " ++ DQ
     ++ replace (strip (entries s text_input_entry)) DQ (BSL ++ DQ) ++ DQ]
  /\ quotes_escaped false (replace (strip (entries s text_input_entry)) DQ (BSL ++ DQ)) = true.
Proof.
  split.
  - unfold run_text_input. rewrite Htext, submitted_run, Hidle. reflexivity.
  - apply replace_quote_escapes.
Qed.

Lemma text_input_escapes_quotes_witness :
  submitted (type_into text_input_entry (py "say " ++ DQ ++ py "hi" ++ DQ)
               (initial_state desktop))
    (run_text_input latin1_db
       (type_into text_input_entry (py "say " ++ DQ ++ py "hi" ++ DQ)
          (initial_state desktop)))
  = [py "adb shell input text " ++ DQ ++ py "say " ++ BSL ++ DQ ++ py "hi" ++ BSL ++ DQ ++ DQ].
Proof.
  assert (Hidle : command_running (type_into text_input_entry
                                     (py "say " ++ DQ ++ py "hi" ++ DQ)
                                     (initial_state desktop)) = false)
    by (vm_compute; reflexivity).
  assert (Htext : is_empty (strip (entries (type_into text_input_entry
                                              (py "say " ++ DQ ++ py "hi" ++ DQ)
                                              (initial_state desktop))
                                     text_input_entry)) = false)
    by (vm_compute; reflexivity).
  rewrite (proj1 (text_input_escapes_quotes latin1_db _ Hidle Htext)).
  vm_compute. reflexivity.
Defined.

(** ** The device information query *)

Lemma query_one_good (os : nat -> DeviceInfo.probe) (i : nat) (prop : str * str)
    (rest : list (str * str)) (results : list str) (st : DeviceInfo.info_state) (v : str) :
  DeviceInfo.value_of (os i) = Some v ->
  DeviceInfo.query os i (prop :: rest) results st
  = DeviceInfo.query os (S i) rest (results ++ [v])
      (DeviceInfo.mkInfo (DeviceInfo.window st) (DeviceInfo.info_threads st)
         (DeviceInfo.probes st ++ [DeviceInfo.getprop_argv prop])).
Proof.
  intros Hv. destruct prop as [prop label].
  cbn [DeviceInfo.query]. unfold DeviceInfo.bind, DeviceInfo.Popen, DeviceInfo.lift.
  unfold DeviceInfo.value_of in Hv.
  destruct (os i) as [e | p returncode]; [discriminate Hv |].
  cbn [fst snd]. unfold communicate in *.
  destruct (duration p) as [d |]; [| discriminate Hv].
  destruct (d <=? 30); [| discriminate Hv].
  destruct (read_failure p); [discriminate Hv |].
  destruct (Z.eqb returncode 0); [| discriminate Hv].
  destruct (stdout p) as [out |]; [| discriminate Hv].
  injection Hv as <-. reflexivity.
Qed.

Lemma query_one_bad (os : nat -> DeviceInfo.probe) (i : nat) (prop : str * str)
    (rest : list (str * str)) (results : list str) (st : DeviceInfo.info_state) :
  DeviceInfo.value_of (os i) = None ->
  exists e,
    DeviceInfo.query os i (prop :: rest) results st
    = (inl e,
       DeviceInfo.mkInfo (DeviceInfo.window st) (DeviceInfo.info_threads st)
         (DeviceInfo.probes st ++ [DeviceInfo.getprop_argv prop]))
    /\ device_info_except_text e = DeviceInfo.failure_text (os i).
Proof.
  intros Hv. destruct prop as [prop label].
  cbn [DeviceInfo.query]. unfold DeviceInfo.bind, DeviceInfo.Popen, DeviceInfo.lift.
  unfold DeviceInfo.value_of in Hv. unfold DeviceInfo.failure_text.
  destruct (os i) as [e | p returncode].
  - eexists. split; [reflexivity |]. destruct e; vm_compute; reflexivity.
  - cbn [fst snd]. unfold communicate in *.
    destruct (duration p) as [d |].
    + destruct (d <=? 30).
      * destruct (read_failure p) as [e |].
        -- eexists. split; [reflexivity |]. destruct e; vm_compute; reflexivity.
        -- destruct (Z.eqb returncode 0).
           ++ destruct (stdout p) as [out |]; [discriminate Hv |].
              eexists. split; [reflexivity | vm_compute; reflexivity].
           ++ eexists. split; [reflexivity | vm_compute; reflexivity].
      * eexists. split; [reflexivity | vm_compute; reflexivity].
    + eexists. split; [reflexivity | vm_compute; reflexivity].
Qed.

Lemma query_all_good (os : nat -> DeviceInfo.probe) (v : nat -> str)
    (todo : list (str * str)) :
  forall (i : nat) (results : list str) (st : DeviceInfo.info_state),
    (forall j, (j < List.length todo)%nat -> DeviceInfo.value_of (os (i + j)%nat)
                                             = Some (v (i + j)%nat)) ->
    DeviceInfo.query os i todo results st
    = (inr (results ++ map v (seq i (List.length todo))),
       DeviceInfo.mkInfo (DeviceInfo.window st) (DeviceInfo.info_threads st)
         (DeviceInfo.probes st ++ map DeviceInfo.getprop_argv todo)).
Proof.
  induction todo as [| prop rest IH]; intros i results st H.
  - cbn. rewrite !app_nil_r. destruct st; reflexivity.
  - assert (H0 : DeviceInfo.value_of (os i) = Some (v i)).
    { specialize (H 0%nat). rewrite Nat.add_0_r in H. apply H. cbn. lia. }
    rewrite (query_one_good os i prop rest results st (v i) H0).
    rewrite IH.
    + cbn [DeviceInfo.window DeviceInfo.info_threads DeviceInfo.probes List.length seq map].
      rewrite <- !app_assoc. reflexivity.
    + intros j Hj. replace (S i + j)%nat with (i + S j)%nat by lia.
      apply H. cbn. lia.
Qed.

Lemma query_first_bad (os : nat -> DeviceInfo.probe) (todo : list (str * str)) :
  forall (k i : nat) (results : list str) (st : DeviceInfo.info_state),
    (k < List.length todo)%nat ->
    (forall j, (j < k)%nat -> DeviceInfo.value_of (os (i + j)%nat) <> None) ->
    DeviceInfo.value_of (os (i + k)%nat) = None ->
    exists e,
      DeviceInfo.query os i todo results st
      = (inl e,
         DeviceInfo.mkInfo (DeviceInfo.window st) (DeviceInfo.info_threads st)
           (DeviceInfo.probes st ++ map DeviceInfo.getprop_argv (firstn (S k) todo)))
      /\ device_info_except_text e = DeviceInfo.failure_text (os (i + k)%nat).
Proof.
  induction todo as [| prop rest IH]; intros k i results st Hk Hgood Hbad.
  - cbn in Hk. lia.
  - destruct k as [| k].
    + rewrite Nat.add_0_r in Hbad |- *.
      destruct (query_one_bad os i prop rest results st Hbad) as (e & Hq & He).
      exists e. split; [| exact He]. rewrite Hq. cbn [firstn map]. reflexivity.
    + destruct (DeviceInfo.value_of (os i)) as [v |] eqn:Hv.
      * rewrite (query_one_good os i prop rest results st v Hv).
        destruct (IH k (S i) (results ++ [v])
                    (DeviceInfo.mkInfo (DeviceInfo.window st) (DeviceInfo.info_threads st)
                       (DeviceInfo.probes st ++ [DeviceInfo.getprop_argv prop])))
          as (e & Hq & He).
        -- cbn in Hk. lia.
        -- intros j Hj. replace (S i + j)%nat with (i + S j)%nat by lia.
           apply Hgood. lia.
        -- replace (S i + k)%nat with (i + S k)%nat by lia. exact Hbad.
        -- exists e. split.
           ++ rewrite Hq.
              cbn [DeviceInfo.window DeviceInfo.info_threads DeviceInfo.probes firstn map].
              rewrite <- !app_assoc. reflexivity.
           ++ rewrite He. f_equal. f_equal. lia.
      * exfalso. apply (Hgood 0%nat); [lia |]. rewrite Nat.add_0_r. exact Hv.
Qed.

Lemma device_info_length_props : List.length DeviceInfo.props = 7%nat.
Proof. reflexivity. Qed.

(** When the seven queries go well, each child exiting within 30 seconds
    with return code 0, the device-information worker launches the seven
    queries in order and reports the text built from their trimmed
    outputs ("N/A" for an empty one); it returns without raising and
    clears the Running Flag. *)
Theorem device_info_all_good (button : option button) (os : nat -> DeviceInfo.probe)
    (v : nat -> str) (st : DeviceInfo.info_state)
    (Hgood : forall i, (i < 7)%nat -> DeviceInfo.value_of (os i) = Some (v i)) :
  DeviceInfo.thread_target button os st
  = (inr tt, device_info_done button (device_info_text v) 7 st).
Proof.
  unfold DeviceInfo.thread_target, DeviceInfo.try_finally, DeviceInfo.try_except.
  unfold DeviceInfo.bind at 1.
  rewrite (query_all_good os v DeviceInfo.props 0 [] st)
    by (intros j Hj; rewrite device_info_length_props in Hj; apply Hgood; exact Hj).
  destruct st as [w threads probes].
  vm_compute. reflexivity.
Qed.

Lemma device_info_all_good_witness :
  DeviceInfo.thread_target None (fun _ => answers (py " PX-01 " ++ LF))
    (DeviceInfo.mkInfo busy_window [None] [])
  = (inr tt,
     device_info_done None (device_info_text (fun _ => py "PX-01")) 7
       (DeviceInfo.mkInfo busy_window [None] [])).
Proof.
  apply device_info_all_good. intros i _. vm_compute. reflexivity.
Defined.

(** The device-information worker stops at the first query that does not
    go well: it launches no further query, reports the one text that
    belongs to that failure ("No devices connected!" for a return code
    other than 0, "Error: Device info query timed out." for a child that
    needs more than 30 seconds, "Error running adb: ..." otherwise),
    returns without raising and clears the Running Flag. *)
Theorem device_info_first_failure (button : option button) (os : nat -> DeviceInfo.probe)
    (k : nat) (st : DeviceInfo.info_state)
    (Hk : (k < 7)%nat)
    (Hgood : forall j, (j < k)%nat -> DeviceInfo.value_of (os j) <> None)
    (Hbad : DeviceInfo.value_of (os k) = None) :
  DeviceInfo.thread_target button os st
  = (inr tt, device_info_done button (DeviceInfo.failure_text (os k)) (S k) st).
Proof.
  unfold DeviceInfo.thread_target, DeviceInfo.try_finally, DeviceInfo.try_except.
  unfold DeviceInfo.bind at 1.
  destruct (query_first_bad os DeviceInfo.props k 0 [] st) as (e & Hq & He).
  - rewrite device_info_length_props. exact Hk.
  - exact Hgood.
  - exact Hbad.
  - rewrite Hq. cbn [Nat.add] in He. rewrite <- He.
    destruct st as [w threads probes].
    destruct e as [returncode cmd | e']; [| destruct e']; vm_compute; reflexivity.
Qed.

Lemma device_info_first_failure_witness :
  DeviceInfo.failure_text no_device = py "No devices connected!" ++ LF
  /\ DeviceInfo.thread_target None
       (fun i => match i with
                 | O => answers (py "PX-01")
                 | _ => no_device
                 end)
       (DeviceInfo.mkInfo busy_window [None] [])
     = (inr tt,
        device_info_done None (DeviceInfo.failure_text no_device) 2
          (DeviceInfo.mkInfo busy_window [None] [])).
Proof.
  split; [vm_compute; reflexivity |].
  assert (Hgood : forall j, (j < 1)%nat ->
             DeviceInfo.value_of (match j with
                                  | O => answers (py "PX-01")
                                  | _ => no_device
                                  end) <> None).
  { intros j Hj. destruct j as [| j]; [| lia]. vm_compute. discriminate. }
  assert (Hbad : DeviceInfo.value_of no_device = None) by (vm_compute; reflexivity).
  exact (device_info_first_failure None
           (fun i => match i with
                     | O => answers (py "PX-01")
                     | _ => no_device
                     end) 1 (DeviceInfo.mkInfo busy_window [None] [])
           ltac:(lia) Hgood Hbad).
Defined.

(** The device-information query and the command runner share the
    Running Flag.  On a busy window the query is refused: the busy error
    replaces the "Fetching device info..." text, no worker is started and
    the flag stays set.  On an idle window it sets the flag and starts its
    worker, and from then on every call of [run_single_adb_command] is
    refused with the busy error. *)
Theorem device_info_shares_the_gate (btn : option button) (st : DeviceInfo.info_state)
    (command : str) (f : str -> result str) (b : option button) :
  (command_running (DeviceInfo.window st) = true ->
   DeviceInfo.info_threads (DeviceInfo.run_adb_command_device_info btn st)
   = DeviceInfo.info_threads st
   /\ command_running (DeviceInfo.window (DeviceInfo.run_adb_command_device_info btn st))
      = true
   /\ threads (DeviceInfo.window (DeviceInfo.run_adb_command_device_info btn st))
      = threads (DeviceInfo.window st)
   /\ output_text (DeviceInfo.window (DeviceInfo.run_adb_command_device_info btn st))
      = py "Error: Another command is running. Please wait." ++ LF)
  /\ (command_running (DeviceInfo.window st) = false ->
      DeviceInfo.info_threads (DeviceInfo.run_adb_command_device_info btn st)
      = DeviceInfo.info_threads st ++ [btn]
      /\ command_running
           (DeviceInfo.window (DeviceInfo.run_adb_command_device_info btn st)) = true
      /\ output_text (DeviceInfo.window (DeviceInfo.run_adb_command_device_info btn st))
         = py "Fetching device info... Please wait." ++ LF
      /\ run_single_adb_command command f b
           (DeviceInfo.window (DeviceInfo.run_adb_command_device_info btn st))
         = _show_error (py "Another command is running. Please wait.")
             (DeviceInfo.window (DeviceInfo.run_adb_command_device_info btn st))).
Proof.
  unfold DeviceInfo.run_adb_command_device_info.
  cbn [command_running output_insert output_delete set_output_text].
  split; intros Hflag; rewrite Hflag.
  - cbn [DeviceInfo.info_threads DeviceInfo.window].
    split; [reflexivity |]. split; [exact Hflag |]. split; [reflexivity |].
    vm_compute. reflexivity.
  - cbn [DeviceInfo.info_threads DeviceInfo.window].
    split; [reflexivity |].
    assert (Hbusy : forall w,
               command_running
                 (match btn with
                  | Some b0 => config_disabled b0 (set_progress_counter 0
                                                     (set_command_running true w))
                  | None => set_progress_counter 0 (set_command_running true w)
                  end) = true) by (intros w; destruct btn; reflexivity).
    split; [apply Hbusy |].
    split; [destruct btn; vm_compute; reflexivity |].
    apply (busy_rejection command f b). apply Hbusy.
Qed.

Lemma device_info_shares_the_gate_witness :
  command_running (DeviceInfo.window (DeviceInfo.mkInfo busy_window [] [])) = true
  /\ DeviceInfo.info_threads
       (DeviceInfo.run_adb_command_device_info None (DeviceInfo.mkInfo busy_window [] []))
     = []
  /\ output_text
       (DeviceInfo.window
          (DeviceInfo.run_adb_command_device_info None (DeviceInfo.mkInfo busy_window [] [])))
     = py "Error: Another command is running. Please wait." ++ LF.
Proof.
  assert (Hbusy : command_running (DeviceInfo.window (DeviceInfo.mkInfo busy_window [] []))
                  = true) by (vm_compute; reflexivity).
  destruct (proj1 (device_info_shares_the_gate None (DeviceInfo.mkInfo busy_window [] [])
                     [] (fun o => inr o) None) Hbusy) as (H1 & _ & _ & H4).
  split; [exact Hbusy |]. split; [exact H1 | exact H4].
Defined.

(** ** The two variants *)

Lemma blocking_show_error_launched (msg : str) (w : ADBTool_handlers.window) :
  ADBTool.launched (ADBTool_handlers.box (ADBTool_handlers._show_error msg w))
  = ADBTool.launched (ADBTool_handlers.box w) ++ [].
Proof. rewrite app_nil_r. reflexivity. Qed.

Lemma blocking_call_launched (cmd : str) (f : str -> str) (run : popen_result)
    (w : ADBTool_handlers.window) :
  match ADBTool_handlers.call cmd f run w with
  | Some w' =>
      ADBTool.launched (ADBTool_handlers.box w')
      = ADBTool.launched (ADBTool_handlers.box w) ++ [replace cmd (py "adb") adb_path]
  | None => exists p, run = PopenStarts p /\ duration p = None
  end.
Proof.
  unfold ADBTool_handlers.call, ADBTool.run_single_adb_command.
  rewrite adb_path_same.
  destruct run as [e | p]; [reflexivity |].
  unfold wait_for.
  destruct (duration p) eqn:Hd.
  - destruct (read_failure p); reflexivity.
  - exists p. split; [reflexivity | exact Hd].
Qed.

(** The blocking variant executes what the threaded variant submits: for
    every operation the two files share, with the same texts in the
    entries and the same file system, the blocking handler hands to the
    shell exactly the invocations the threaded handler submits from an
    idle window, with "adb" replaced by the path of the tool, and none
    when the threaded handler refuses the input.  (The blocking handler
    only fails to return when it has launched a child that never exits.) *)
Theorem blocking_runs_what_threaded_submits (db : unicode_db) (env : os_env)
    (run : popen_result) (op : ADBTool_handlers.operation)
    (w : ADBTool_handlers.window) (s : state)
    (Hentries : forall e, ADBTool_handlers.entries w e = entries s e)
    (Hidle : command_running s = false) :
  match ADBTool_handlers.handler db env run op w with
  | Some w' =>
      ADBTool.launched (ADBTool_handlers.box w')
      = ADBTool.launched (ADBTool_handlers.box w)
        ++ map (fun command => replace command (py "adb") adb_path)
               (submitted s (handler db env (threaded_operation op) s))
  | None => exists p, run = PopenStarts p /\ duration p = None
  end.
Proof.
  destruct op; cbn [ADBTool_handlers.handler threaded_operation handler];
    unfold ADBTool_handlers.run_install_apk, ADBTool_handlers.run_search_apk,
      ADBTool_handlers.run_uninstall_apk, ADBTool_handlers.run_sideload_firmware,
      ADBTool_handlers.run_check_storage, ADBTool_handlers.run_adb_push,
      ADBTool_handlers.run_adb_pull, ADBTool_handlers.run_text_input,
      ADBTool_handlers.run_execute_command, ADBTool_handlers.run_start_activity,
      run_install_apk, run_search_apk, run_uninstall_apk, run_sideload_firmware,
      run_check_storage, run_adb_push, run_adb_pull, run_text_input,
      run_execute_command, run_start_activity;
    rewrite ?Hentries;
    repeat match goal with
           | |- context [if ?c then _ else _] => destruct c
           end;
    rewrite ?submitted_show_error, ?submitted_run, ?Hidle;
    cbn [map];
    first [ apply blocking_show_error_launched | apply blocking_call_launched ].
Qed.

Lemma blocking_runs_what_threaded_submits_witness :
  match ADBTool_handlers.handler latin1_db sample_env (exits_after 1 (py "Success"))
          ADBTool_handlers.install_apk
          (ADBTool_handlers.mkWindow (entries upper_case_apk_window) (ADBTool.mkState [] []))
  with
  | Some w' =>
      ADBTool.launched (ADBTool_handlers.box w')
      = [] ++ map (fun command => replace command (py "adb") adb_path)
                  (submitted upper_case_apk_window
                     (handler latin1_db sample_env install_apk upper_case_apk_window))
  | None => False
  end.
Proof.
  assert (Hidle : command_running upper_case_apk_window = false)
    by (vm_compute; reflexivity).
  pose proof (blocking_runs_what_threaded_submits latin1_db sample_env
                (exits_after 1 (py "Success")) ADBTool_handlers.install_apk
                (ADBTool_handlers.mkWindow (entries upper_case_apk_window)
                   (ADBTool.mkState [] []))
                upper_case_apk_window (fun e => eq_refl) Hidle) as H.
  destruct (ADBTool_handlers.handler latin1_db sample_env (exits_after 1 (py "Success"))
              ADBTool_handlers.install_apk
              (ADBTool_handlers.mkWindow (entries upper_case_apk_window)
                 (ADBTool.mkState [] []))) as [w' |].
  - exact H.
  - destruct H as (p & Hp & Hd). injection Hp as <-. discriminate Hd.
Defined.

(** ** Pasting *)

Lemma lstrip_suffix (s : str) : exists p, s = p ++ lstrip s.
Proof.
  induction s as [| c rest [p IH]]; [exists []; reflexivity |].
  cbn [lstrip]. destruct (isspace c).
  - exists (c :: p). cbn [app]. rewrite <- IH. reflexivity.
  - exists []. reflexivity.
Qed.


Lemma lstrip_solid (s : str) : starts_solid (lstrip s).
Proof.
  induction s as [| c rest IH]; [exact I |].
  cbn [lstrip]. destruct (isspace c) eqn:Hc; [exact IH | exact Hc].
Qed.

Lemma lstrip_fixed (s : str) : starts_solid s -> lstrip s = s.
Proof.
  destruct s as [| c rest]; [reflexivity |].
  cbn [starts_solid lstrip]. intros ->. reflexivity.
Qed.

(** Trimming a trimmed text changes nothing. *)
Lemma strip_idempotent (s : str) : strip (strip s) = strip s.
Proof.
  unfold strip.
  set (u := lstrip s). set (v := lstrip (rev u)).
  assert (Hv : starts_solid v) by apply lstrip_solid.
  assert (Hrev : starts_solid (rev v)).
  { destruct (lstrip_suffix (rev u)) as [p Hp]. fold v in Hp.
    apply (f_equal (@rev N)) in Hp. rewrite rev_involutive, rev_app_distr in Hp.
    pose proof (lstrip_solid s) as Hu. fold u in Hu. rewrite Hp in Hu.
    destruct (rev v) as [| x t]; [exact I | exact Hu]. }
  rewrite (lstrip_fixed (rev v) Hrev), rev_involutive, (lstrip_fixed v Hv).
  reflexivity.
Qed.

(** A paste replaces the content of the entry by the trimmed text of the
    clipboard, and leaves the other entries alone; it does nothing when
    the clipboard cannot be read.  The pasted content is already trimmed,
    so the [strip] of the handlers leaves it as it is, and pasting the
    same text again changes nothing. *)
Theorem paste_replaces_with_trimmed_text (clipboard : option str) (e : entry) (s : state) :
  (forall text,
      clipboard = Some text ->
      entries (handle_paste clipboard e s) e = strip text
      /\ strip (entries (handle_paste clipboard e s) e) = entries (handle_paste clipboard e s) e)
  /\ (forall e', e' <> e -> entries (handle_paste clipboard e s) e' = entries s e')
  /\ (clipboard = None -> handle_paste clipboard e s = s)
  /\ (forall e',
         entries (handle_paste clipboard e (handle_paste clipboard e s)) e'
         = entries (handle_paste clipboard e s) e').
Proof.
  destruct clipboard as [text |]; cbn [handle_paste].
  - split; [| split; [| split]].
    + intros text' H. injection H as <-.
      unfold type_into. cbn [entries].
      destruct (entry_eq_dec e e); [| contradiction].
      split; [reflexivity | apply strip_idempotent].
    + intros e' He'. unfold type_into. cbn [entries].
      destruct (entry_eq_dec e' e); [contradiction | reflexivity].
    + discriminate.
    + intros e'. unfold type_into. cbn [entries].
      destruct (entry_eq_dec e' e); reflexivity.
  - split; [| split; [| split]].
    + discriminate.
    + reflexivity.
    + reflexivity.
    + reflexivity.
Qed.

Lemma paste_replaces_with_trimmed_text_witness :
  entries (handle_paste (Some (py "  /sdcard/Download/a.txt" ++ LF)) push_device_entry
             (initial_state desktop)) push_device_entry
  = strip (py "  /sdcard/Download/a.txt" ++ LF)
  /\ entries (handle_paste (Some (py "  /sdcard/Download/a.txt" ++ LF)) push_device_entry
                (initial_state desktop)) pull_device_entry
     = entries (initial_state desktop) pull_device_entry
  /\ handle_paste None push_device_entry (initial_state desktop) = initial_state desktop.
Proof.
  pose proof (paste_replaces_with_trimmed_text
                (Some (py "  /sdcard/Download/a.txt" ++ LF)) push_device_entry
                (initial_state desktop)) as (H1 & H2 & _).
  pose proof (paste_replaces_with_trimmed_text None push_device_entry
                (initial_state desktop)) as (_ & _ & H3 & _).
  split; [exact (proj1 (H1 _ eq_refl)) |].
  split; [apply H2; discriminate | exact (H3 eq_refl)].
Defined.

(** ** More on the runner and the handlers *)

(** While the Running Flag is set, every call of [run_single_adb_command]
    returns at once with the busy error in the output box; the flag, the
    queue, the workers, the launched commands and the buttons are as they
    were. *)
Theorem runner_refuses_while_busy (command : str) (f : str -> result str)
    (b : option button) (s : state) (Hbusy : command_running s = true) :
  run_single_adb_command command f b s
  = _show_error (py "Another command is running. Please wait.") s
  /\ output_text (run_single_adb_command command f b s)
     = py "Error: Another command is running. Please wait." ++ LF
  /\ command_running (run_single_adb_command command f b s) = true
  /\ result_queue (run_single_adb_command command f b s) = result_queue s
  /\ threads (run_single_adb_command command f b s) = threads s
  /\ launched (run_single_adb_command command f b s) = launched s
  /\ disabled (run_single_adb_command command f b s) = disabled s.
Proof. exact (busy_rejection command f b s Hbusy). Qed.

Lemma runner_refuses_while_busy_witness :
  command_running busy_window = true
  /\ threads (run_single_adb_command (py "adb reboot") (method (format_reboot latin1_db))
                (Some reboot_button) busy_window)
     = threads busy_window
  /\ output_text (run_single_adb_command (py "adb reboot") (method (format_reboot latin1_db))
                    (Some reboot_button) busy_window)
     = py "Error: Another command is running. Please wait." ++ LF.
Proof.
  assert (Hbusy : command_running busy_window = true) by (vm_compute; reflexivity).
  destruct (runner_refuses_while_busy (py "adb reboot") (method (format_reboot latin1_db))
              (Some reboot_button) busy_window Hbusy) as (_ & H2 & _ & _ & H5 & _).
  split; [exact Hbusy |]. split; [exact H5 | exact H2].
Defined.

(** Where the two variants differ: for a child that exits, but only after
    more than 300 seconds, the blocking runner waits and shows what the
    formatter makes of the output, while the threaded worker gives up and
    reports the time-out. *)
Theorem threaded_times_out_where_blocking_waits (command : str) (f : str -> str)
    (p : process) (d : N) (sb : ADBTool.state)
    (Hcmd : eqb command (py "scrcpy") = false)
    (Hread : read_failure p = None) (Hd : duration p = Some d) (Hlong : 300 < d) :
  (exists sb',
      ADBTool.run_single_adb_command command (fun output => inr (f output))
        (PopenStarts p) sb = Some sb'
      /\ ADBTool.output_text sb' = f (or_empty (stdout p) ++ or_empty (stderr p)))
  /\ worker_text command (method f) (PopenStarts p)
     = py "Error: Command '" ++ replace command (py "adb") adb_path
       ++ py "' timed out after 300 seconds".
Proof.
  split.
  - unfold ADBTool.run_single_adb_command, wait_for. rewrite Hd, Hread.
    eexists. split; reflexivity.
  - unfold worker_text, communicate. rewrite Hd.
    apply N.leb_gt in Hlong. rewrite Hlong.
    vm_compute. reflexivity.
Qed.

Lemma threaded_times_out_where_blocking_waits_witness :
  worker_text (py "adb logcat -d") (method (format_command latin1_db))
    (exits_after 301 (py "log"))
  = py "Error: Command '" ++ replace (py "adb logcat -d") (py "adb") adb_path
    ++ py "' timed out after 300 seconds".
Proof.
  assert (Hcmd : eqb (py "adb logcat -d") (py "scrcpy") = false)
    by (vm_compute; reflexivity).
  assert (Hlong : 300 < 301) by lia.
  exact (proj2 (threaded_times_out_where_blocking_waits (py "adb logcat -d")
                  (format_command latin1_db)
                  {| duration := Some 301; stdout := Some (py "log"); stderr := Some [];
                     read_failure := None |}
                  301 (ADBTool.mkState [] []) Hcmd eq_refl eq_refl Hlong)).
Defined.

(** The handlers that read an entry refuse blank input, and the uninstall
    and sideload handlers refuse what fails their checks: a blank search
    fragment, text, command or activity, a package name that is blank or
    does not contain "com.", and a firmware path that names no existing
    file or whose lower-cased name does not end in ".zip" all end in an
    error in the output box, with no invocation built, no worker started
    and the Running Flag as it was. *)
Theorem other_handlers_refuse_bad_input (db : unicode_db) (env : os_env) (s : state) :
  (is_empty (strip (entries s search_apk_entry)) = true ->
   precondition_error s (run_search_apk db s))
  /\ (is_empty (strip (entries s text_input_entry)) = true ->
      precondition_error s (run_text_input db s)
      /\ precondition_error s (run_execute_command db s))
  /\ (is_empty (strip (entries s start_activity_entry)) = true ->
      precondition_error s (run_start_activity db s))
  /\ (str_in (py "com.") (strip (entries s uninstall_apk_entry)) = false ->
      precondition_error s (run_uninstall_apk db s))
  /\ ((isfile env (expanduser env (strip (entries s sideload_apk_entry)))
       && endswith (lower db (expanduser env (strip (entries s sideload_apk_entry))))
                   (py ".zip")) = false ->
      precondition_error s (run_sideload_firmware db env s)).
Proof.
  split; [| split; [| split; [| split]]].
  - intros H. unfold run_search_apk. rewrite H. apply show_error_is_precondition_error.
  - intros H. unfold run_text_input, run_execute_command. rewrite H.
    split; apply show_error_is_precondition_error.
  - intros H. unfold run_start_activity. rewrite H. apply show_error_is_precondition_error.
  - intros H. unfold run_uninstall_apk. rewrite H. cbn [negb]. rewrite orb_true_r.
    apply show_error_is_precondition_error.
  - intros H. unfold run_sideload_firmware.
    apply andb_false_iff in H. destruct H as [H | H]; rewrite H; cbn [negb];
      rewrite ?orb_true_r; apply show_error_is_precondition_error.
Qed.

Lemma other_handlers_refuse_bad_input_witness :
  precondition_error (initial_state desktop) (run_search_apk latin1_db (initial_state desktop))
  /\ precondition_error (initial_state desktop)
       (run_uninstall_apk latin1_db (initial_state desktop))
  /\ precondition_error (initial_state desktop)
       (run_sideload_firmware latin1_db sample_env (initial_state desktop)).
Proof.
  pose proof (other_handlers_refuse_bad_input latin1_db sample_env (initial_state desktop))
    as (H1 & _ & _ & H4 & H5).
  split; [apply H1; vm_compute; reflexivity |].
  split; [apply H4; vm_compute; reflexivity |].
  apply H5; vm_compute; reflexivity.
Defined.

Lemma install_success_iff_witness :
  str_in (py "success") (lower latin1_db (py "Performing Streamed Install" ++ LF ++ py "SUCCESS"))
  = true
  /\ format_install latin1_db (py "Performing Streamed Install" ++ LF ++ py "SUCCESS")
     = py "Installation Successful!" ++ LF ++ LF ++ py "Command run: " ++ DQ
       ++ py "adb install <APK_PATH>" ++ DQ.
Proof.
  assert (H : str_in (py "success")
                (lower latin1_db (py "Performing Streamed Install" ++ LF ++ py "SUCCESS"))
              = true) by (vm_compute; reflexivity).
  split; [exact H |].
  exact (proj2 (proj1 (install_success_iff latin1_db
                         (py "Performing Streamed Install" ++ LF ++ py "SUCCESS"))) H).
Defined.

(** ** The untyped formatters *)














(** The untyped formatters do raise on what is not a string. *)
Lemma dynamic_formatters_raise :
  Dynamic.format_devices Dynamic.VNone = inl Dynamic.AttributeError
  /\ Dynamic.format_install latin1_db Dynamic.VNone = inl Dynamic.TypeError
  /\ Dynamic.format_command latin1_db (Dynamic.VBool true) = inl Dynamic.AttributeError.
Proof. repeat split. Qed.

(** ** The command formatter *)









(** ** C7 *)



(** ** C5 *)



(** ** The wait comes before the reading *)

(** A child whose output cannot be decoded and that needs more than 300
    seconds, or never ends: the threaded worker gives up after 300
    seconds and reports the time-out, not the failure of the reading; the
    blocking runner shows the failure of the reading once the child has
    ended, and does not return for a child that never ends. *)
Theorem slow_unreadable_child (command : str) (f : str -> result str) (p : process)
    (e : exn) (sb : ADBTool.state)
    (Hcmd : eqb command (py "scrcpy") = false)
    (Hread : read_failure p = Some e)
    (Hlong : forall d, duration p = Some d -> 300 < d) :
  worker_text command f (PopenStarts p)
  = py "Error: Command '" ++ replace command (py "adb") adb_path
    ++ py "' timed out after 300 seconds"
  /\ match duration p with
     | Some _ =>
         exists sb',
           ADBTool.run_single_adb_command command f (PopenStarts p) sb = Some sb'
           /\ ADBTool.output_text sb' = py "Error: " ++ str_of_exn e
     | None => ADBTool.run_single_adb_command command f (PopenStarts p) sb = None
     end.
Proof.
  split.
  - unfold worker_text, communicate.
    destruct (duration p) as [d |] eqn:Hd.
    + specialize (Hlong d eq_refl). apply N.leb_gt in Hlong. rewrite Hlong.
      vm_compute. reflexivity.
    + vm_compute. reflexivity.
  - unfold ADBTool.run_single_adb_command, wait_for.
    destruct (duration p) as [d |]; [| reflexivity].
    rewrite Hread. eexists. split; reflexivity.
Qed.

Lemma slow_unreadable_child_witness :
  worker_text (py "adb logcat -d") (method (format_command latin1_db))
    (PopenStarts {| duration := Some 301; stdout := None; stderr := None;
                    read_failure := Some (OtherException (py "invalid start byte")) |})
  = py "Error: Command '" ++ replace (py "adb logcat -d") (py "adb") adb_path
    ++ py "' timed out after 300 seconds".
Proof.
  assert (Hcmd : eqb (py "adb logcat -d") (py "scrcpy") = false)
    by (vm_compute; reflexivity).
  refine (proj1 (slow_unreadable_child (py "adb logcat -d")
                   (method (format_command latin1_db))
                   {| duration := Some 301; stdout := None; stderr := None;
                      read_failure := Some (OtherException (py "invalid start byte")) |}
                   (OtherException (py "invalid start byte"))
                   (ADBTool.mkState [] []) Hcmd eq_refl _)).
  intros d Hd. injection Hd as <-. lia.
Defined.
